(** * simple-note: the time-range filter resolver [parse_timefilter]

    A shallow embedding of [parse_timefilter] as it is written in
    [src/bin/simple_note.py] (lines 508-596) and in [src/bin/main.py]
    (lines 397-485), together with the parts of the Python runtime the
    function calls: [str] methods, the three [re] patterns, naive
    [datetime] arithmetic, [calendar.monthrange] and the builtin [eval].
    Around it, the code that calls it: [parse_filter] of both files,
    [parse_regexfilter], the default filters of [simple_note()] and
    [main()], the statement of [get_log], and the checks on ids and notes
    of [add_log], [delete_log] and [display_log].

    Conventions.
    - A Python [str] is a Rocq [string]; every [ascii] stands for the code
      point with the same number (0..255).
    - A Python [int] is a [Z].
    - A naive [datetime] with [microsecond = 0] is the number of seconds
      elapsed on the wall clock since 0001-01-01T00:00:00 (a [Z]); its
      [year], [month] and [day] are recovered by the ordinal conversion of
      the [datetime] module.
    - What depends on the host (the time zone database behind
      [datetime.timestamp], the wall clock behind [datetime.now], and the
      builtin [eval]) is a field of the class [Host]. *)

From Stdlib Require Import ZArith Lia Ascii String List Bool.
From Stdlib Require Import DecimalString DecimalFacts DecimalPos DecimalN DecimalZ.
From stdpp Require Import base gmap strings.

Local Open Scope Z_scope.

(** ** Python [str] methods *)

Module PyStr.

(** [str.isspace] on one code point; [\s] of a [str] pattern agrees with it. *)
Definition is_whitespace (c : ascii) : bool :=
  let n := Z.of_nat (nat_of_ascii c) in
  ((9 <=? n) && (n <=? 13)) || ((28 <=? n) && (n <=? 32))
  || (n =? 133) || (n =? 160).

(** [c.isnumeric()] on one code point below 256: the decimal digits, the
    superscripts 1, 2, 3 and the three vulgar fractions. *)
Definition is_numeric_char (c : ascii) : bool :=
  let n := Z.of_nat (nat_of_ascii c) in
  ((48 <=? n) && (n <=? 57)) || (n =? 178) || (n =? 179) || (n =? 185)
  || ((188 <=? n) && (n <=? 190)).

Fixpoint all_chars (p : ascii -> bool) (s : string) : bool :=
  match s with
  | EmptyString => true
  | String c r => p c && all_chars p r
  end.

(** [s.isnumeric()] *)
Definition isnumeric (s : string) : bool :=
  match s with
  | EmptyString => false
  | _ => all_chars is_numeric_char s
  end.

(** [c in s] for a one-character [c] *)
Fixpoint contains (c : ascii) (s : string) : bool :=
  match s with
  | EmptyString => false
  | String d r => Ascii.eqb c d || contains c r
  end.

(** [s.lstrip()] *)
Fixpoint lstrip (s : string) : string :=
  match s with
  | EmptyString => EmptyString
  | String c r => if is_whitespace c then lstrip r else s
  end.

(** [s.rstrip()] *)
Fixpoint rstrip (s : string) : string :=
  match s with
  | EmptyString => EmptyString
  | String c r =>
      match rstrip r with
      | EmptyString => if is_whitespace c then EmptyString else String c EmptyString
      | r' => String c r'
      end
  end.

(** [s.strip()] *)
Definition strip (s : string) : string := rstrip (lstrip s).

(** the rest of [s] after the prefix [p], when [s] starts with [p] *)
Fixpoint strip_prefix (p s : string) : option string :=
  match p, s with
  | EmptyString, _ => Some s
  | String a p', String b s' => if Ascii.eqb a b then strip_prefix p' s' else None
  | String _ _, EmptyString => None
  end.

Definition starts_with (p s : string) : bool :=
  match strip_prefix p s with Some _ => true | None => false end.

Definition push_head (c : ascii) (parts : list string) : list string :=
  match parts with
  | h :: t => String c h :: t
  | [] => [String c EmptyString]
  end.

(** [s.split(sep)] for a non-empty [sep]: the scan goes left to right and the
    occurrences taken do not overlap; [skip] counts the characters of an
    occurrence that are still to be passed over. *)
Fixpoint split_go (sep : string) (skip : nat) (s : string) : list string :=
  match s with
  | EmptyString => [EmptyString]
  | String c r =>
      match skip with
      | S k => split_go sep k r
      | O =>
          if starts_with sep s
          then EmptyString :: split_go sep (Nat.pred (String.length sep)) r
          else push_head c (split_go sep O r)
      end
  end.

Definition split (sep s : string) : list string := split_go sep O s.

(** [s.replace(c, t)] for a one-character [c] *)
Fixpoint replace_char (c : ascii) (t s : string) : string :=
  match s with
  | EmptyString => EmptyString
  | String d r =>
      if Ascii.eqb c d then (t ++ replace_char c t r)%string
      else String d (replace_char c t r)
  end.

(** [' '.join(parts)] *)
Fixpoint join_space (parts : list string) : string :=
  match parts with
  | [] => EmptyString
  | [p] => p
  | p :: rest => (p ++ " " ++ join_space rest)%string
  end.

End PyStr.

(** ** The three [re] patterns of the resolver *)

Module PyRe.
Import PyStr.

(** One match of [\s*range\s*=\s*] anchored at the start of [s]; the result
    is the text after the match.  Every [\s*] of the pattern is followed by a
    character that is not white space (or by the end of the pattern), so the
    greedy choice is the only one that can match. *)
Definition match_range_eq (s : string) : option string :=
  match strip_prefix "range" (lstrip s) with
  | Some s1 =>
      match lstrip s1 with
      | String "=" s2 => Some (lstrip s2)
      | _ => None
      end
  | None => None
  end.

(** [re.sub('\s*range\s*=\s*', '', s)]: every match is deleted, scanning
    from the left; [skip] counts the characters of the current match that are
    still to be passed over. *)
Fixpoint sub_range_go (skip : nat) (s : string) : string :=
  match s with
  | EmptyString => EmptyString
  | String c r =>
      match skip with
      | S k => sub_range_go k r
      | O =>
          match match_range_eq s with
          | Some rest =>
              sub_range_go (Nat.pred (String.length s - String.length rest)) r
          | None => String c (sub_range_go O r)
          end
      end
  end.

Definition sub_range (s : string) : string := sub_range_go O s.

(** the class [[\-,\+]]: minus, comma and plus *)
Definition is_opchar (c : ascii) : bool :=
  Ascii.eqb c "-" || Ascii.eqb c "," || Ascii.eqb c "+".

Definition is_newline (c : ascii) : bool := Ascii.eqb c "010".

(** [.*] from the start of [s]: the text up to the first line feed *)
Fixpoint line_head (s : string) : string :=
  match s with
  | EmptyString => EmptyString
  | String c r => if is_newline c then EmptyString else String c (line_head r)
  end.

(** [.*(?=[\-,\+])] anchored at the start of [s]: the longest prefix without
    a line feed that is followed by a character of the class. *)
Fixpoint upto_last_op (s : string) : option string :=
  match s with
  | EmptyString => None
  | String c r =>
      if is_newline c then None
      else
        match upto_last_op r with
        | Some p => Some (String c p)
        | None => if is_opchar c then Some EmptyString else None
        end
  end.

(** [re.search('.*(?=[\-,\+])', s)]: [None] when there is no match, else
    [group(0)] of the leftmost one. *)
Fixpoint search_before_op (s : string) : option string :=
  match upto_last_op s with
  | Some p => Some p
  | None =>
      match s with
      | EmptyString => None
      | String _ r => search_before_op r
      end
  end.

(** [re.search('(?<=[\-,\+]).*', s)]: the leftmost position with a character
    of the class just before it, and the rest of that line. *)
Fixpoint search_after_op (s : string) : option string :=
  match s with
  | EmptyString => None
  | String c r => if is_opchar c then Some (line_head r) else search_after_op r
  end.

(** [re.search('[\-,\+]', s)] *)
Fixpoint search_op (s : string) : option string :=
  match s with
  | EmptyString => None
  | String c r => if is_opchar c then Some (String c EmptyString) else search_op r
  end.

End PyRe.

(** ** Python values, [str()], [isinstance(_, int)] and the builtin [eval] *)

Module PyEval.
Import PyStr.

(** What a slot of [query_range] or an operand can hold: an [int], a [bool]
    (a subclass of [int]), a [str], or any other object, kept with its
    [str()]. *)
Inductive pyval : Type :=
| VInt (z : Z)
| VBool (b : bool)
| VStr (s : string)
| VOther (repr : string).

(** [str(n)] for an [int] *)
Definition str_int (z : Z) : string := NilZero.string_of_int (Z.to_int z).

(** [str(v)] *)
Definition py_str (v : pyval) : string :=
  match v with
  | VInt z => str_int z
  | VBool true => "True"
  | VBool false => "False"
  | VStr s => s
  | VOther r => r
  end.

(** [isinstance(v, int)] *)
Definition isinstance_int (v : pyval) : bool :=
  match v with
  | VInt _ | VBool _ => true
  | VStr _ | VOther _ => false
  end.

(** What a call [eval(src)] inside [try: ... except Exception] can do: give
    a value, raise something the handler catches, or anything else (raise
    [SystemExit], not return). *)
Inductive eval_outcome : Type :=
| EvValue (v : pyval)
| EvRaise
| EvEscape.

(** *** Integer arithmetic: the part of [eval] that is modelled

    [arith_eval src] is [Some o] when [src] is made of spaces, the operators
    [+ - *] and words of letters, digits and underscores only, and Python's
    answer can be told from the text alone: a [SyntaxError], or the value of
    an expression over decimal literals.  It is [None] everywhere else
    (names, keywords, other literals, any other character).  Integers are
    unbounded, as in the language; the interpreter's configurable limit on
    the number of digits of a literal is not modelled. *)

Inductive token : Type :=
| TNum (n : Z)
| TName
| TPlus
| TMinus
| TStar.

Inductive lexeme : Type :=
| LTok (t : token)
| LBad          (* no Python token starts like this: SyntaxError *)
| LUnknown.     (* outside the modelled part *)

Definition is_digit (c : ascii) : bool :=
  let n := Z.of_nat (nat_of_ascii c) in (48 <=? n) && (n <=? 57).

Definition is_letter (c : ascii) : bool :=
  let n := Z.of_nat (nat_of_ascii c) in
  ((65 <=? n) && (n <=? 90)) || ((97 <=? n) && (n <=? 122)) || (n =? 95).

Definition is_word_char (c : ascii) : bool := is_digit c || is_letter c.

Definition flush (cur : string) (l : list string) : list string :=
  match cur with
  | EmptyString => l
  | _ => cur :: l
  end.

(** the words and operators of [s], in order; [None] on a character outside
    the alphabet and on [**] *)
Fixpoint chunks_go (cur : string) (s : string) : option (list string) :=
  match s with
  | EmptyString => Some (flush cur [])
  | String c r =>
      if is_word_char c then chunks_go (cur ++ String c EmptyString) r
      else if Ascii.eqb c " " then
        match chunks_go EmptyString r with
        | Some l => Some (flush cur l)
        | None => None
        end
      else if Ascii.eqb c "+" || Ascii.eqb c "-"
              || (Ascii.eqb c "*" && negb (starts_with "*" r)) then
        match chunks_go EmptyString r with
        | Some l => Some (flush cur (String c EmptyString :: l))
        | None => None
        end
      else None
  end.

Definition keywords : list string :=
  [ "False"; "None"; "True"; "and"; "as"; "assert"; "async"; "await";
    "break"; "class"; "continue"; "def"; "del"; "elif"; "else"; "except";
    "finally"; "for"; "from"; "global"; "if"; "import"; "in"; "is";
    "lambda"; "nonlocal"; "not"; "or"; "pass"; "raise"; "return"; "try";
    "while"; "with"; "yield" ]%string.

Fixpoint drop_digits (s : string) : string :=
  match s with
  | EmptyString => EmptyString
  | String c r => if is_digit c then drop_digits r else s
  end.

(** a word that starts with a digit and goes on with [suffix]: can it still
    be (the start of) a literal other than a decimal integer, or a number
    glued to a keyword? *)
Definition suffix_may_be_valid (word suffix : string) : bool :=
  match suffix with
  | EmptyString => false
  | String c _ =>
      contains c "_eEjJlL"
      || (starts_with "0" word && contains c "xXoObB")
      || existsb (fun k => starts_with k suffix) keywords
  end.

(** a run of digits as a decimal literal: a leading zero is allowed only when
    all digits are zero *)
Definition decimal_literal (w : string) : lexeme :=
  match NilZero.uint_of_string w with
  | Some u =>
      if starts_with "0" w && negb (all_chars (Ascii.eqb "0") w) then LBad
      else LTok (TNum (Z.of_uint u))
  | None => LBad
  end.

Definition classify (w : string) : lexeme :=
  match w with
  | EmptyString => LBad
  | String c r =>
      if Ascii.eqb c "+" then LTok TPlus
      else if Ascii.eqb c "-" then LTok TMinus
      else if Ascii.eqb c "*" then LTok TStar
      else if is_digit c then
        match drop_digits w with
        | EmptyString => decimal_literal w
        | suffix => if suffix_may_be_valid w suffix then LUnknown else LBad
        end
      else if existsb (String.eqb w) keywords then LUnknown
      else LTok TName
  end.

(** [Some None]: one lexeme is bad; [None]: one is outside the modelled part *)
Definition tok_cons (l : lexeme) (rest : option (option (list token)))
  : option (option (list token)) :=
  match l, rest with
  | LUnknown, _ | _, None => None
  | LBad, Some _ | LTok _, Some None => Some None
  | LTok t, Some (Some ts) => Some (Some (t :: ts))
  end.

Definition tokens_of (ls : list lexeme) : option (option (list token)) :=
  fold_right tok_cons (Some (Some [])) ls.

(** The grammar [sum := term (('+'|'-') term)*], [term := factor ('*'
    factor)*], [factor := ('+'|'-') factor | atom], read left to right:
    [total] is the sum of the terms that are closed, [prod] the product of
    the factors of the open term with the signs met so far, [operand] says
    whether an operand has to come next, [named] whether a name was met.
    [None] is a [SyntaxError]. *)
Fixpoint parse_sum (total prod : Z) (operand named : bool) (ts : list token)
  : option (Z * bool) :=
  match ts with
  | [] => if operand then None else Some (total + prod, named)
  | t :: rest =>
      match operand, t with
      | true, TNum n => parse_sum total (prod * n) false named rest
      | true, TName => parse_sum total prod false true rest
      | true, TPlus => parse_sum total prod true named rest
      | true, TMinus => parse_sum total (- prod) true named rest
      | true, TStar => None
      | false, TPlus => parse_sum (total + prod) 1 true named rest
      | false, TMinus => parse_sum (total + prod) (-1) true named rest
      | false, TStar => parse_sum total prod true named rest
      | false, TNum _ | false, TName => None
      end
  end.

(** the tokens of [src]; [Some None]: a [SyntaxError] for sure; [None]: not
    modelled *)
Definition lex (src : string) : option (option (list token)) :=
  match chunks_go EmptyString src with
  | None => None
  | Some ws => tokens_of (map classify ws)
  end.

Definition arith_eval (src : string) : option eval_outcome :=
  match lex src with
  | None => None
  | Some None => Some EvRaise
  | Some (Some ts) =>
      match parse_sum 0 1 true false ts with
      | None => Some EvRaise
      | Some (_, true) => None
      | Some (v, false) => Some (EvValue (VInt v))
      end
  end.

End PyEval.

(** ** Naive [datetime], [timedelta] and [calendar.monthrange] *)

Module PyDatetime.

Definition MINYEAR : Z := 1.
Definition MAXYEAR : Z := 9999.

(** [_is_leap] *)
Definition is_leap (year : Z) : bool :=
  (year mod 4 =? 0) && (negb (year mod 100 =? 0) || (year mod 400 =? 0)).

(** [_days_before_year]: days before January 1st of [year] *)
Definition days_before_year (year : Z) : Z :=
  let y := year - 1 in
  y * 365 + y / 4 - y / 100 + y / 400.

(** the table [_DAYS_IN_MONTH] *)
Definition DAYS_IN_MONTH (month : Z) : Z :=
  match month with
  | 1 => 31 | 2 => 28 | 3 => 31 | 4 => 30 | 5 => 31 | 6 => 30
  | 7 => 31 | 8 => 31 | 9 => 30 | 10 => 31 | 11 => 30 | 12 => 31
  | _ => -1
  end.

(** [_days_in_month] *)
Definition days_in_month (year month : Z) : Z :=
  if (month =? 2) && is_leap year then 29 else DAYS_IN_MONTH month.

(** the table [_DAYS_BEFORE_MONTH] *)
Definition DAYS_BEFORE_MONTH (month : Z) : Z :=
  match month with
  | 1 => 0 | 2 => 31 | 3 => 59 | 4 => 90 | 5 => 120 | 6 => 151
  | 7 => 181 | 8 => 212 | 9 => 243 | 10 => 273 | 11 => 304 | 12 => 334
  | _ => -1
  end.

(** [_days_before_month] *)
Definition days_before_month (year month : Z) : Z :=
  DAYS_BEFORE_MONTH month + (if (2 <? month) && is_leap year then 1 else 0).

(** [_ymd2ord]: 0001-01-01 is day 1 *)
Definition ymd2ord (year month day : Z) : Z :=
  days_before_year year + days_before_month year month + day.

Definition DI400Y : Z := 146097.
Definition DI100Y : Z := 36524.
Definition DI4Y : Z := 1461.

(** [_ord2ymd] *)
Definition ord2ymd (ordinal : Z) : Z * Z * Z :=
  let n := ordinal - 1 in
  let n400 := n / DI400Y in
  let n := n mod DI400Y in
  let n100 := n / DI100Y in
  let n := n mod DI100Y in
  let n4 := n / DI4Y in
  let n := n mod DI4Y in
  let n1 := n / 365 in
  let n := n mod 365 in
  let year := n400 * 400 + 1 + n100 * 100 + n4 * 4 + n1 in
  if (n1 =? 4) || (n100 =? 4) then (year - 1, 12, 31)
  else
    let leapyear := (n1 =? 3) && (negb (n4 =? 24) || (n100 =? 3)) in
    let month := Z.shiftr (n + 50) 5 in
    let preceding :=
      DAYS_BEFORE_MONTH month + (if (2 <? month) && leapyear then 1 else 0) in
    if n <? preceding then
      let month := month - 1 in
      let preceding :=
        preceding - (DAYS_IN_MONTH month
                     + (if (month =? 2) && leapyear then 1 else 0)) in
      (year, month, n - preceding + 1)
    else (year, month, n - preceding + 1).

(** A naive [datetime] without microseconds: seconds on the wall clock since
    0001-01-01T00:00:00. *)
Definition datetime : Type := Z.

Definition SECONDS_PER_DAY : Z := 86400.

(** one past [datetime.max], without its microseconds *)
Definition DATETIME_END : Z := ymd2ord MAXYEAR 12 31 * SECONDS_PER_DAY.

Definition in_range (t : Z) : bool := (0 <=? t) && (t <? DATETIME_END).

Definition datetime_of (year month day hour minute second : Z) : datetime :=
  (ymd2ord year month day - 1) * SECONDS_PER_DAY
  + hour * 3600 + minute * 60 + second.

(** [datetime(year, month, day, hour, minute, second)]; [None] is the
    [ValueError] of the constructor *)
Definition datetime_new (year month day hour minute second : Z)
  : option datetime :=
  if (MINYEAR <=? year) && (year <=? MAXYEAR)
     && (1 <=? month) && (month <=? 12)
     && (1 <=? day) && (day <=? days_in_month year month)
     && (0 <=? hour) && (hour <=? 23)
     && (0 <=? minute) && (minute <=? 59)
     && (0 <=? second) && (second <=? 59)
  then Some (datetime_of year month day hour minute second)
  else None.

(** [dt.toordinal()] *)
Definition toordinal (dt : datetime) : Z := dt / SECONDS_PER_DAY + 1.

Definition year (dt : datetime) : Z := fst (fst (ord2ymd (toordinal dt))).
Definition month (dt : datetime) : Z := snd (fst (ord2ymd (toordinal dt))).
Definition day (dt : datetime) : Z := snd (ord2ymd (toordinal dt)).

(** [dt.weekday()]: Monday is 0 *)
Definition weekday (dt : datetime) : Z := (toordinal dt + 6) mod 7.

(** [timedelta(days=, hours=, minutes=, seconds=)], in seconds *)
Definition timedelta (days hours minutes seconds : Z) : Z :=
  days * SECONDS_PER_DAY + hours * 3600 + minutes * 60 + seconds.

(** [dt + delta]; [None] is the [OverflowError] of a date out of range *)
Definition add (dt : datetime) (delta : Z) : option datetime :=
  if in_range (dt + delta) then Some (dt + delta) else None.

(** [dt - delta] *)
Definition sub (dt : datetime) (delta : Z) : option datetime :=
  add dt (- delta).

(** [monthrange(year, month)[1]]; [None] is [IllegalMonthError] *)
Definition monthrange_days (year month : Z) : option Z :=
  if (1 <=? month) && (month <=? 12) then Some (days_in_month year month)
  else None.

(** seconds between 0001-01-01T00:00:00 and 1970-01-01T00:00:00 *)
Definition UNIX_EPOCH : Z := datetime_of 1970 1 1 0 0 0.

End PyDatetime.

(** ** The host, and how a call can end *)

Import PyStr PyRe PyEval PyDatetime.

(** What the resolver takes from its host: [dt.timestamp()] of a naive
    [datetime] (the local time zone decides; [None] when it raises),
    [datetime.now()], and the builtin [eval]. *)
Class Host : Type := {
  host_timestamp : datetime -> option Z;
  host_now : datetime;
  host_eval : string -> eval_outcome
}.

(** exceptions that no handler of the resolver catches *)
Inductive exn : Type :=
| ValueError_datetime      (* datetime(...) with a field out of range *)
| IllegalMonthError        (* monthrange *)
| OverflowError            (* datetime + timedelta out of range *)
| TimestampError           (* dt.timestamp() raised *)
| ValueError_unpack        (* (start, end) = ... with other than two parts *)
| AttributeError           (* re.search(...) gave None *)
| TypeError                (* int(dt) for a datetime *)
| KeyError (key : string). (* ts[operands[0]] *)

(** the places where the resolver calls [exit(1)]; what it prints before
    (the exception, or "Invalid timefilter range: ...") is not modelled *)
Inductive exit_site : Type :=
| ExitTailEval       (* eval of the scaled tail raised *)
| ExitExprEval       (* eval of "base operator tail" raised *)
| ExitInvalidRange   (* a bound that is no anchor and has no sign *)
| ExitNotInt.        (* a slot that is no int after the loop *)

Inductive failure : Type :=
| Uncaught (e : exn)
| Exit1 (site : exit_site)
| Escaped.           (* eval did not come back to the resolver *)

Inductive result (A : Type) : Type :=
| Ok (a : A)
| Fail (f : failure).
Arguments Ok {A} a.
Arguments Fail {A} f.

#[global] Instance result_ret : MRet result := fun A a => Ok a.

#[global] Instance result_bind : MBind result := fun A B k r =>
  match r with
  | Ok a => k a
  | Fail f => Fail f
  end.

Definition or_raise {A : Type} (e : exn) (o : option A) : result A :=
  match o with
  | Some a => Ok a
  | None => Fail (Uncaught e)
  end.

(** the returned dict [{'start': ..., 'end': ...}] *)
Record query_range : Type := {
  range_start : pyval;
  range_end : pyval
}.

(** [int(dt.timestamp())] *)
Definition int_timestamp `{Host} (dt : datetime) : result Z :=
  or_raise TimestampError (host_timestamp dt).

(** ** [parse_timefilter] of [src/bin/simple_note.py] *)

Module simple_note.
Section ParseTimefilter.
Context `{Host}.

(** the dict [ins]; a [for] over its keys visits them in this order *)
Definition ins : list (ascii * Z) :=
  [("s"%char, 1); ("m"%char, 60); ("h"%char, 3600); ("d"%char, 86400)].

(** the dict [ts] once it is populated *)
Definition timeset (kw_now : option datetime) : result (gmap string datetime) :=
  (* if 'now' in kwargs and isinstance(kwargs['now'], datetime) ... else now() *)
  let now := match kw_now with Some dt => dt | None => host_now end in
  start_of_today ←
    or_raise ValueError_datetime
      (datetime_new (year now) (month now) (day now) 0 0 0);
  end_of_today ←
    or_raise OverflowError (add start_of_today (timedelta 0 23 59 59));
  start_of_this_month ←
    or_raise ValueError_datetime (datetime_new (year now) (month now) 1 0 0 0);
  ndays ← or_raise IllegalMonthError (monthrange_days (year now) (month now));
  end_of_this_month ←
    or_raise OverflowError
      (add start_of_this_month (timedelta (ndays - 1) 23 59 59));
  start_of_this_week ←
    or_raise OverflowError
      (sub start_of_today (timedelta (weekday end_of_today) 0 0 0));
  end_of_this_week ←
    or_raise OverflowError (add start_of_this_week (timedelta 6 0 59 59));
  (* range = {'stat': 0, 'end': int(ts['now'].timestamp())}, never read *)
  _ ← int_timestamp now;
  Ok (<["end_of_this_week" := end_of_this_week]>
      (<["start_of_this_week" := start_of_this_week]>
      (<["end_of_this_month" := end_of_this_month]>
      (<["start_of_this_month" := start_of_this_month]>
      (<["end_of_today" := end_of_today]>
      (<["start_of_today" := start_of_today]>
      (<["now" := now]> ∅))))))).

(** [any([sign in bound for sign in ['+', '-']])] *)
Definition has_sign (bound : string) : bool :=
  contains "+" bound || contains "-" bound.

(** the first operand: an anchor gives its epoch seconds; a numeric text is
    looked up in [ts], where it is not a key ([ts[operands[0]]]); any other
    text is reported on the standard output and kept as it is *)
Definition first_operand (ts : gmap string datetime) (base : string)
  : result pyval :=
  match ts !! base with
  | Some dt => t ← int_timestamp dt; Ok (VInt t)
  | None =>
      if isnumeric base then
        match ts !! base with
        | Some _ => Fail (Uncaught TypeError)
        | None => Fail (Uncaught (KeyError base))
        end
      else Ok (VStr base)
  end.

(** the [for i in ins.keys()] loop over the second operand *)
Fixpoint second_operand (units : list (ascii * Z)) (tail : string)
  : result pyval :=
  match units with
  | [] => Ok (VStr tail)
  | (i, factor) :: rest =>
      if contains i tail then
        match host_eval (replace_char i ("* " ++ str_int factor) tail) with
        | EvValue v => Ok v
        | EvRaise => Fail (Exit1 ExitTailEval)
        | EvEscape => Fail Escaped
        end
      else second_operand rest tail
  end.

(** one turn of [for k in query_range.keys()] *)
Definition resolve_bound (ts : gmap string datetime) (bound : string)
  : result pyval :=
  match ts !! bound with
  | Some dt => t ← int_timestamp dt; Ok (VInt t)
  | None =>
      if has_sign bound then
        base ← or_raise AttributeError (search_before_op bound);
        tail ← or_raise AttributeError (search_after_op bound);
        operator ← or_raise AttributeError (search_op bound);
        operand0 ← first_operand ts (strip base);
        operand1 ← second_operand ins (strip tail);
        match host_eval (join_space
                 [py_str operand0; strip operator; py_str operand1]) with
        | EvValue v => Ok v
        | EvRaise => Fail (Exit1 ExitExprEval)
        | EvEscape => Fail Escaped
        end
      else Fail (Exit1 ExitInvalidRange)
  end.

Definition parse_timefilter (query : string) (kw_now : option datetime)
  : result query_range :=
  ts ← timeset kw_now;
  let query_content := strip (sub_range query) in
  match split " to " query_content with
  | [start; end_] =>
      start ← resolve_bound ts (strip start);
      end_ ← resolve_bound ts (strip end_);
      if negb (isinstance_int start) || negb (isinstance_int end_)
      then Fail (Exit1 ExitNotInt)
      else Ok {| range_start := start; range_end := end_ |}
  | _ => Fail (Uncaught ValueError_unpack)
  end.

End ParseTimefilter.
End simple_note.

(** ** [parse_timefilter] of [src/bin/main.py] *)

Module main.
Section ParseTimefilter.
Context `{Host}.

(** the dict [ins]; a [for] over its keys visits them in this order *)
Definition ins : list (ascii * Z) :=
  [("s"%char, 1); ("m"%char, 60); ("h"%char, 3600); ("d"%char, 86400)].

(** the dict [ts] once it is populated *)
Definition timeset (kw_now : option datetime) : result (gmap string datetime) :=
  (* if 'now' in kwargs and isinstance(kwargs['now'], datetime) ... else now() *)
  let now := match kw_now with Some dt => dt | None => host_now end in
  start_of_today ←
    or_raise ValueError_datetime
      (datetime_new (year now) (month now) (day now) 0 0 0);
  end_of_today ←
    or_raise OverflowError (add start_of_today (timedelta 0 23 59 59));
  start_of_this_month ←
    or_raise ValueError_datetime (datetime_new (year now) (month now) 1 0 0 0);
  ndays ← or_raise IllegalMonthError (monthrange_days (year now) (month now));
  end_of_this_month ←
    or_raise OverflowError
      (add start_of_this_month (timedelta (ndays - 1) 23 59 59));
  start_of_this_week ←
    or_raise OverflowError
      (sub start_of_today (timedelta (weekday end_of_today) 0 0 0));
  end_of_this_week ←
    or_raise OverflowError (add start_of_this_week (timedelta 6 0 59 59));
  (* range = {'stat': 0, 'end': int(ts['now'].timestamp())}, never read *)
  _ ← int_timestamp now;
  Ok (<["end_of_this_week" := end_of_this_week]>
      (<["start_of_this_week" := start_of_this_week]>
      (<["end_of_this_month" := end_of_this_month]>
      (<["start_of_this_month" := start_of_this_month]>
      (<["end_of_today" := end_of_today]>
      (<["start_of_today" := start_of_today]>
      (<["now" := now]> ∅))))))).

(** [any([sign in bound for sign in ['+', '-']])] *)
Definition has_sign (bound : string) : bool :=
  contains "+" bound || contains "-" bound.

(** the first operand: an anchor gives its epoch seconds; a numeric text is
    looked up in [ts], where it is not a key ([ts[operands[0]]]); any other
    text is reported on the standard output and kept as it is *)
Definition first_operand (ts : gmap string datetime) (base : string)
  : result pyval :=
  match ts !! base with
  | Some dt => t ← int_timestamp dt; Ok (VInt t)
  | None =>
      if isnumeric base then
        match ts !! base with
        | Some _ => Fail (Uncaught TypeError)
        | None => Fail (Uncaught (KeyError base))
        end
      else Ok (VStr base)
  end.

(** the [for i in ins.keys()] loop over the second operand *)
Fixpoint second_operand (units : list (ascii * Z)) (tail : string)
  : result pyval :=
  match units with
  | [] => Ok (VStr tail)
  | (i, factor) :: rest =>
      if contains i tail then
        match host_eval (replace_char i ("* " ++ str_int factor) tail) with
        | EvValue v => Ok v
        | EvRaise => Fail (Exit1 ExitTailEval)
        | EvEscape => Fail Escaped
        end
      else second_operand rest tail
  end.

(** one turn of [for k in query_range.keys()] *)
Definition resolve_bound (ts : gmap string datetime) (bound : string)
  : result pyval :=
  match ts !! bound with
  | Some dt => t ← int_timestamp dt; Ok (VInt t)
  | None =>
      if has_sign bound then
        base ← or_raise AttributeError (search_before_op bound);
        tail ← or_raise AttributeError (search_after_op bound);
        operator ← or_raise AttributeError (search_op bound);
        operand0 ← first_operand ts (strip base);
        operand1 ← second_operand ins (strip tail);
        match host_eval (join_space
                 [py_str operand0; strip operator; py_str operand1]) with
        | EvValue v => Ok v
        | EvRaise => Fail (Exit1 ExitExprEval)
        | EvEscape => Fail Escaped
        end
      else Fail (Exit1 ExitInvalidRange)
  end.

Definition parse_timefilter (query : string) (kw_now : option datetime)
  : result query_range :=
  ts ← timeset kw_now;
  let query_content := strip (sub_range query) in
  match split " to " query_content with
  | [start; end_] =>
      start ← resolve_bound ts (strip start);
      end_ ← resolve_bound ts (strip end_);
      if negb (isinstance_int start) || negb (isinstance_int end_)
      then Fail (Exit1 ExitNotInt)
      else Ok {| range_start := start; range_end := end_ |}
  | _ => Fail (Uncaught ValueError_unpack)
  end.

End ParseTimefilter.
End main.

(** ** The rest of the runtime: more [str] methods and patterns *)

Module PyStrMore.
Import PyStr.

(** [c.lower()] for a code point below 256 *)
Definition lower_char (c : ascii) : ascii :=
  let n := nat_of_ascii c in
  if ((65 <=? n) && (n <=? 90))%nat
     || ((192 <=? n) && (n <=? 222) && negb (n =? 215))%nat
  then ascii_of_nat (n + 32)
  else c.

(** [s.lower()] *)
Fixpoint lower (s : string) : string :=
  match s with
  | EmptyString => EmptyString
  | String c r => String (lower_char c) (lower r)
  end.

(** [c.upper()] for a code point below 256; [None] for the two whose upper
    case is above 255 (the micro sign and y with diaeresis) *)
Definition upper_char (c : ascii) : option string :=
  let n := nat_of_ascii c in
  if ((n =? 181) || (n =? 255))%nat then None
  else if (n =? 223)%nat then Some "SS"%string
  else if ((97 <=? n) && (n <=? 122))%nat
          || ((224 <=? n) && (n <=? 254) && negb (n =? 247))%nat
  then Some (String (ascii_of_nat (n - 32)) EmptyString)
  else Some (String c EmptyString).

(** [s.upper()], when it is a text of code points below 256 *)
Fixpoint upper (s : string) : option string :=
  match s with
  | EmptyString => Some EmptyString
  | String c r =>
      match upper_char c, upper r with
      | Some u, Some r' => Some (u ++ r')%string
      | _, _ => None
      end
  end.

(** [t in s] for texts *)
Fixpoint contains_str (t s : string) : bool :=
  starts_with t s
  || match s with
     | EmptyString => false
     | String _ r => contains_str t r
     end.

(** [sep.join(parts)] *)
Fixpoint join (sep : string) (parts : list string) : string :=
  match parts with
  | [] => EmptyString
  | [p] => p
  | p :: rest => (p ++ sep ++ join sep rest)%string
  end.

(** [s[:n]] for [n >= 0] *)
Fixpoint prefix_of (n : nat) (s : string) : string :=
  match n, s with
  | S k, String c r => String c (prefix_of k r)
  | _, _ => EmptyString
  end.

End PyStrMore.

Module PyReMore.
Import PyStr PyRe.

(** [.*(?=X)] anchored at the start of [s], for a one-character class [X]:
    the longest prefix without a line feed that is followed by a character
    of the class *)
Fixpoint upto_last (X : ascii -> bool) (s : string) : option string :=
  match s with
  | EmptyString => None
  | String c r =>
      if is_newline c then None
      else
        match upto_last X r with
        | Some p => Some (String c p)
        | None => if X c then Some EmptyString else None
        end
  end.

(** [re.search('.*(?=X)', s)] *)
Fixpoint search_before (X : ascii -> bool) (s : string) : option string :=
  match upto_last X s with
  | Some p => Some p
  | None =>
      match s with
      | EmptyString => None
      | String _ r => search_before X r
      end
  end.

(** [re.search('(?<=X).*', s)] *)
Fixpoint search_after (X : ascii -> bool) (s : string) : option string :=
  match s with
  | EmptyString => None
  | String c r => if X c then Some (line_head r) else search_after X r
  end.

(** the class [\:] *)
Definition is_colon (c : ascii) : bool := Ascii.eqb c ":".

(** one match of [\s*~\s*] anchored at the start of [s]: the text after it *)
Definition match_tilde (s : string) : option string :=
  match lstrip s with
  | String "~" r => Some (lstrip r)
  | _ => None
  end.

(** [re.sub('\s*~\s*', '', s)] *)
Fixpoint sub_tilde_go (skip : nat) (s : string) : string :=
  match s with
  | EmptyString => EmptyString
  | String c r =>
      match skip with
      | S k => sub_tilde_go k r
      | O =>
          match match_tilde s with
          | Some rest =>
              sub_tilde_go (Nat.pred (String.length s - String.length rest)) r
          | None => String c (sub_tilde_go O r)
          end
      end
  end.

Definition sub_tilde (s : string) : string := sub_tilde_go O s.

End PyReMore.

Import PyStrMore PyReMore.

(** ** The callers of the resolver in [src/bin/simple_note.py] *)

Module SimpleNote.
Section Callers.
Context `{Host}.

(** the keys of the dict [LOG_TEMP] *)
Definition LOG_TEMP_keys : list string :=
  [ "id"; "task"; "priority"; "status"; "issue"; "created"; "updated";
    "scheduled"; "note" ]%string.

Definition is_key (k : string) (keys : list string) : bool :=
  existsb (String.eqb k) keys.

(** [parse_regexfilter] *)
Definition parse_regexfilter (query : string) : string :=
  let query_content := strip (sub_tilde query) in
  ("LIKE '" ++ query_content ++ "'")%string.

(** [filter_field.upper()] inside the branch where [filter_field.lower()]
    is a key of [LOG_TEMP]; there [upper] is defined (see
    [upper_of_field]) *)
Definition field_upper (filter_field : string) : string :=
  match upper filter_field with
  | Some u => u
  | None => filter_field
  end.

(** the [for section in sections] loop of [parse_filter]; the line printed
    for a field that is skipped is not modelled *)
Fixpoint parse_sections (sections : list string) (filters : list string)
  : result (list string) :=
  match sections with
  | [] => Ok filters
  | section :: rest =>
      field ← or_raise AttributeError (search_before is_colon section);
      query ← or_raise AttributeError (search_after is_colon section);
      let filter_field := strip field in
      let filter_query := strip query in
      if is_key (lower filter_field) LOG_TEMP_keys then
        if contains_str "range" filter_query then
          range ← simple_note.parse_timefilter filter_query None;
          parse_sections rest
            (filters ++
             [(field_upper filter_field ++ "  BETWEEN "
               ++ py_str (range_start range) ++ " AND "
               ++ py_str (range_end range))%string])
        else if contains "~" filter_query then
          parse_sections rest
            (filters ++
             [(field_upper filter_field ++ " "
               ++ parse_regexfilter filter_query)%string])
        else parse_sections rest filters
      else parse_sections rest filters
  end.

(** [parse_filter] *)
Definition parse_filter (filter : string) : result string :=
  filters ← parse_sections (split ";" filter) [];
  Ok ("WHERE " ++ join " AND " filters)%string.

(** the list [fields] of [get_log] *)
Definition fields : list string :=
  [ "id"; "task"; "issue"; "priority"; "status"; "scheduled"; "created";
    "updated"; "note" ]%string.

(** [l[i:j]] for [0 <= i <= j] *)
Definition slice {A} (l : list A) (i j : nat) : list A := take (j - i) (drop i l).

(** [display_fields] of [get_log] for a verbosity *)
Definition display_fields (verbose : Z) : list string :=
  if verbose <=? 1 then
    match fields !! 1%nat, fields !! 3%nat, fields !! 4%nat with
    | Some a, Some b, Some c => [a; b; c]
    | _, _, _ => []
    end
  else if verbose =? 2 then slice fields 1 6
  else if verbose =? 3 then slice fields 1 8
  else fields.

(** [sql_get], the statement [get_log] sends to the database *)
Definition get_log_statement (filter : string) (verbose : Z) : result string :=
  filter_parsed ← parse_filter filter;
  Ok ("SELECT " ++ join "," (display_fields verbose)
      ++ " FROM WORKLOG " ++ filter_parsed)%string.

(** [not args.filter]: no filter, or an empty one *)
Definition no_filter (filter : option string) : bool :=
  match filter with
  | None | Some EmptyString => true
  | Some _ => false
  end.

(** the value of [args.filter] after the defaults of [simple_note()];
    [clock] is what [datetime.now()] gives there, a reading of its own,
    before the one of [parse_timefilter] *)
Definition chosen_filter (clock : datetime) (output : string)
    (filter : option string) : string :=
  if String.eqb output "standup" && no_filter filter then
    if weekday clock =? 0
    then "scheduled: range= start_of_today - 3d to now"%string
    else "scheduled: range= start_of_today - 1d to now"%string
  else if no_filter filter
  then "scheduled: range= start_of_today to end_of_today"%string
  else match filter with Some f => f | None => EmptyString end.

(** [entry['id'] = str(uuid.uuid4())[:32]] of [add_log], from the text of the
    UUID *)
Definition entry_id (uuid_text : string) : string := prefix_of 32 uuid_text.

(** [delete_log] up to the statement it executes; [None] is its [exit(1)]
    for an id that is not 32 characters long *)
Definition delete_log_statement (id : string) : option string :=
  if negb (String.length id =? 32)%nat then None
  else Some ("DELETE FROM WORKLOG WHERE ID = '" ++ id ++ "'")%string.

(** the text shown for a note in the table and standup formats of
    [display_log]: [item[key][0:10] + '...'] when [len(item[key]) >= 10] *)
Definition shown_note (note : string) : string :=
  if (10 <=? String.length note)%nat then (prefix_of 10 note ++ "...")%string
  else note.

End Callers.
End SimpleNote.

(** ** The caller of the resolver in [src/bin/main.py] *)

Module Main.
Section Callers.
Context `{Host}.

Definition LOG_TEMP_keys : list string :=
  [ "id"; "task"; "priority"; "status"; "issue"; "created"; "updated";
    "scheduled"; "note" ]%string.

(** [parse_filter]: [Some] text is the text returned, [None] is the [None]
    returned after the message for a field that is no key *)
Definition parse_filter (filter : string) : result (option string) :=
  field ← or_raise AttributeError (search_before is_colon filter);
  query ← or_raise AttributeError (search_after is_colon filter);
  let filter_field := strip field in
  let filter_query := strip query in
  if SimpleNote.is_key (lower filter_field) LOG_TEMP_keys then
    if contains_str "range" filter_query then
      range ← main.parse_timefilter filter_query None;
      Ok (Some ("WHERE " ++ SimpleNote.field_upper filter_field
                ++ "  BETWEEN " ++ py_str (range_start range) ++ " AND "
                ++ py_str (range_end range))%string)
    else Ok (Some filter)
  else Ok None.

(** the default of [--filter] *)
Definition default_filter : string :=
  "scheduled: range= start_of_today to now".

End Callers.
End Main.

(** ** The end of [_ord2ymd], on its own *)

(** month and day from the day of the year, as [_ord2ymd] ends *)
Definition month_day (leapyear : bool) (n : Z) : Z * Z :=
  let month := Z.shiftr (n + 50) 5 in
  let preceding :=
    DAYS_BEFORE_MONTH month + (if (2 <? month) && leapyear then 1 else 0) in
  if n <? preceding then
    let month := month - 1 in
    let preceding :=
      preceding - (DAYS_IN_MONTH month
                   + (if (month =? 2) && leapyear then 1 else 0)) in
    (month, n - preceding + 1)
  else (month, n - preceding + 1).

Definition month_day_ok (leapyear : bool) (n : Z) : bool :=
  let '(m, d) := month_day leapyear n in
  (1 <=? m) && (m <=? 12) && (1 <=? d)
  && (d <=? DAYS_IN_MONTH m + (if (m =? 2) && leapyear then 1 else 0))
  && (DAYS_BEFORE_MONTH m + (if (2 <? m) && leapyear then 1 else 0) + d =? n + 1).

(** ** A host to run the resolver on

    The zone is UTC, the clock stands at the instant of the unit test, and
    [eval] is the modelled integer arithmetic (anything else does not come
    back). *)

Definition test_now : datetime := datetime_of 2022 4 7 12 30 0.

Definition utc_timestamp (dt : datetime) : option Z :=
  if in_range dt then Some (dt - UNIX_EPOCH) else None.

Definition arith_host_eval (src : string) : eval_outcome :=
  match arith_eval src with
  | Some o => o
  | None => EvEscape
  end.

Definition utc_host : Host := {|
  host_timestamp := utc_timestamp;
  host_now := test_now;
  host_eval := arith_host_eval
|}.

(** [eval] of the host gives Python's answer on integer arithmetic *)
Definition eval_agrees (H : Host) : Prop :=
  forall (src : string) (o : eval_outcome),
    arith_eval src = Some o -> host_eval src = o.

(** the keys of [ts] *)
Definition anchor_names : list string :=
  [ "now"; "start_of_today"; "end_of_today"; "start_of_this_month";
    "end_of_this_month"; "start_of_this_week"; "end_of_this_week" ]%string.

(** the tokens of [str(a)] *)
Definition int_tokens (a : Z) : list token :=
  match a with
  | Z.neg p => [TMinus; TNum (Z.pos p)]
  | _ => [TNum a]
  end.

Definition tok_app (ts : list token) (rest : option (option (list token)))
  : option (option (list token)) :=
  match rest with
  | Some (Some l) => Some (Some (ts ++ l)%list)
  | r => r
  end.

(** a bound that is neither an anchor name nor an offset expression *)
Definition bare_non_anchor (bound : string) : bool :=
  negb (simple_note.has_sign bound)
  && negb (existsb (String.eqb bound) anchor_names).

(** the anchor table of the unit test's instant, 2022-04-07T12:30:00 *)
Definition test_timeset : gmap string datetime :=
  <["end_of_this_week" := datetime_of 2022 4 10 0 59 59]>
  (<["start_of_this_week" := datetime_of 2022 4 4 0 0 0]>
  (<["end_of_this_month" := datetime_of 2022 4 30 23 59 59]>
  (<["start_of_this_month" := datetime_of 2022 4 1 0 0 0]>
  (<["end_of_today" := datetime_of 2022 4 7 23 59 59]>
  (<["start_of_today" := datetime_of 2022 4 7 0 0 0]>
  (<["now" := test_now]> ∅)))))).

(** ** The queries of the grammar, for the statements

    What follows is not code of the program: it names the texts that the
    resolver documents ([<anchor>], [<anchor> + <n><unit>],
    [<anchor> - <n><unit>]) and the classes of characters they are made
    of, so that theorems can speak of every such text. *)

(** no character of the class [[\-,\+]] and no line feed *)
Definition plain_char (c : ascii) : bool := negb (is_opchar c) && negb (is_newline c).

(** the last character is white space *)
Fixpoint ends_with_space (s : string) : bool :=
  match s with
  | EmptyString => false
  | String c EmptyString => is_whitespace c
  | String _ r => ends_with_space r
  end.

(** no space that is followed by the letter t *)
Fixpoint no_space_t (s : string) : bool :=
  match s with
  | EmptyString => true
  | String c r =>
      negb (Ascii.eqb c " " && starts_with "t" r) && no_space_t r
  end.

(** the bounds of the grammar: an anchor name, alone or followed by an
    operator, an amount and a unit letter *)
Inductive bound_form : Type :=
| Bare (anchor : string)
| Offset (anchor : string) (plus : bool) (n : Z) (unit : ascii).

(** the text of a bound, as a user writes it *)
Definition bound_text (b : bound_form) : string :=
  match b with
  | Bare anchor => anchor
  | Offset anchor plus n unit =>
      (anchor ++ (if plus then " + " else " - ")
       ++ str_int n ++ String unit EmptyString)%string
  end.

(** the factor of a unit letter in [ins] *)
Fixpoint unit_factor (units : list (ascii * Z)) (unit : ascii) : option Z :=
  match units with
  | [] => None
  | (u, f) :: rest => if Ascii.eqb u unit then Some f else unit_factor rest unit
  end.

(** the epoch seconds a bound of the grammar stands for: the [timestamp()]
    of its anchor, moved by the amount times the factor of the unit;
    [None] for a name that is no anchor, a letter that is no unit, a
    negative amount, or an anchor without a [timestamp()] *)
Definition bound_value `{Host} (ts : gmap string datetime) (b : bound_form)
  : option Z :=
  match b with
  | Bare anchor =>
      match ts !! anchor with
      | Some dt => host_timestamp dt
      | None => None
      end
  | Offset anchor plus n unit =>
      match ts !! anchor with
      | Some dt =>
          match host_timestamp dt, unit_factor simple_note.ins unit with
          | Some a, Some f =>
              if n <? 0 then None
              else Some (if plus then a + n * f else a - n * f)
          | _, _ => None
          end
      | None => None
      end
  end.

(** what the texts of the grammar have in common *)
Definition tidy (s : string) : Prop :=
  no_space_t s = true /\ contains "="%char s = false
  /\ ends_with_space s = false /\ lstrip s = s /\ s <> EmptyString.

(** the lower-case letters [a] to [z] *)
Definition is_lower_letter (c : ascii) : bool :=
  let n := nat_of_ascii c in ((97 <=? n) && (n <=? 122))%nat.

(** the characters of the clauses of the grammar: those of a word, the
    space, the two signs and [=] *)
Definition grammar_char (c : ascii) : bool :=
  is_word_char c || contains c " +-=".

(** the clauses of a filter: a field with a range of two bounds of the
    grammar, or a field with the pattern of a [~] *)
Inductive clause_form : Type :=
| RangeClause (field : string) (start end_ : bound_form)
| LikeClause (field pattern : string).

(** the text of a clause, as a user writes it *)
Definition clause_text (c : clause_form) : string :=
  match c with
  | RangeClause f b1 b2 =>
      (f ++ ": range= " ++ bound_text b1 ++ " to " ++ bound_text b2)%string
  | LikeClause f w => (f ++ ": ~ " ++ w)%string
  end.

(** a pattern that stands in a [~] clause as it is: not empty, no white
    space at its ends, and none of [~], [:], [;], the line feed and the
    word [range] in it *)
Definition plain_pattern (w : string) : bool :=
  negb (String.eqb w EmptyString) && String.eqb (lstrip w) w
  && negb (ends_with_space w)
  && negb (contains "~" w) && negb (contains ":" w) && negb (contains ";" w)
  && negb (contains "010" w) && negb (contains_str "range" w).

(** the condition a clause stands for, when its field is a key of
    [LOG_TEMP] in some case of letters *)
Definition clause_condition `{Host} (ts : gmap string datetime)
    (c : clause_form) : option string :=
  match c with
  | RangeClause f b1 b2 =>
      if SimpleNote.is_key (lower f) SimpleNote.LOG_TEMP_keys then
        match bound_value ts b1, bound_value ts b2 with
        | Some v1, Some v2 =>
            Some (SimpleNote.field_upper (lower f) ++ "  BETWEEN "
                  ++ str_int v1 ++ " AND " ++ str_int v2)%string
        | _, _ => None
        end
      else None
  | LikeClause f w =>
      if SimpleNote.is_key (lower f) SimpleNote.LOG_TEMP_keys
         && plain_pattern w
      then Some (SimpleNote.field_upper (lower f)
                 ++ " LIKE '" ++ w ++ "'")%string
      else None
  end.

Fixpoint clause_conditions `{Host} (ts : gmap string datetime)
    (cs : list clause_form) : option (list string) :=
  match cs with
  | [] => Some []
  | c :: rest =>
      match clause_condition ts c, clause_conditions ts rest with
      | Some x, Some l => Some (x :: l)
      | _, _ => None
      end
  end.

(** * Facts *)

(** ** Strings and patterns *)

Section StringFacts.
Import PyStr PyRe.
Local Open Scope string_scope.

Lemma app_String c (a b : string) : String c a ++ b = String c (a ++ b).
Proof. reflexivity. Qed.

Lemma app_Empty (b : string) : "" ++ b = b.
Proof. reflexivity. Qed.

Lemma app_assoc_str (a b c : string) : (a ++ b) ++ c = a ++ (b ++ c).
Proof.
  induction a as [|x a IH]; [reflexivity|].
  rewrite !app_String. now rewrite IH.
Qed.

Lemma length_app_str (a b : string) :
  String.length (a ++ b) = (String.length a + String.length b)%nat.
Proof.
  induction a as [|x a IH]; [reflexivity|].
  rewrite app_String. simpl. now rewrite IH.
Qed.


Lemma lstrip_suffix s : exists m, s = m ++ lstrip s.
Proof.
  induction s as [|c r [m IH]]; simpl.
  - now exists "".
  - destruct (is_whitespace c).
    + exists (String c m). rewrite app_String. now f_equal.
    + now exists "".
Qed.

Lemma strip_prefix_app p s r : strip_prefix p s = Some r -> s = p ++ r.
Proof.
  revert s. induction p as [|a p IH]; intros s; simpl.
  - now intros [= ->].
  - destruct s as [|b s]; [discriminate|].
    destruct (Ascii.eqb_spec a b) as [->|]; [|discriminate].
    intros E. rewrite app_String. now rewrite (IH _ E).
Qed.

(** a match of the pattern consumes at least one character and leaves a
    suffix of the text *)
Lemma match_range_eq_suffix s rest :
  match_range_eq s = Some rest ->
  exists c m, s = String c m ++ rest.
Proof.
  unfold match_range_eq. intros E.
  destruct (lstrip_suffix s) as [m0 E0].
  destruct (strip_prefix "range" (lstrip s)) as [s1|] eqn:E1; [|discriminate].
  apply strip_prefix_app in E1.
  destruct (lstrip_suffix s1) as [m1 E2].
  destruct (lstrip s1) as [|c s2] eqn:E3; [discriminate|].
  destruct (Ascii.eqb_spec c "="%char) as [->|Hc].
  - assert (rest = lstrip s2) as -> by congruence.
    destruct (lstrip_suffix s2) as [m2 E4].
    assert (Es : s = (m0 ++ "range" ++ m1 ++ "=") ++ m2 ++ lstrip s2).
    { rewrite E0 at 1. rewrite E1, E2. rewrite E4 at 1.
      rewrite !app_assoc_str. do 3 f_equal. }
    destruct (m0 ++ "range" ++ m1 ++ "=") as [|c m] eqn:Em.
    + destruct m0; discriminate Em.
    + exists c, (m ++ m2). rewrite Es.
      now rewrite !app_String, app_assoc_str.
  - exfalso. apply Hc.
    destruct c as [[] [] [] [] [] [] [] []]; try discriminate E; reflexivity.
Qed.

Lemma sub_range_go_skip m r :
  sub_range_go (String.length m) (m ++ r) = sub_range_go 0 r.
Proof.
  induction m as [|c m IH]; [reflexivity|].
  rewrite app_String. simpl. exact IH.
Qed.

(** [re.sub] deletes a match at the start and goes on after it; without a
    match there it keeps the first character *)
Lemma sub_range_unfold s :
  sub_range s =
  match match_range_eq s with
  | Some rest => sub_range rest
  | None =>
      match s with
      | EmptyString => EmptyString
      | String c r => String c (sub_range r)
      end
  end.
Proof.
  unfold sub_range.
  destruct (match_range_eq s) as [rest|] eqn:E.
  - destruct (match_range_eq_suffix _ _ E) as (c & m & ->).
    rewrite app_String in *. cbn [sub_range_go]. rewrite E.
    cbn [String.length]. rewrite length_app_str.
    replace (Nat.pred (S (String.length m + String.length rest)
                       - String.length rest))
      with (String.length m) by lia.
    apply sub_range_go_skip.
  - destruct s as [|c r]; [reflexivity|].
    cbn [sub_range_go]. now rewrite E.
Qed.



Lemma match_range_eq_prefix t :
  match_range_eq ("range= " ++ t) = Some (lstrip t).
Proof. reflexivity. Qed.

End StringFacts.

(** ** Decimal texts and the modelled part of [eval] *)

Section EvalFacts.
Import PyStr PyEval.
Local Open Scope string_scope.

Lemma digits_of_uint u :
  all_chars is_digit (NilEmpty.string_of_uint u) = true.
Proof. induction u; simpl; auto. Qed.

Lemma digit_is_word_char s :
  all_chars is_digit s = true -> all_chars is_word_char s = true.
Proof.
  induction s as [|c r IH]; simpl; [reflexivity|].
  intros [Hc Hr]%andb_prop. unfold is_word_char. rewrite Hc. simpl. auto.
Qed.

Lemma drop_digits_all s : all_chars is_digit s = true -> drop_digits s = "".
Proof.
  induction s as [|c r IH]; simpl; [reflexivity|].
  intros [-> Hr]%andb_prop. auto.
Qed.

Lemma app_Empty_r (s : string) : s ++ "" = s.
Proof.
  induction s as [|c r IH]; [reflexivity|].
  rewrite app_String. now rewrite IH.
Qed.

Lemma chunks_go_word w cur rest :
  all_chars is_word_char w = true ->
  chunks_go cur (w ++ rest) = chunks_go (cur ++ w) rest.
Proof.
  revert cur. induction w as [|c r IH]; intros cur.
  - intros _. now rewrite app_Empty, app_Empty_r.
  - simpl. intros [Hc Hr]%andb_prop. rewrite Hc.
    rewrite IH by assumption. rewrite app_assoc_str.
    now rewrite app_String, app_Empty.
Qed.

Lemma lex_word_space w rest :
  w <> "" -> all_chars is_word_char w = true ->
  lex (w ++ " " ++ rest) = tok_cons (classify w) (lex rest).
Proof.
  intros Hw Hall. unfold lex.
  rewrite chunks_go_word, app_Empty by assumption.
  rewrite app_String, app_Empty. cbn [chunks_go].
  replace (is_word_char " ") with false by reflexivity.
  replace (Ascii.eqb " " " ") with true by reflexivity.
  destruct (chunks_go "" rest) as [l|].
  - destruct w; [congruence|]. reflexivity.
  - now destruct (classify w) as [[]| |].
Qed.

Lemma lex_word_end w :
  w <> "" -> all_chars is_word_char w = true ->
  lex w = tok_cons (classify w) (Some (Some [])).
Proof.
  intros Hw Hall. unfold lex.
  rewrite <- (app_Empty_r w) at 1.
  rewrite chunks_go_word, app_Empty by assumption.
  destruct w; [congruence|]. reflexivity.
Qed.

Lemma lex_minus rest : lex (String "-" rest) = tok_cons (LTok TMinus) (lex rest).
Proof.
  unfold lex. cbn [chunks_go].
  replace (is_word_char "-") with false by reflexivity.
  replace (Ascii.eqb "-" " ") with false by reflexivity.
  replace (Ascii.eqb "-" "+" || Ascii.eqb "-" "-" ||
           Ascii.eqb "-" "*" && negb (starts_with "*" rest))%bool
    with true by reflexivity.
  now destruct (chunks_go "" rest).
Qed.

(** the decimal text of a positive number is one literal with that value *)
Lemma classify_positive p :
  classify (NilZero.string_of_uint (Pos.to_uint p)) = LTok (TNum (Z.pos p)).
Proof.
  pose proof (DecimalPos.Unsigned.to_uint_nonnil p) as Hnil.
  pose proof (DecimalPos.Unsigned.to_uint_nonzero p) as Hzero.
  pose proof (DecimalPos.Unsigned.of_to p) as Hof.
  assert (Hnorm : Decimal.unorm (Pos.to_uint p) = Pos.to_uint p).
  { rewrite <- (DecimalPos.Unsigned.to_of (Pos.to_uint p)). now rewrite Hof. }
  revert Hnil Hzero Hof Hnorm. generalize (Pos.to_uint p) as u.
  intros u Hnil Hzero Hof Hnorm.
  assert (Hs : NilZero.string_of_uint u = NilEmpty.string_of_uint u)
    by (destruct u; [congruence | reflexivity ..]).
  assert (Hhead : forall u', u <> Decimal.D0 u').
  { intros u' E. rewrite E in Hnorm. unfold Decimal.unorm in Hnorm.
    destruct (Decimal.nzhead (Decimal.D0 u')) eqn:En;
      [ apply Hzero; now rewrite E, <- Hnorm
      | now apply (nzhead_nonzero (Decimal.D0 u') u'); congruence .. ]. }
  pose proof (digits_of_uint u) as Hd.
  pose proof (NilZero.usu u Hnil) as Hu.
  rewrite Hs in *.
  destruct u as [|u|u|u|u|u|u|u|u|u|u]; try congruence;
    try (now exfalso; apply (Hhead u));
    unfold classify; cbn [NilEmpty.string_of_uint] in *;
    cbn [Ascii.eqb Bool.eqb is_digit nat_of_ascii];
    (rewrite drop_digits_all by exact Hd);
    unfold decimal_literal; rewrite Hu;
    unfold Z.of_uint; rewrite Hof; reflexivity.
Qed.

Lemma word_positive p :
  let w := NilZero.string_of_uint (Pos.to_uint p) in
  w <> "" /\ all_chars is_word_char w = true.
Proof.
  pose proof (DecimalPos.Unsigned.to_uint_nonnil p) as Hnil.
  cbn zeta. destruct (Pos.to_uint p) eqn:E; try congruence;
    (split; [discriminate | apply digit_is_word_char;
      apply (digits_of_uint (_ u))]).
Qed.

Lemma lex_str_int_space a rest :
  lex (str_int a ++ " " ++ rest) = tok_app (int_tokens a) (lex rest).
Proof.
  destruct a as [|p|p]; unfold str_int; cbn [Z.to_int NilZero.string_of_int].
  - rewrite lex_word_space by (try reflexivity; discriminate).
    now destruct (lex rest) as [[]|].
  - destruct (word_positive p) as [H1 H2].
    rewrite lex_word_space, classify_positive by assumption.
    now destruct (lex rest) as [[]|].
  - destruct (word_positive p) as [H1 H2].
    rewrite app_String, lex_minus.
    rewrite lex_word_space, classify_positive by assumption.
    now destruct (lex rest) as [[]|].
Qed.

Lemma lex_str_int a : lex (str_int a) = Some (Some (int_tokens a)).
Proof.
  destruct a as [|p|p]; unfold str_int; cbn [Z.to_int NilZero.string_of_int].
  - reflexivity.
  - destruct (word_positive p) as [H1 H2].
    now rewrite lex_word_end, classify_positive by assumption.
  - destruct (word_positive p) as [H1 H2].
    rewrite lex_minus.
    now rewrite lex_word_end, classify_positive by assumption.
Qed.

(** [eval] of ["a - b"] and of ["a + b"] for two integers in decimal *)
Lemma arith_eval_sub a b :
  arith_eval (join_space [str_int a; "-"; str_int b])
  = Some (EvValue (VInt (a - b))).
Proof.
  unfold arith_eval. cbn [join_space].
  rewrite lex_str_int_space, (app_String "-"), app_Empty, lex_minus.
  rewrite app_String, app_Empty.
  change (String " " (str_int b)) with (" " ++ str_int b).
  assert (E : lex (" " ++ str_int b) = lex (str_int b)).
  { unfold lex. rewrite app_String, app_Empty. cbn [chunks_go].
    replace (is_word_char " ") with false by reflexivity.
    replace (Ascii.eqb " " " ") with true by reflexivity.
    now destruct (chunks_go "" (str_int b)). }
  rewrite E, lex_str_int.
  destruct a, b; cbn; repeat f_equal; lia.
Qed.


End EvalFacts.

(** ** The anchor table *)

Section ResolverFacts.
Context {H : Host}.
Import simple_note.

Lemma bind_Ok {A B} (r : result A) (k : A -> result B) (b : B) :
  r ≫= k = Ok b -> exists a, r = Ok a /\ k a = Ok b.
Proof. destruct r as [a|f]; [eauto | discriminate]. Qed.

Lemma or_raise_Ok {A} e (o : option A) a : or_raise e o = Ok a -> o = Some a.
Proof. destruct o; simpl; congruence. Qed.

Lemma add_Some dt delta dt' : add dt delta = Some dt' -> dt' = dt + delta.
Proof. unfold add. destruct (in_range _); congruence. Qed.

(** what [ts] holds after the anchors are derived *)
Lemma timeset_Ok kw_now ts :
  timeset kw_now = Ok ts ->
  let now := match kw_now with Some dt => dt | None => host_now end in
  exists sot som eom sow t,
    host_timestamp now = Some t /\
    datetime_new (year now) (month now) (day now) 0 0 0 = Some sot /\
    ts = <["end_of_this_week" := sow + timedelta 6 0 59 59]>
         (<["start_of_this_week" := sow]>
         (<["end_of_this_month" := eom]>
         (<["start_of_this_month" := som]>
         (<["end_of_today" := sot + timedelta 0 23 59 59]>
         (<["start_of_today" := sot]>
         (<["now" := now]> ∅)))))).
Proof.
  unfold timeset. intros E.
  repeat (apply bind_Ok in E; destruct E as (? & ?%or_raise_Ok & E)).
  injection E as <-.
  repeat match goal with
         | A : add _ _ = Some _ |- _ => apply add_Some in A; subst
         end.
  eauto 10.
Qed.

Lemma timeset_lookup_now kw_now ts :
  timeset kw_now = Ok ts ->
  ts !! "now" = Some (match kw_now with Some dt => dt | None => host_now end).
Proof.
  intros (sot & som & eom & sow & t & _ & _ & ->)%timeset_Ok.
  reflexivity.
Qed.

(** a text that is no anchor name is no key of [ts] *)
Lemma timeset_lookup_None kw_now ts k :
  timeset kw_now = Ok ts ->
  existsb (String.eqb k) anchor_names = false ->
  ts !! k = None.
Proof.
  intros (sot & som & eom & sow & t & _ & _ & ->)%timeset_Ok Hk.
  unfold anchor_names in Hk. cbn [existsb] in Hk.
  repeat (apply orb_false_elim in Hk; destruct Hk as [?%String.eqb_neq Hk]).
  rewrite !lookup_insert_ne by congruence.
  apply lookup_empty.
Qed.

Lemma timeset_test_now t :
  host_timestamp test_now = Some t ->
  timeset (Some test_now) = Ok test_timeset.
Proof.
  intros Ht. unfold timeset, int_timestamp. cbn beta zeta iota.
  rewrite Ht. vm_compute. reflexivity.
Qed.

(** ** One bound *)

Lemma parse_timefilter_parts query kw_now ts a b :
  timeset kw_now = Ok ts ->
  split " to " (strip (sub_range query)) = [a; b] ->
  parse_timefilter query kw_now =
  (start ← resolve_bound ts (strip a);
   end_ ← resolve_bound ts (strip b);
   if negb (isinstance_int start) || negb (isinstance_int end_)
   then Fail (Exit1 ExitNotInt)
   else Ok {| range_start := start; range_end := end_ |}).
Proof.
  intros Hts Hsplit. unfold parse_timefilter. rewrite Hts.
  change (Ok ts ≫= ?k) with (k ts). cbn beta. now rewrite Hsplit.
Qed.

Lemma resolve_bound_anchor ts bound dt t :
  ts !! bound = Some dt -> host_timestamp dt = Some t ->
  resolve_bound ts bound = Ok (VInt t).
Proof.
  intros Hk Ht. unfold resolve_bound, int_timestamp. now rewrite Hk, Ht.
Qed.

Lemma resolve_bound_bare ts bound :
  ts !! bound = None -> has_sign bound = false ->
  resolve_bound ts bound = Fail (Exit1 ExitInvalidRange).
Proof. intros Hk Hs. unfold resolve_bound. now rewrite Hk, Hs. Qed.

Lemma resolve_bound_offset ts bound base tail operator v0 v1 :
  ts !! bound = None -> has_sign bound = true ->
  search_before_op bound = Some base ->
  search_after_op bound = Some tail ->
  search_op bound = Some operator ->
  first_operand ts (strip base) = Ok v0 ->
  second_operand ins (strip tail) = Ok v1 ->
  resolve_bound ts bound =
  match host_eval (join_space [py_str v0; strip operator; py_str v1]) with
  | EvValue v => Ok v
  | EvRaise => Fail (Exit1 ExitExprEval)
  | EvEscape => Fail Escaped
  end.
Proof.
  intros Hk Hs Hb Ht Ho H0 H1. unfold resolve_bound.
  rewrite Hk, Hs, Hb, Ht, Ho. cbn [or_raise].
  change (Ok ?a ≫= ?k) with (k a). cbn beta.
  rewrite H0. change (Ok ?a ≫= ?k) with (k a). cbn beta.
  rewrite H1. reflexivity.
Qed.

Lemma resolve_bound_operand_fails ts bound base tail operator f :
  ts !! bound = None -> has_sign bound = true ->
  search_before_op bound = Some base ->
  search_after_op bound = Some tail ->
  search_op bound = Some operator ->
  first_operand ts (strip base) = Fail f ->
  resolve_bound ts bound = Fail f.
Proof.
  intros Hk Hs Hb Ht Ho H0. unfold resolve_bound.
  rewrite Hk, Hs, Hb, Ht, Ho. cbn [or_raise].
  change (Ok ?a ≫= ?k) with (k a). cbn beta.
  now rewrite H0.
Qed.

Lemma first_operand_anchor ts base dt t :
  ts !! base = Some dt -> host_timestamp dt = Some t ->
  first_operand ts base = Ok (VInt t).
Proof.
  intros Hk Ht. unfold first_operand, int_timestamp. now rewrite Hk, Ht.
Qed.

Lemma first_operand_numeric ts base :
  ts !! base = None -> isnumeric base = true ->
  first_operand ts base = Fail (Uncaught (KeyError base)).
Proof. intros Hk Hn. unfold first_operand. now rewrite Hk, Hn. Qed.

Lemma first_operand_text ts base :
  ts !! base = None -> isnumeric base = false ->
  first_operand ts base = Ok (VStr base).
Proof. intros Hk Hn. unfold first_operand. now rewrite Hk, Hn. Qed.


Lemma second_operand_5h :
  eval_agrees H -> second_operand ins "5h" = Ok (VInt 18000).
Proof.
  intros Hag.
  change (second_operand ins "5h") with
    (match host_eval "5* 3600" with
     | EvValue v => Ok v
     | EvRaise => Fail (Exit1 ExitTailEval)
     | EvEscape => Fail Escaped
     end).
  now rewrite (Hag "5* 3600" (EvValue (VInt 18000))).
Qed.

(** no numeric text is an anchor name *)
Lemma numeric_not_anchor base :
  isnumeric base = true -> existsb (String.eqb base) anchor_names = false.
Proof.
  intros Hn. unfold anchor_names. cbn [existsb].
  repeat match goal with
         | |- context [String.eqb base ?a] =>
             destruct (String.eqb_spec base a) as [->|_]; [discriminate Hn|]
         end.
  reflexivity.
Qed.

(** the general form of the first assertion of the unit test *)
Lemma parse_now_minus_5h kw_now ts eot t te :
  eval_agrees H ->
  timeset kw_now = Ok ts ->
  host_timestamp (match kw_now with Some dt => dt | None => host_now end)
    = Some t ->
  ts !! "end_of_today" = Some eot ->
  host_timestamp eot = Some te ->
  parse_timefilter "range= now - 5h to end_of_today" kw_now
  = Ok {| range_start := VInt (t - 18000); range_end := VInt te |}.
Proof.
  intros Hag Hts Ht Heot Hte.
  rewrite (parse_timefilter_parts _ _ ts "now - 5h" "end_of_today" Hts)
    by reflexivity.
  change (strip "now - 5h") with "now - 5h".
  change (strip "end_of_today") with "end_of_today".
  rewrite (resolve_bound_offset ts "now - 5h" "now " " 5h" "-"
             (VInt t) (VInt 18000));
    try reflexivity.
  - cbn [py_str]. change (strip "-") with "-".
    change "18000" with (str_int 18000).
    rewrite (Hag _ _ (arith_eval_sub t 18000)).
    change (Ok ?a ≫= ?k) with (k a). cbn beta.
    rewrite (resolve_bound_anchor ts "end_of_today" eot te Heot Hte).
    reflexivity.
  - now apply (timeset_lookup_None kw_now).
  - eapply first_operand_anchor; [|exact Ht].
    now apply timeset_lookup_now.
  - now apply second_operand_5h.
Qed.

End ResolverFacts.

Lemma utc_host_eval_agrees : eval_agrees utc_host.
Proof.
  intros src o E. cbn [host_eval utc_host]. unfold arith_host_eval.
  now rewrite E.
Qed.

(** the four assertions of [test_parse_timefilter], run on the UTC host *)
Example test_parse_timefilter_utc :
  map (fun q => simple_note.parse_timefilter (H := utc_host) q (Some test_now))
    [ "range= now - 5h to end_of_today";
      "range=start_of_today - 1d to end_of_this_month + 3m";
      "range =start_of_today - 1d to end_of_this_month + 3m";
      "range= start_of_this_week - 300m to start_of_today + 7s" ]%string
  = map (fun '(a, b) =>
           Ok {| range_start := VInt (a - UNIX_EPOCH);
                 range_end := VInt (b - UNIX_EPOCH) |})
      [ (datetime_of 2022 4 7 7 30 0, datetime_of 2022 4 7 23 59 59);
        (datetime_of 2022 4 6 0 0 0, datetime_of 2022 5 1 0 2 59);
        (datetime_of 2022 4 6 0 0 0, datetime_of 2022 5 1 0 2 59);
        (datetime_of 2022 4 3 19 0 0, datetime_of 2022 4 7 0 0 7) ].
Proof. vm_compute. reflexivity. Qed.

(** * The claims *)

(** ** C1 *)

(** C1. With [now = 2022-04-07T12:30:00], the query
    ["range= now - 5h to end_of_today"] is resolved, and the range returned
    has the epoch seconds of 2022-04-07T07:30:00 as its start and those of
    2022-04-07T23:59:59 as its end.  The host is any one whose [eval] does
    integer arithmetic and whose local zone keeps its UTC offset between
    07:30 and 12:30 of that day ([timestamp] of the two are 5 hours apart). *)
Theorem now_minus_5h_to_end_of_today (H : Host) (t_start t_end : Z) :
  eval_agrees H ->
  host_timestamp (datetime_of 2022 4 7 7 30 0) = Some t_start ->
  host_timestamp (datetime_of 2022 4 7 12 30 0) = Some (t_start + 5 * 3600) ->
  host_timestamp (datetime_of 2022 4 7 23 59 59) = Some t_end ->
  simple_note.parse_timefilter "range= now - 5h to end_of_today"
    (Some (datetime_of 2022 4 7 12 30 0))
  = Ok {| range_start := VInt t_start; range_end := VInt t_end |}.
Proof.
  intros Hag H0730 H1230 H2359.
  fold test_now in H1230 |- *.
  rewrite (parse_now_minus_5h (Some test_now) test_timeset
             (datetime_of 2022 4 7 23 59 59) (t_start + 5 * 3600) t_end);
    try assumption.
  - do 3 f_equal. lia.
  - now apply (timeset_test_now (t_start + 5 * 3600)).
  - reflexivity.
Qed.

Lemma now_minus_5h_to_end_of_today_witness :
  simple_note.parse_timefilter (H := utc_host)
    "range= now - 5h to end_of_today" (Some (datetime_of 2022 4 7 12 30 0))
  = Ok {| range_start := VInt 1649316600; range_end := VInt 1649375999 |}.
Proof.
  apply (now_minus_5h_to_end_of_today utc_host 1649316600 1649375999).
  - exact utc_host_eval_agrees.
  - reflexivity.
  - reflexivity.
  - reflexivity.
Defined.

(** ** C2 *)

(** C2 (the code at the failing input, and at every numeric base).  A base
    that is a plain integer literal is no key of [ts], and the resolver
    looks it up there: [first_operand] raises [KeyError].  So the query
    ["range= 1000 + 5s to end_of_today"] ends in [KeyError('1000')] for every
    [now] for which the anchors can be derived, where the claim has it
    return 1005. *)
Theorem integer_base_raises_KeyError (H : Host) (kw_now : option datetime)
    (ts : gmap string datetime) :
  simple_note.timeset kw_now = Ok ts ->
  (forall base, isnumeric base = true ->
     simple_note.first_operand ts base = Fail (Uncaught (KeyError base)))
  /\ simple_note.parse_timefilter "range= 1000 + 5s to end_of_today" kw_now
     = Fail (Uncaught (KeyError "1000")).
Proof.
  intros Hts.
  assert (Hnum : forall base, isnumeric base = true ->
            simple_note.first_operand ts base = Fail (Uncaught (KeyError base))).
  { intros base Hn. apply first_operand_numeric; [|exact Hn].
    apply (timeset_lookup_None kw_now); [exact Hts|].
    now apply numeric_not_anchor. }
  split; [exact Hnum|].
  rewrite (parse_timefilter_parts _ _ ts "1000 + 5s" "end_of_today" Hts)
    by reflexivity.
  change (strip "1000 + 5s") with "1000 + 5s"%string.
  rewrite (resolve_bound_operand_fails ts "1000 + 5s" "1000 " " 5s" "+"
             (Uncaught (KeyError "1000")));
    try reflexivity.
  - now apply (timeset_lookup_None kw_now).
  - now apply (Hnum "1000"%string).
Qed.

Lemma integer_base_raises_KeyError_witness :
  simple_note.parse_timefilter (H := utc_host)
    "range= 1000 + 5s to end_of_today" (Some test_now)
  = Fail (Uncaught (KeyError "1000")).
Proof.
  apply (integer_base_raises_KeyError utc_host (Some test_now) test_timeset).
  apply (timeset_test_now (H := utc_host) 1649334600). reflexivity.
Defined.

(** ** C3 *)

(** C3, as stated, fails: on the UTC host at the unit test's instant the
    query ["range= 1000 to 2000"] is not resolved to 1000 and 2000; the
    resolver leaves through its [exit(1)] for an invalid range. *)
Lemma bare_integer_bound_rejected :
  bare_non_anchor "1000" = true
  /\ simple_note.parse_timefilter (H := utc_host) "range= 1000 to 2000"
       (Some test_now)
     = Fail (Exit1 ExitInvalidRange)
  /\ simple_note.parse_timefilter (H := utc_host) "range= 1000 to 2000"
       (Some test_now)
     <> Ok {| range_start := VInt 1000; range_end := VInt 2000 |}.
Proof. vm_compute. repeat split; discriminate. Qed.

(** C3, amended.  A bound that is no anchor name and has no ['+'] and no
    ['-'] in it (a bare integer literal is one) is never accepted: when it
    is the first bound the resolver prints the invalid-range message and
    calls [exit(1)], and when it is the second bound no range is returned
    either. *)
Theorem bare_bound_is_invalid_range (H : Host) (query : string)
    (kw_now : option datetime) (ts : gmap string datetime) (a b : string) :
  simple_note.timeset kw_now = Ok ts ->
  split " to " (strip (sub_range query)) = [a; b] ->
  (bare_non_anchor (strip a) = true ->
     simple_note.parse_timefilter query kw_now = Fail (Exit1 ExitInvalidRange))
  /\ (bare_non_anchor (strip b) = true ->
        forall r, simple_note.parse_timefilter query kw_now <> Ok r).
Proof.
  intros Hts Hsplit.
  rewrite (parse_timefilter_parts query kw_now ts a b Hts Hsplit).
  assert (Hbare : forall bound, bare_non_anchor bound = true ->
            simple_note.resolve_bound ts bound = Fail (Exit1 ExitInvalidRange)).
  { intros bound [Hs Hk]%andb_prop.
    apply negb_true_iff in Hs. apply negb_true_iff in Hk.
    apply resolve_bound_bare; [|exact Hs].
    now apply (timeset_lookup_None kw_now). }
  split.
  - intros Ha. now rewrite (Hbare _ Ha).
  - intros Hb r. rewrite (Hbare _ Hb).
    now destruct (simple_note.resolve_bound ts (strip a)).
Qed.

Lemma bare_bound_is_invalid_range_witness :
  simple_note.parse_timefilter (H := utc_host) "range= 1000 to 2000"
    (Some test_now)
  = Fail (Exit1 ExitInvalidRange).
Proof.
  apply (bare_bound_is_invalid_range utc_host "range= 1000 to 2000"
           (Some test_now) test_timeset "1000" "2000").
  - apply (timeset_test_now (H := utc_host) 1649334600). reflexivity.
  - reflexivity.
  - reflexivity.
Defined.

(** ** C4 *)

(** C4, as stated, fails: on the UTC host at the unit test's instant the
    query in capitals leaves through [exit(1)] while the one in lower case
    returns a range. *)
Lemma capitals_change_the_result :
  simple_note.parse_timefilter (H := utc_host)
    "range= NOW - 5H to End_Of_Today" (Some test_now)
  = Fail (Exit1 ExitExprEval)
  /\ simple_note.parse_timefilter (H := utc_host)
       "range= now - 5h to end_of_today" (Some test_now)
     = Ok {| range_start := VInt 1649316600; range_end := VInt 1649375999 |}
  /\ simple_note.parse_timefilter (H := utc_host)
       "range= NOW - 5H to End_Of_Today" (Some test_now)
     <> simple_note.parse_timefilter (H := utc_host)
          "range= now - 5h to end_of_today" (Some test_now).
Proof. vm_compute. repeat split; discriminate. Qed.

(** C4, amended.  Anchor names and unit letters are matched as they are
    written, in lower case: for every [now], ["NOW"] is no key of the
    anchor table and ["5H"] has no unit letter, so the resolver hands the
    text ["NOW - 5H"] to [eval], which raises, and calls [exit(1)]. *)
Theorem keywords_are_case_sensitive (H : Host) (kw_now : option datetime)
    (ts : gmap string datetime) :
  eval_agrees H ->
  simple_note.timeset kw_now = Ok ts ->
  ts !! "NOW"%string = None
  /\ simple_note.second_operand simple_note.ins "5H" = Ok (VStr "5H")
  /\ simple_note.parse_timefilter "range= NOW - 5H to End_Of_Today" kw_now
     = Fail (Exit1 ExitExprEval).
Proof.
  intros Hag Hts.
  assert (Hk : ts !! "NOW"%string = None)
    by now apply (timeset_lookup_None kw_now).
  split; [exact Hk | split; [reflexivity|]].
  rewrite (parse_timefilter_parts _ _ ts "NOW - 5H" "End_Of_Today" Hts)
    by reflexivity.
  change (strip "NOW - 5H") with "NOW - 5H"%string.
  rewrite (resolve_bound_offset ts "NOW - 5H" "NOW " " 5H" "-"
             (VStr "NOW") (VStr "5H"));
    try reflexivity.
  - cbn [py_str]. change (strip "-") with "-"%string.
    now rewrite (Hag (join_space ["NOW"; "-"; "5H"]%string) EvRaise).
  - now apply (timeset_lookup_None kw_now).
  - now apply first_operand_text.
Qed.

Lemma keywords_are_case_sensitive_witness :
  simple_note.parse_timefilter (H := utc_host)
    "range= NOW - 5H to End_Of_Today" (Some test_now)
  = Fail (Exit1 ExitExprEval).
Proof.
  apply (keywords_are_case_sensitive utc_host (Some test_now) test_timeset).
  - exact utc_host_eval_agrees.
  - apply (timeset_test_now (H := utc_host) 1649334600). reflexivity.
Defined.

(** ** C5 *)

(** C5, as stated, fails: at the unit test's instant the two anchors of the
    week are not 522059 seconds apart. *)
Lemma week_span_is_not_522059 :
  simple_note.timeset (H := utc_host) (Some test_now) = Ok test_timeset
  /\ test_timeset !! "start_of_this_week"%string
     = Some (datetime_of 2022 4 4 0 0 0)
  /\ test_timeset !! "end_of_this_week"%string
     = Some (datetime_of 2022 4 10 0 59 59)
  /\ datetime_of 2022 4 10 0 59 59 - datetime_of 2022 4 4 0 0 0 <> 522059.
Proof. vm_compute. repeat split; discriminate. Qed.

(** C5, amended.  For every [now] for which the anchors can be derived,
    [end_of_this_week - start_of_this_week] is the same [timedelta]: 6 days,
    59 minutes and 59 seconds, that is 521999 seconds, with no hours in it. *)
Theorem week_span_is_constant (H : Host) (kw_now : option datetime)
    (ts : gmap string datetime) :
  simple_note.timeset kw_now = Ok ts ->
  exists sow eow : datetime,
    ts !! "start_of_this_week"%string = Some sow
    /\ ts !! "end_of_this_week"%string = Some eow
    /\ eow - sow = timedelta 6 0 59 59
    /\ eow - sow = 521999.
Proof.
  intros (sot & som & eom & sow & t & _ & _ & ->)%timeset_Ok.
  exists sow, (sow + timedelta 6 0 59 59).
  split; [reflexivity | split; [reflexivity | split]].
  - lia.
  - unfold timedelta, SECONDS_PER_DAY. lia.
Qed.

Lemma week_span_is_constant_witness :
  exists sow eow : datetime,
    test_timeset !! "start_of_this_week"%string = Some sow
    /\ test_timeset !! "end_of_this_week"%string = Some eow
    /\ eow - sow = timedelta 6 0 59 59
    /\ eow - sow = 521999.
Proof.
  apply (week_span_is_constant utc_host (Some test_now) test_timeset).
  apply (timeset_test_now (H := utc_host) 1649334600). reflexivity.
Defined.

(** ** C6 *)

(** C6.  The text left after deleting ["range ="] is split on [" to "];
    when that does not give exactly two parts the resolver returns nothing:
    the unpacking [(start, end) = ...] raises [ValueError] (the failure the
    specification files under an invalid range expression), and nothing
    catches it.  Only a failure while the anchors are derived can come
    first.  ["range= to end_of_today"] is such a query for every [now]: it
    splits into one part. *)
Theorem other_than_two_parts_fails (H : Host) (kw_now : option datetime) :
  (forall query,
     length (split " to " (strip (sub_range query))) <> 2%nat ->
     (forall r, simple_note.parse_timefilter query kw_now <> Ok r)
     /\ (forall ts, simple_note.timeset kw_now = Ok ts ->
           simple_note.parse_timefilter query kw_now
           = Fail (Uncaught ValueError_unpack)))
  /\ split " to " (strip (sub_range "range= to end_of_today"))
     = ["to end_of_today"%string]
  /\ (forall r,
        simple_note.parse_timefilter "range= to end_of_today" kw_now <> Ok r)
  /\ (forall ts, simple_note.timeset kw_now = Ok ts ->
        simple_note.parse_timefilter "range= to end_of_today" kw_now
        = Fail (Uncaught ValueError_unpack)).
Proof.
  assert (Hgen : forall query,
     length (split " to " (strip (sub_range query))) <> 2%nat ->
     (forall r, simple_note.parse_timefilter query kw_now <> Ok r)
     /\ (forall ts, simple_note.timeset kw_now = Ok ts ->
           simple_note.parse_timefilter query kw_now
           = Fail (Uncaught ValueError_unpack))).
  { intros query Hlen. unfold simple_note.parse_timefilter.
    destruct (simple_note.timeset kw_now) as [ts|f]; cbn.
    - destruct (split " to " (strip (sub_range query))) as [|a [|b [|c l]]];
        try (split; [discriminate | reflexivity]).
      now contradiction Hlen.
    - split; [discriminate | intros ts' Hts'; discriminate Hts']. }
  split; [exact Hgen|].
  split; [reflexivity|].
  apply Hgen. discriminate.
Qed.

Lemma other_than_two_parts_fails_witness :
  simple_note.parse_timefilter (H := utc_host) "range= to end_of_today"
    (Some test_now)
  = Fail (Uncaught ValueError_unpack).
Proof.
  apply (other_than_two_parts_fails utc_host (Some test_now)) with test_timeset.
  apply (timeset_test_now (H := utc_host) 1649334600). reflexivity.
Defined.

(** ** C7 *)




(** ** C8 *)

(** C8.  Whatever the host, the query and [now]: when the resolver returns,
    [isinstance(_, int)] holds of both slots of the range; a slot that is no
    [int] makes it call [exit(1)] instead. *)
Theorem returned_slots_are_int (H : Host) (query : string)
    (kw_now : option datetime) (r : query_range) :
  simple_note.parse_timefilter query kw_now = Ok r ->
  isinstance_int (range_start r) = true /\ isinstance_int (range_end r) = true.
Proof.
  unfold simple_note.parse_timefilter. intros E.
  apply bind_Ok in E. destruct E as (ts & _ & E).
  destruct (split " to " (strip (sub_range query))) as [|a [|b [|c l]]];
    try discriminate E.
  apply bind_Ok in E. destruct E as (v0 & _ & E).
  apply bind_Ok in E. destruct E as (v1 & _ & E).
  destruct (isinstance_int v0) eqn:E0; [|discriminate E].
  destruct (isinstance_int v1) eqn:E1; [|discriminate E].
  injection E as <-. now split.
Qed.

Lemma returned_slots_are_int_witness :
  isinstance_int (VInt 1649316600) = true
  /\ isinstance_int (VInt 1649375999) = true.
Proof.
  apply (returned_slots_are_int utc_host "range= now - 5h to end_of_today"
           (Some test_now)
           {| range_start := VInt 1649316600; range_end := VInt 1649375999 |}).
  vm_compute. reflexivity.
Defined.

(** ** C9 *)


(** ** C10 *)


(** * Further properties *)

(** ** The calendar *)

Lemma month_day_ok_all leapyear n :
  0 <= n < 365 -> month_day_ok leapyear n = true.
Proof.
  intros Hn.
  assert (Hall : forallb (fun k => month_day_ok true (Z.of_nat k)
                                   && month_day_ok false (Z.of_nat k))
                   (seq 0 365) = true) by (vm_compute; reflexivity).
  rewrite forallb_forall in Hall.
  specialize (Hall (Z.to_nat n)).
  rewrite Z2Nat.id in Hall by lia.
  assert (Hin : In (Z.to_nat n) (seq 0 365)) by (apply in_seq; lia).
  apply Hall in Hin. apply andb_prop in Hin.
  destruct leapyear; tauto.
Qed.

Lemma days_before_year_400 a b c d :
  0 <= a -> 0 <= b <= 3 -> 0 <= c <= 24 -> 0 <= d <= 3 ->
  days_before_year (a * 400 + 1 + b * 100 + c * 4 + d)
  = 146097 * a + 36524 * b + 1461 * c + 365 * d.
Proof.
  intros Ha Hb Hc Hd. unfold days_before_year. cbv zeta.
  replace (a * 400 + 1 + b * 100 + c * 4 + d - 1)
    with (400 * a + 100 * b + 4 * c + d) by lia.
  assert ((400 * a + 100 * b + 4 * c + d) / 4 = 100 * a + 25 * b + c)
    by (symmetry; apply (Z.div_unique _ _ _ d); lia).
  assert ((400 * a + 100 * b + 4 * c + d) / 100 = 4 * a + b)
    by (symmetry; apply (Z.div_unique _ _ _ (4 * c + d)); lia).
  assert ((400 * a + 100 * b + 4 * c + d) / 400 = a)
    by (symmetry; apply (Z.div_unique _ _ _ (100 * b + 4 * c + d)); lia).
  lia.
Qed.

Lemma is_leap_400 a b c d :
  0 <= a -> 0 <= b <= 3 -> 0 <= c <= 24 -> 0 <= d <= 3 ->
  is_leap (a * 400 + 1 + b * 100 + c * 4 + d)
  = (d =? 3) && (negb (c =? 24) || (b =? 3)).
Proof.
  intros Ha Hb Hc Hd. unfold is_leap.
  set (y := a * 400 + 1 + b * 100 + c * 4 + d).
  assert (E4 : y mod 4 = (d + 1) mod 4).
  { unfold y. replace (a * 400 + 1 + b * 100 + c * 4 + d)
      with ((d + 1) + (100 * a + 25 * b + c) * 4) by lia.
    apply Z.mod_add. lia. }
  assert (E100 : y mod 100 = (4 * c + d + 1) mod 100).
  { unfold y. replace (a * 400 + 1 + b * 100 + c * 4 + d)
      with ((4 * c + d + 1) + (4 * a + b) * 100) by lia.
    apply Z.mod_add. lia. }
  assert (E400 : y mod 400 = (100 * b + 4 * c + d + 1) mod 400).
  { unfold y. replace (a * 400 + 1 + b * 100 + c * 4 + d)
      with ((100 * b + 4 * c + d + 1) + a * 400) by lia.
    apply Z.mod_add. lia. }
  rewrite E4, E100, E400.
  destruct (Z.eqb_spec d 3) as [->|Hd3].
  - change ((3 + 1) mod 4 =? 0) with true. cbn [andb].
    destruct (Z.eqb_spec c 24) as [->|Hc24].
    + change ((4 * 24 + 3 + 1) mod 100 =? 0) with true. cbn [negb orb].
      destruct (Z.eqb_spec b 3) as [->|Hb3]; [reflexivity|].
      rewrite Z.mod_small by lia.
      destruct (Z.eqb_spec (100 * b + 4 * 24 + 3 + 1) 0); [lia | reflexivity].
    + cbn [negb orb]. rewrite Z.mod_small by lia.
      destruct (Z.eqb_spec (4 * c + 3 + 1) 0); [lia | reflexivity].
  - rewrite Z.mod_small by lia.
    destruct (Z.eqb_spec (d + 1) 0); [lia | reflexivity].
Qed.

Lemma ord2ymd_spec n :
  1 <= n ->
  let '(y, m, d) := ord2ymd n in
  ymd2ord y m d = n /\ 1 <= m <= 12 /\ 1 <= d <= days_in_month y m
  /\ 1 <= y /\ (n <= 3652059 -> y <= 9999).
Proof.
  intros Hn. unfold ord2ymd. cbv zeta.
  unfold DI400Y, DI100Y, DI4Y.
  set (n0 := n - 1).
  pose proof (Z.div_mod n0 146097 ltac:(lia)) as E1.
  pose proof (Z.mod_pos_bound n0 146097 ltac:(lia)) as B1.
  set (n400 := n0 / 146097) in *. set (r1 := n0 mod 146097) in *.
  pose proof (Z.div_mod r1 36524 ltac:(lia)) as E2.
  pose proof (Z.mod_pos_bound r1 36524 ltac:(lia)) as B2.
  set (n100 := r1 / 36524) in *. set (r2 := r1 mod 36524) in *.
  pose proof (Z.div_mod r2 1461 ltac:(lia)) as E3.
  pose proof (Z.mod_pos_bound r2 1461 ltac:(lia)) as B3.
  set (n4 := r2 / 1461) in *. set (r3 := r2 mod 1461) in *.
  pose proof (Z.div_mod r3 365 ltac:(lia)) as E4.
  pose proof (Z.mod_pos_bound r3 365 ltac:(lia)) as B4.
  set (n1 := r3 / 365) in *. set (r4 := r3 mod 365) in *.
  assert (H400 : 0 <= n400) by lia.
  assert (H100 : 0 <= n100 <= 4) by lia.
  assert (H4 : 0 <= n4 <= 24) by lia.
  assert (H1 : 0 <= n1 <= 4) by lia.
  assert (En : n = n0 + 1) by (unfold n0; lia).
  clearbody n0 n400 r1 n100 r2 n4 r3 n1 r4.
  destruct ((n1 =? 4) || (n100 =? 4)) eqn:Especial.
  - (* the last day of a leap year *)
    assert (Hcase : (n100 = 4 /\ n4 = 0 /\ n1 = 0 /\ r4 = 0)
                    \/ (n100 <= 3 /\ n1 = 4 /\ n4 <= 23 /\ r4 = 0)).
    { apply orb_prop in Especial. destruct Especial as [E|E];
        apply Z.eqb_eq in E; lia. }
    unfold ymd2ord, days_before_month, days_in_month.
    destruct Hcase as [(-> & -> & -> & ->) | (Hb & -> & Hc & ->)].
    + replace (n400 * 400 + 1 + 4 * 100 + 0 * 4 + 0 - 1)
        with (n400 * 400 + 1 + 3 * 100 + 24 * 4 + 3) by lia.
      rewrite days_before_year_400, is_leap_400 by lia.
      cbn. lia.
    + replace (n400 * 400 + 1 + n100 * 100 + n4 * 4 + 4 - 1)
        with (n400 * 400 + 1 + n100 * 100 + n4 * 4 + 3) by lia.
      rewrite days_before_year_400, is_leap_400 by lia.
      replace (n4 =? 24) with false by (symmetry; apply Z.eqb_neq; lia).
      cbn. lia.
  - apply orb_false_elim in Especial. destruct Especial as [N1 N100].
    apply Z.eqb_neq in N1, N100.
    set (leapyear := (n1 =? 3) && (negb (n4 =? 24) || (n100 =? 3))).
    set (year := n400 * 400 + 1 + n100 * 100 + n4 * 4 + n1).
    pose proof (month_day_ok_all leapyear r4 B4) as Hmd.
    unfold month_day_ok, month_day in Hmd. cbv zeta in Hmd.
    assert (Hleap : is_leap year = leapyear) by (apply is_leap_400; lia).
    assert (Hdby : days_before_year year
                   = 146097 * n400 + 36524 * n100 + 1461 * n4 + 365 * n1)
      by (apply days_before_year_400; lia).
    assert (Hyear : 1 <= year /\ (n <= 3652059 -> year <= 9999))
      by (unfold year; lia).
    destruct (r4 <? _) eqn:Hlt in Hmd |- *;
      repeat (apply andb_prop in Hmd; destruct Hmd as [Hmd ?]);
      repeat match goal with
             | X : (_ <=? _) = true |- _ => apply Z.leb_le in X
             | X : (_ =? _) = true |- _ => apply Z.eqb_eq in X
             end;
      unfold ymd2ord, days_before_month, days_in_month;
      rewrite Hleap, Hdby.
    all: match goal with
         | |- context [if (?m =? 2) && ?l then 29 else _] =>
             destruct (Z.eqb_spec m 2) as [Em|Em];
               [rewrite Em in * | ];
               destruct l; cbn in *; lia
         end.
Qed.

(** ** The anchor table of every [now] *)

Section AnchorFacts.
Context {H : Host}.
Import simple_note.

Lemma days_before_year_succ y :
  days_before_year (y + 1)
  = days_before_year y + 365 + (if is_leap y then 1 else 0).
Proof.
  unfold days_before_year, is_leap. cbv zeta.
  replace (y + 1 - 1) with y by lia.
  destruct (Z.eqb_spec (y mod 4) 0) as [E4|E4];
  destruct (Z.eqb_spec (y mod 100) 0) as [E100|E100];
  destruct (Z.eqb_spec (y mod 400) 0) as [E400|E400]; cbn [negb andb orb];
  Z.div_mod_to_equations; lia.
Qed.

Lemma days_before_year_mono y y' :
  y <= y' -> days_before_year y <= days_before_year y'.
Proof.
  intros Hle. revert y' Hle. apply Z.le_ind.
  - intros a b ->. reflexivity.
  - lia.
  - intros m _ IH. unfold Z.succ. rewrite days_before_year_succ.
    destruct (is_leap m); lia.
Qed.

Lemma month_within_year y m :
  1 <= m <= 12 ->
  0 <= days_before_month y m
  /\ 28 <= days_in_month y m
  /\ days_before_month y m + days_in_month y m
     <= 365 + (if is_leap y then 1 else 0).
Proof.
  intros Hm. unfold days_before_month, days_in_month.
  assert (Hc : m = 1 \/ m = 2 \/ m = 3 \/ m = 4 \/ m = 5 \/ m = 6 \/ m = 7
               \/ m = 8 \/ m = 9 \/ m = 10 \/ m = 11 \/ m = 12) by lia.
  destruct (is_leap y);
    repeat (destruct Hc as [->|Hc]; [cbn; lia|]); subst; cbn; lia.
Qed.

(** the fields of a datetime in range rebuild its day *)
Lemma fields_of_datetime (now : datetime) :
  in_range now = true ->
  days_before_year (year now) + days_before_month (year now) (month now)
    + day now = now / 86400 + 1
  /\ 1 <= year now <= 9999
  /\ 1 <= month now <= 12
  /\ 1 <= day now <= days_in_month (year now) (month now).
Proof.
  unfold in_range. intros [H0 H1]%andb_prop.
  apply Z.leb_le in H0. apply Z.ltb_lt in H1.
  change DATETIME_END with (3652059 * 86400) in H1.
  unfold year, month, day, toordinal, SECONDS_PER_DAY in *.
  assert (Hq : 0 <= now / 86400 < 3652059)
    by (split; [apply Z.div_pos; lia | apply Z.div_lt_upper_bound; lia]).
  pose proof (ord2ymd_spec (now / 86400 + 1) ltac:(lia)) as Hs.
  destruct (ord2ymd (now / 86400 + 1)) as [[y m] d]. cbn [fst snd].
  destruct Hs as (Ho & ? & ? & ? & ?). unfold ymd2ord in Ho.
  repeat split; lia.
Qed.

Lemma datetime_new_valid y m d :
  1 <= y <= 9999 -> 1 <= m <= 12 -> 1 <= d <= days_in_month y m ->
  datetime_new y m d 0 0 0
  = Some ((days_before_year y + days_before_month y m + d - 1) * 86400).
Proof.
  intros Hy Hm Hd.
  unfold datetime_new, datetime_of, ymd2ord, MINYEAR, MAXYEAR, SECONDS_PER_DAY.
  repeat match goal with
         | |- context [?a <=? ?b] =>
             replace (a <=? b) with true by (symmetry; apply Z.leb_le; lia)
         end.
  cbn [andb]. f_equal. lia.
Qed.

Lemma datetime_new_midnight (now : datetime) :
  in_range now = true ->
  datetime_new (year now) (month now) (day now) 0 0 0
  = Some (now / 86400 * 86400).
Proof.
  intros Hr. destruct (fields_of_datetime now Hr) as (Ho & Hy & Hm & Hd).
  rewrite datetime_new_valid by assumption. f_equal. lia.
Qed.

Lemma datetime_new_first_of_month (now : datetime) :
  in_range now = true ->
  datetime_new (year now) (month now) 1 0 0 0
  = Some ((now / 86400 - (day now - 1)) * 86400).
Proof.
  intros Hr. destruct (fields_of_datetime now Hr) as (Ho & Hy & Hm & Hd).
  pose proof (month_within_year (year now) (month now) Hm) as (_ & H28 & _).
  rewrite datetime_new_valid by (try assumption; lia). f_equal. lia.
Qed.


Lemma DATETIME_END_value : DATETIME_END = 3652059 * 86400.
Proof. vm_compute. reflexivity. Qed.

Lemma in_range_iff t : in_range t = true <-> 0 <= t < 3652059 * 86400.
Proof.
  unfold in_range. rewrite DATETIME_END_value, andb_true_iff.
  rewrite Z.leb_le, Z.ltb_lt. reflexivity.
Qed.

Lemma add_Some_iff dt delta dt' :
  add dt delta = Some dt' <-> dt' = dt + delta /\ in_range (dt + delta) = true.
Proof.
  unfold add. destruct (in_range (dt + delta)); split.
  - intros [= <-]. now split.
  - intros [-> _]. reflexivity.
  - discriminate.
  - intros [_ ?]. discriminate.
Qed.

Lemma days_before_year_10000 : days_before_year 10000 = 3652059.
Proof. vm_compute. reflexivity. Qed.

Lemma days_before_year_1 : days_before_year 1 = 0.
Proof. vm_compute. reflexivity. Qed.

Lemma add_in_range dt delta :
  in_range (dt + delta) = true -> add dt delta = Some (dt + delta).
Proof. unfold add. now intros ->. Qed.

Lemma weekday_value t :
  0 <= t -> weekday t = (t / 86400) mod 7.
Proof.
  intros Ht. unfold weekday, toordinal, SECONDS_PER_DAY.
  replace (t / 86400 + 1 + 6) with (t / 86400 + 1 * 7) by lia.
  apply Z.mod_add. lia.
Qed.

Lemma bind_Ok_l {A B} (a : A) (k : A -> result B) : Ok a ≫= k = k a.
Proof. reflexivity. Qed.

Lemma or_raise_Some {A} e (a : A) : or_raise e (Some a) = Ok a.
Proof. reflexivity. Qed.

Lemma timedelta_value days hours minutes seconds :
  timedelta days hours minutes seconds
  = days * 86400 + hours * 3600 + minutes * 60 + seconds.
Proof. reflexivity. Qed.

Lemma sub_value dt delta : sub dt delta = add dt (- delta).
Proof. reflexivity. Qed.

Lemma add_value dt delta :
  add dt delta = if in_range (dt + delta) then Some (dt + delta) else None.
Proof. reflexivity. Qed.

Lemma int_timestamp_value dt :
  int_timestamp dt = or_raise TimestampError (host_timestamp dt).
Proof. reflexivity. Qed.

Lemma monthrange_days_valid y m :
  1 <= m <= 12 -> monthrange_days y m = Some (days_in_month y m).
Proof.
  intros Hm. unfold monthrange_days.
  now replace ((1 <=? m) && (m <=? 12)) with true
    by (symmetry; apply andb_true_iff; rewrite !Z.leb_le; lia).
Qed.

(** the anchors of a [now] in range, step by step *)
Lemma timeset_eval kw_now :
  let now := match kw_now with Some dt => dt | None => host_now end in
  in_range now = true ->
  let sot := now / 86400 * 86400 in
  let som := (now / 86400 - (day now - 1)) * 86400 in
  let ndays := days_in_month (year now) (month now) in
  let sow := (now / 86400 - (now / 86400) mod 7) * 86400 in
  timeset kw_now =
  if in_range (sow + 521999) then
    match host_timestamp now with
    | Some _ =>
        Ok (<["end_of_this_week" := sow + 521999]>
            (<["start_of_this_week" := sow]>
            (<["end_of_this_month" := som + (ndays * 86400 - 1)]>
            (<["start_of_this_month" := som]>
            (<["end_of_today" := sot + 86399]>
            (<["start_of_today" := sot]>
            (<["now" := now]> ∅)))))))
    | None => Fail (Uncaught TimestampError)
    end
  else Fail (Uncaught OverflowError).
Proof.
  cbv zeta. intros Hr. unfold timeset.
  set (now := match kw_now with Some dt => dt | None => host_now end) in *.
  destruct (fields_of_datetime now Hr) as (Ho & Hy & Hm & Hd).
  pose proof (month_within_year (year now) (month now) Hm) as (Hb0 & H28 & Hb).
  pose proof (days_before_year_succ (year now)) as Hsucc.
  pose proof (days_before_year_mono (year now + 1) 10000 ltac:(lia)) as Hmono.
  rewrite days_before_year_10000 in Hmono.
  pose proof (days_before_year_mono 1 (year now) ltac:(lia)) as Hmono1.
  rewrite days_before_year_1 in Hmono1.
  rewrite (datetime_new_midnight now Hr).
  rewrite (datetime_new_first_of_month now Hr).
  rewrite (monthrange_days_valid _ _ Hm).
  apply in_range_iff in Hr.
  assert (Hq : 0 <= now / 86400 < 3652059)
    by (split; [apply Z.div_pos; lia | apply Z.div_lt_upper_bound; lia]).
  pose proof (Z.mod_pos_bound (now / 86400) 7 ltac:(lia)) as Hwd.
  pose proof (Z.mod_le (now / 86400) 7 ltac:(lia) ltac:(lia)) as Hwq.
  remember (days_in_month (year now) (month now)) as ndays eqn:Endays.
  remember (days_before_year (year now)) as dby eqn:Edby.
  remember (days_before_year (year now + 1)) as dby' eqn:Edby'.
  remember (days_before_month (year now) (month now)) as dbm eqn:Edbm.
  remember (is_leap (year now)) as leap eqn:Eleap.
  remember (day now) as d eqn:Ed.
  remember (now / 86400) as q eqn:Eq.
  remember (q mod 7) as w eqn:Ew.
  clear Endays Edby Edby' Edbm Eleap Ed Hm Hy.
  rewrite !or_raise_Some, !bind_Ok_l.
  rewrite (timedelta_value 0 23 59 59).
  replace (0 * 86400 + 23 * 3600 + 59 * 60 + 59) with 86399 by lia.
  rewrite (add_in_range (q * 86400) 86399) by (apply in_range_iff; lia).
  rewrite !or_raise_Some, !bind_Ok_l.
  rewrite (timedelta_value (ndays - 1) 23 59 59).
  replace ((ndays - 1) * 86400 + 23 * 3600 + 59 * 60 + 59)
    with (ndays * 86400 - 1) by lia.
  rewrite (add_in_range ((q - (d - 1)) * 86400) (ndays * 86400 - 1))
    by (apply in_range_iff; destruct leap; lia).
  rewrite !or_raise_Some, !bind_Ok_l.
  rewrite (weekday_value (q * 86400 + 86399)) by lia.
  replace ((q * 86400 + 86399) / 86400) with q
    by (apply (Z.div_unique _ _ _ 86399); lia).
  rewrite <- Ew, sub_value, (timedelta_value w 0 0 0).
  replace (- (w * 86400 + 0 * 3600 + 0 * 60 + 0)) with (- (w * 86400)) by lia.
  rewrite (add_in_range (q * 86400) (- (w * 86400)))
    by (apply in_range_iff; lia).
  rewrite !or_raise_Some, !bind_Ok_l.
  replace (q * 86400 + - (w * 86400)) with ((q - w) * 86400) by lia.
  rewrite (timedelta_value 6 0 59 59).
  replace (6 * 86400 + 0 * 3600 + 59 * 60 + 59) with 521999 by lia.
  rewrite add_value, int_timestamp_value.
  destruct (in_range ((q - w) * 86400 + 521999)); [|reflexivity].
  rewrite !or_raise_Some, !bind_Ok_l.
  destruct (host_timestamp now); reflexivity.
Qed.

(** the table of a [now] in range, when it is derived *)
Lemma timeset_table kw_now ts :
  let now := match kw_now with Some dt => dt | None => host_now end in
  in_range now = true ->
  timeset kw_now = Ok ts ->
  let q := now / 86400 in
  in_range ((q - q mod 7) * 86400 + 521999) = true
  /\ ts = <["end_of_this_week" := (q - q mod 7) * 86400 + 521999]>
          (<["start_of_this_week" := (q - q mod 7) * 86400]>
          (<["end_of_this_month" :=
               (q - (day now - 1)) * 86400
               + (days_in_month (year now) (month now) * 86400 - 1)]>
          (<["start_of_this_month" := (q - (day now - 1)) * 86400]>
          (<["end_of_today" := q * 86400 + 86399]>
          (<["start_of_today" := q * 86400]>
          (<["now" := now]> ∅)))))).
Proof.
  cbv zeta. intros Hr. rewrite (timeset_eval kw_now Hr).
  destruct (in_range ((_ - _) * 86400 + 521999)); [|discriminate].
  destruct (host_timestamp _); [|discriminate].
  intros [= <-]. split; reflexivity.
Qed.

Lemma datetime_9999_12_27 : datetime_of 9999 12 27 0 0 0 = 3652054 * 86400.
Proof. vm_compute. reflexivity. Qed.

(** the week of [now] ends within the range of [datetime] exactly when
    [now] is before Monday 9999-12-27 *)
Lemma week_in_range (now : Z) :
  0 <= now < 3652059 * 86400 ->
  in_range ((now / 86400 - (now / 86400) mod 7) * 86400 + 521999)
  = (now <? datetime_of 9999 12 27 0 0 0).
Proof.
  intros Hr. rewrite datetime_9999_12_27.
  assert (Hq : 0 <= now / 86400 < 3652059)
    by (split; [apply Z.div_pos; lia | apply Z.div_lt_upper_bound; lia]).
  pose proof (Z.div_mod now 86400 ltac:(lia)) as Hn.
  pose proof (Z.mod_pos_bound now 86400 ltac:(lia)) as Hnr.
  pose proof (Z.div_mod (now / 86400) 7 ltac:(lia)) as Hdm.
  pose proof (Z.mod_pos_bound (now / 86400) 7 ltac:(lia)) as Hw.
  remember (now / 86400) as q. remember (q mod 7) as w.
  remember (q / 7) as k. remember (now mod 86400) as r.
  destruct (Z.ltb_spec now (3652054 * 86400)) as [Hlt|Hge].
  - apply in_range_iff. lia.
  - destruct (in_range _) eqn:E; [|reflexivity].
    apply in_range_iff in E. lia.
Qed.

End AnchorFacts.



(** [start_of_this_week] is a Monday at 00:00:00, and [now] lies in the
    seven days that start there. *)
Theorem week_starts_on_monday (H : Host) (kw_now : option datetime)
    (ts : gmap string datetime) :
  let now := match kw_now with Some dt => dt | None => host_now end in
  in_range now = true ->
  simple_note.timeset kw_now = Ok ts ->
  exists sow : datetime,
    ts !! "start_of_this_week"%string = Some sow
    /\ weekday sow = 0
    /\ sow mod 86400 = 0
    /\ sow <= now < sow + 7 * 86400.
Proof.
  cbv zeta. intros Hr E.
  destruct (timeset_table kw_now ts Hr E) as (_ & ->).
  apply in_range_iff in Hr.
  set (now := match kw_now with Some dt => dt | None => host_now end) in *.
  assert (Hq : 0 <= now / 86400)
    by (apply Z.div_pos; lia).
  pose proof (Z.div_mod now 86400 ltac:(lia)) as Hn.
  pose proof (Z.mod_pos_bound now 86400 ltac:(lia)) as Hnr.
  pose proof (Z.div_mod (now / 86400) 7 ltac:(lia)) as Hdm.
  pose proof (Z.mod_pos_bound (now / 86400) 7 ltac:(lia)) as Hw.
  exists ((now / 86400 - (now / 86400) mod 7) * 86400).
  split; [reflexivity|].
  replace (now / 86400 - (now / 86400) mod 7) with (now / 86400 / 7 * 7)
    by lia.
  assert (Hk : 0 <= now / 86400 / 7) by (apply Z.div_pos; lia).
  split; [|split].
  - rewrite weekday_value by lia. rewrite Z.div_mul by lia.
    apply Z.mod_mul. lia.
  - apply Z.mod_mul. lia.
  - lia.
Qed.

Lemma week_starts_on_monday_witness :
  exists sow : datetime,
    test_timeset !! "start_of_this_week"%string = Some sow
    /\ weekday sow = 0
    /\ sow mod 86400 = 0
    /\ sow <= test_now < sow + 7 * 86400.
Proof.
  apply (week_starts_on_monday utc_host (Some test_now) test_timeset).
  - reflexivity.
  - apply (timeset_test_now (H := utc_host) 1649334600). reflexivity.
Defined.

(** [end_of_this_week] is the Sunday of that week at 00:59:59, not its last
    second: [now] is later than [end_of_this_week] exactly when it is a
    Sunday after 00:59:59. *)
Theorem week_ends_early_on_sunday (H : Host) (kw_now : option datetime)
    (ts : gmap string datetime) :
  let now := match kw_now with Some dt => dt | None => host_now end in
  in_range now = true ->
  simple_note.timeset kw_now = Ok ts ->
  exists eow : datetime,
    ts !! "end_of_this_week"%string = Some eow
    /\ weekday eow = 6
    /\ eow mod 86400 = 59 * 60 + 59
    /\ (eow < now <-> weekday now = 6 /\ 59 * 60 + 59 < now mod 86400).
Proof.
  cbv zeta. intros Hr E.
  destruct (timeset_table kw_now ts Hr E) as (_ & ->).
  apply in_range_iff in Hr.
  set (now := match kw_now with Some dt => dt | None => host_now end) in *.
  assert (Hq : 0 <= now / 86400)
    by (apply Z.div_pos; lia).
  pose proof (Z.div_mod now 86400 ltac:(lia)) as Hn.
  pose proof (Z.mod_pos_bound now 86400 ltac:(lia)) as Hnr.
  pose proof (Z.div_mod (now / 86400) 7 ltac:(lia)) as Hdm.
  pose proof (Z.mod_pos_bound (now / 86400) 7 ltac:(lia)) as Hw.
  assert (Hk : 0 <= now / 86400 / 7) by (apply Z.div_pos; lia).
  exists ((now / 86400 - (now / 86400) mod 7) * 86400 + 521999).
  split; [reflexivity|].
  rewrite (weekday_value now) by lia.
  replace ((now / 86400 - (now / 86400) mod 7) * 86400 + 521999)
    with (3599 + (6 + now / 86400 / 7 * 7) * 86400) by lia.
  split; [|split].
  - rewrite weekday_value by lia.
    rewrite Z.div_add by lia. change (3599 / 86400) with 0.
    rewrite Z.add_0_l, Z.mod_add by lia. reflexivity.
  - rewrite Z.mod_add by lia. reflexivity.
  - remember (now / 86400) as q. remember (q mod 7) as w.
    remember (q / 7) as k. remember (now mod 86400) as r. lia.
Qed.

Lemma week_ends_early_on_sunday_witness :
  exists eow : datetime,
    test_timeset !! "end_of_this_week"%string = Some eow
    /\ weekday eow = 6
    /\ eow mod 86400 = 59 * 60 + 59
    /\ (eow < test_now
        <-> weekday test_now = 6 /\ 59 * 60 + 59 < test_now mod 86400).
Proof.
  apply (week_ends_early_on_sunday utc_host (Some test_now) test_timeset).
  - reflexivity.
  - apply (timeset_test_now (H := utc_host) 1649334600). reflexivity.
Defined.



(** For every [now] before Monday 9999-12-27 whose [timestamp()] the host
    can give, the anchor table is derived: no step of it raises. *)
Theorem anchors_derivable (H : Host) (kw_now : option datetime) (t : Z) :
  let now := match kw_now with Some dt => dt | None => host_now end in
  in_range now = true ->
  now < datetime_of 9999 12 27 0 0 0 ->
  host_timestamp now = Some t ->
  exists ts, simple_note.timeset kw_now = Ok ts.
Proof.
  cbv zeta. intros Hr Hlt Ht. rewrite (timeset_eval kw_now Hr).
  rewrite week_in_range by now apply in_range_iff.
  replace (_ <? _) with true by (symmetry; now apply Z.ltb_lt).
  rewrite Ht. eauto.
Qed.

Lemma anchors_derivable_witness :
  exists ts, simple_note.timeset (H := utc_host) (Some test_now) = Ok ts.
Proof.
  apply (anchors_derivable utc_host (Some test_now) 1649334600).
  - reflexivity.
  - reflexivity.
  - reflexivity.
Defined.

(** From Monday 9999-12-27 on, [end_of_this_week] is past [datetime.max]:
    whatever the query, [parse_timefilter] ends in the [OverflowError] of
    that addition. *)
Theorem last_week_overflows (H : Host) (kw_now : option datetime)
    (query : string) :
  let now := match kw_now with Some dt => dt | None => host_now end in
  in_range now = true ->
  datetime_of 9999 12 27 0 0 0 <= now ->
  simple_note.parse_timefilter query kw_now = Fail (Uncaught OverflowError).
Proof.
  cbv zeta. intros Hr Hge. unfold simple_note.parse_timefilter.
  rewrite (timeset_eval kw_now Hr).
  rewrite week_in_range by now apply in_range_iff.
  replace (_ <? _) with false by (symmetry; now apply Z.ltb_ge).
  reflexivity.
Qed.

Lemma last_week_overflows_witness :
  simple_note.parse_timefilter (H := utc_host)
    "range= start_of_today to now" (Some (datetime_of 9999 12 30 8 0 0))
  = Fail (Uncaught OverflowError).
Proof.
  apply (last_week_overflows utc_host (Some (datetime_of 9999 12 30 8 0 0))).
  - reflexivity.
  - vm_compute. discriminate.
Defined.

(** ** Bounds with an offset *)

Section BoundFacts.
Local Open Scope string_scope.

Lemma upto_last_op_plain s : all_chars plain_char s = true -> upto_last_op s = None.
Proof.
  induction s as [|c r IH]; [reflexivity|]. cbn [all_chars upto_last_op].
  intros [[Hc Hn]%andb_prop Hr]%andb_prop.
  apply negb_true_iff in Hc, Hn. now rewrite Hn, IH, Hc.
Qed.

Lemma upto_last_op_single pre op post :
  is_opchar op = true ->
  all_chars plain_char pre = true -> all_chars plain_char post = true ->
  upto_last_op (pre ++ String op post) = Some pre.
Proof.
  intros Hop Hpre Hpost. induction pre as [|c r IH].
  - rewrite app_Empty. cbn [upto_last_op].
    rewrite (upto_last_op_plain post Hpost), Hop.
    destruct (is_newline op) eqn:E; [|reflexivity].
    unfold is_newline in E. apply Ascii.eqb_eq in E. subst op. discriminate Hop.
  - rewrite app_String. cbn [all_chars] in Hpre. cbn [upto_last_op].
    apply andb_prop in Hpre. destruct Hpre as [[_ Hn]%andb_prop Hr].
    apply negb_true_iff in Hn. now rewrite Hn, (IH Hr).
Qed.

Lemma line_head_plain s : all_chars plain_char s = true -> line_head s = s.
Proof.
  induction s as [|c r IH]; [reflexivity|]. cbn [all_chars line_head].
  intros [[_ Hn]%andb_prop Hr]%andb_prop.
  apply negb_true_iff in Hn. now rewrite Hn, IH.
Qed.

(** a bound with one operator and no line feed is cut at the operator: the
    three searches give the text before it, the text after it and the
    operator itself *)
Lemma searches_single_operator pre op post :
  is_opchar op = true ->
  all_chars plain_char pre = true -> all_chars plain_char post = true ->
  search_before_op (pre ++ String op post) = Some pre
  /\ search_after_op (pre ++ String op post) = Some post
  /\ search_op (pre ++ String op post) = Some (String op "").
Proof.
  intros Hop Hpre Hpost. split; [|split].
  - destruct (pre ++ String op post) as [|c r] eqn:E.
    + destruct pre; discriminate E.
    + cbn [search_before_op]. rewrite <- E.
      now rewrite (upto_last_op_single pre op post).
  - induction pre as [|c r IH].
    + rewrite app_Empty. cbn [search_after_op]. rewrite Hop.
      now rewrite line_head_plain.
    + rewrite app_String. cbn [all_chars] in Hpre. cbn [search_after_op].
      apply andb_prop in Hpre. destruct Hpre as [[Hc _]%andb_prop Hr].
      apply negb_true_iff in Hc. rewrite Hc. auto.
  - induction pre as [|c r IH].
    + rewrite app_Empty. cbn [search_op]. now rewrite Hop.
    + rewrite app_String. cbn [all_chars] in Hpre. cbn [search_op].
      apply andb_prop in Hpre. destruct Hpre as [[Hc _]%andb_prop Hr].
      apply negb_true_iff in Hc. rewrite Hc. auto.
Qed.

Lemma all_chars_impl (p q : ascii -> bool) s :
  (forall c, p c = true -> q c = true) ->
  all_chars p s = true -> all_chars q s = true.
Proof.
  intros Hpq. induction s as [|c r IH]; [reflexivity|]. cbn [all_chars].
  intros [Hc Hr]%andb_prop. now rewrite (Hpq c Hc), IH.
Qed.

Lemma all_chars_app p a b :
  all_chars p (a ++ b) = all_chars p a && all_chars p b.
Proof.
  induction a as [|c r IH]; [reflexivity|].
  rewrite app_String. cbn [all_chars]. now rewrite IH, andb_assoc.
Qed.

Lemma contains_app c a b : contains c (a ++ b) = contains c a || contains c b.
Proof.
  induction a as [|x r IH]; [reflexivity|].
  rewrite app_String. cbn [contains]. now rewrite IH, orb_assoc.
Qed.

Lemma contains_all_chars c p s :
  p c = false -> all_chars p s = true -> contains c s = false.
Proof.
  intros Hc. induction s as [|x r IH]; [reflexivity|]. cbn [all_chars contains].
  intros [Hx Hr]%andb_prop. rewrite (IH Hr), orb_false_r.
  destruct (Ascii.eqb_spec c x) as [->|]; congruence.
Qed.

(** the decimal text of a number that is not negative: digits only *)
Lemma str_int_digits n :
  0 <= n -> all_chars is_digit (str_int n) = true /\ str_int n <> "".
Proof.
  intros Hn. destruct n as [|p|p]; [now split | | lia].
  unfold str_int. cbn [Z.to_int NilZero.string_of_int].
  pose proof (DecimalPos.Unsigned.to_uint_nonnil p) as Hnil.
  destruct (Pos.to_uint p) eqn:E; try congruence;
    (split; [apply (digits_of_uint (_ u)) | discriminate]).
Qed.

Lemma lstrip_not_space c s :
  is_whitespace c = false -> lstrip (String c s) = String c s.
Proof. intros Hc. cbn [lstrip]. now rewrite Hc. Qed.

Lemma rstrip_no_space s :
  all_chars (fun c => negb (is_whitespace c)) s = true -> rstrip s = s.
Proof.
  induction s as [|c r IH]; [reflexivity|]. cbn [all_chars rstrip].
  intros [Hc Hr]%andb_prop. apply negb_true_iff in Hc.
  rewrite (IH Hr), Hc. now destruct r.
Qed.

(** [strip] of a text without white space, with one space before it *)
Lemma strip_space_word s :
  all_chars (fun c => negb (is_whitespace c)) s = true ->
  strip (" " ++ s) = s.
Proof.
  intros Hs. unfold strip. rewrite app_String, app_Empty.
  cbn [lstrip]. change (is_whitespace " ") with true. cbn iota.
  destruct s as [|c r]; [reflexivity|].
  pose proof Hs as Hs'. cbn [all_chars] in Hs'.
  apply andb_prop in Hs'. destruct Hs' as [Hc%negb_true_iff _].
  rewrite lstrip_not_space by exact Hc. now apply rstrip_no_space.
Qed.

Lemma strip_word_space s :
  all_chars (fun c => negb (is_whitespace c)) s = true -> s <> "" ->
  strip (s ++ " ") = s.
Proof.
  intros Hs Hne. unfold strip.
  destruct s as [|c r]; [congruence|].
  cbn [all_chars] in Hs. apply andb_prop in Hs.
  destruct Hs as [Hc%negb_true_iff Hr].
  rewrite app_String, lstrip_not_space by exact Hc.
  cbn [rstrip].
  assert (E : forall x, all_chars (fun c => negb (is_whitespace c)) x = true ->
            rstrip (x ++ " ") = x).
  { induction x as [|y x IH]; [reflexivity|].
    rewrite app_String. cbn [all_chars rstrip].
    intros [Hy%negb_true_iff Hx]%andb_prop. rewrite (IH Hx), Hy.
    now destruct x. }
  rewrite (E r Hr), Hc. now destruct r.
Qed.

Lemma replace_char_absent c t s :
  contains c s = false -> replace_char c t s = s.
Proof.
  induction s as [|x r IH]; [reflexivity|]. cbn [contains replace_char].
  intros [Hx Hr]%orb_false_elim. now rewrite Hx, IH.
Qed.

Lemma replace_char_last c t s :
  contains c s = false ->
  replace_char c t (s ++ String c "") = s ++ t.
Proof.
  induction s as [|x r IH].
  - intros _. rewrite !app_Empty. cbn [replace_char].
    rewrite Ascii.eqb_refl. now rewrite app_Empty_r.
  - cbn [contains]. intros [Hx Hr]%orb_false_elim.
    rewrite !app_String. cbn [replace_char]. now rewrite Hx, IH.
Qed.

Lemma lex_space rest : lex (" " ++ rest) = lex rest.
Proof.
  unfold lex. rewrite app_String, app_Empty. cbn [chunks_go].
  change (is_word_char " ") with false. change (Ascii.eqb " " " ") with true.
  cbn iota. now destruct (chunks_go "" rest).
Qed.

Lemma lex_plus rest : lex (String "+" rest) = tok_cons (LTok TPlus) (lex rest).
Proof.
  unfold lex. cbn [chunks_go].
  change (is_word_char "+") with false. change (Ascii.eqb "+" " ") with false.
  change (Ascii.eqb "+" "+") with true. cbn [orb]. cbn iota.
  now destruct (chunks_go "" rest).
Qed.

Lemma lex_word_star w rest :
  w <> "" -> all_chars is_word_char w = true ->
  lex (w ++ "* " ++ rest)
  = tok_cons (classify w) (tok_cons (LTok TStar) (lex rest)).
Proof.
  intros Hw Hall. unfold lex.
  rewrite chunks_go_word, app_Empty by assumption.
  rewrite !app_String, app_Empty. cbn [chunks_go].
  change (is_word_char "*") with false. change (Ascii.eqb "*" " ") with false.
  change (Ascii.eqb "*" "+" || Ascii.eqb "*" "-") with false.
  change (starts_with "*" (String " " rest)) with false.
  change (Ascii.eqb "*" "*") with true. cbn [orb andb negb]. cbn iota.
  change (is_word_char " ") with false. change (Ascii.eqb " " " ") with true.
  cbn iota.
  destruct (chunks_go "" rest) as [l|].
  - destruct w; [congruence|]. reflexivity.
  - now destruct (classify w) as [[]| |].
Qed.

(** [eval] of ["n* f"] for a number [n] that is not negative *)
Lemma arith_eval_scale n f :
  0 <= n ->
  arith_eval (str_int n ++ "* " ++ str_int f) = Some (EvValue (VInt (n * f))).
Proof.
  intros Hn. destruct (str_int_digits n Hn) as [Hd Hne].
  unfold arith_eval.
  rewrite lex_word_star by (try assumption; now apply digit_is_word_char).
  rewrite lex_str_int.
  assert (Hc : classify (str_int n) = LTok (TNum n)).
  { destruct n as [|p|p]; [reflexivity | apply classify_positive | lia]. }
  rewrite Hc. destruct f; cbn; repeat f_equal; lia.
Qed.

(** [eval] of ["a + b"] for two integers in decimal *)
Lemma arith_eval_add a b :
  arith_eval (join_space [str_int a; "+"; str_int b])
  = Some (EvValue (VInt (a + b))).
Proof.
  unfold arith_eval. cbn [join_space].
  rewrite lex_str_int_space, (app_String "+"), app_Empty, lex_plus.
  rewrite lex_space, lex_str_int.
  destruct a, b; cbn; repeat f_equal; lia.
Qed.

End BoundFacts.

Section OffsetFacts.
Context {H : Host}.
Import simple_note.
Local Open Scope string_scope.

Lemma anchor_name_facts k :
  existsb (String.eqb k) anchor_names = true ->
  all_chars plain_char (k ++ " ") = true /\ strip (k ++ " ") = k
  /\ has_sign k = false.
Proof.
  unfold anchor_names. cbn [existsb].
  repeat match goal with
         | |- context [String.eqb k ?a] =>
             destruct (String.eqb_spec k a) as [->|_];
               [intros _; split; [reflexivity | split; reflexivity]|]
         end.
  cbn [orb]. discriminate.
Qed.

Lemma timeset_keys kw_now ts k dt :
  timeset kw_now = Ok ts -> ts !! k = Some dt ->
  existsb (String.eqb k) anchor_names = true.
Proof.
  intros Hts Hk. destruct (existsb (String.eqb k) anchor_names) eqn:E;
    [reflexivity|].
  rewrite (timeset_lookup_None kw_now ts k Hts E) in Hk. discriminate.
Qed.

Lemma signed_not_key kw_now ts k :
  timeset kw_now = Ok ts -> has_sign k = true -> ts !! k = None.
Proof.
  intros Hts Hs. apply (timeset_lookup_None kw_now ts k Hts).
  destruct (existsb (String.eqb k) anchor_names) eqn:E; [|reflexivity].
  apply anchor_name_facts in E. destruct E as (_ & _ & E). congruence.
Qed.

Lemma has_sign_minus pre post : has_sign (pre ++ String "-" post) = true.
Proof.
  unfold has_sign. rewrite !contains_app. cbn [contains].
  rewrite (Ascii.eqb_refl "-"). cbn [orb]. now rewrite !orb_true_r.
Qed.

Lemma has_sign_plus pre post : has_sign (pre ++ String "+" post) = true.
Proof.
  unfold has_sign. rewrite !contains_app. cbn [contains].
  rewrite (Ascii.eqb_refl "+"). cbn [orb]. now rewrite !orb_true_r.
Qed.

Lemma contains_digits_unit c n u :
  0 <= n -> is_digit c = false ->
  contains c (str_int n ++ String u "") = Ascii.eqb c u.
Proof.
  intros Hn Hc. destruct (str_int_digits n Hn) as [Hd _].
  rewrite contains_app, (contains_all_chars c is_digit _ Hc Hd).
  cbn [contains orb]. now rewrite orb_false_r.
Qed.

(** the loop over the unit letters on a tail [<n><unit>] *)
Lemma second_operand_scaled n unit factor :
  eval_agrees H -> In (unit, factor) ins -> 0 <= n ->
  second_operand ins (str_int n ++ String unit "") = Ok (VInt (n * factor)).
Proof.
  intros Hag Hin Hn. destruct (str_int_digits n Hn) as [Hd _].
  assert (Hrep : forall f,
            contains unit (str_int n) = false ->
            match host_eval (replace_char unit ("* " ++ str_int f)
                               (str_int n ++ String unit "")) with
            | EvValue v => Ok v
            | EvRaise => Fail (Exit1 ExitTailEval)
            | EvEscape => Fail Escaped
            end = Ok (VInt (n * f))).
  { intros f Hu. rewrite replace_char_last by exact Hu.
    now rewrite (Hag _ _ (arith_eval_scale n f Hn)). }
  unfold ins in Hin. cbn [In] in Hin.
  destruct Hin as [E|[E|[E|[E|[]]]]]; injection E as <- <-;
    unfold ins; cbn [second_operand];
    rewrite !contains_digits_unit by (exact Hn || reflexivity);
    cbn [Ascii.eqb Bool.eqb andb]; cbn iota;
    apply Hrep; now apply (contains_all_chars _ is_digit).
Qed.

Lemma tail_facts n unit factor :
  In (unit, factor) ins -> 0 <= n ->
  all_chars plain_char (" " ++ str_int n ++ String unit "") = true
  /\ strip (" " ++ str_int n ++ String unit "") = str_int n ++ String unit "".
Proof.
  intros Hin Hn. destruct (str_int_digits n Hn) as [Hd _].
  assert (Hu : plain_char unit = true /\ is_whitespace unit = false).
  { unfold ins in Hin. cbn [In] in Hin.
    destruct Hin as [E|[E|[E|[E|[]]]]]; injection E as <- <-; now split. }
  destruct Hu as [Hu1 Hu2]. split.
  - rewrite app_String, app_Empty. cbn [all_chars].
    change (plain_char " ") with true. cbn [andb].
    rewrite all_chars_app. cbn [all_chars]. rewrite Hu1, andb_true_r.
    apply (all_chars_impl is_digit); [|exact Hd].
    intros c Hc. destruct c as [[] [] [] [] [] [] [] []]; try discriminate Hc; reflexivity.
  - apply strip_space_word. rewrite all_chars_app. cbn [all_chars].
    rewrite Hu2. cbn [negb andb]. rewrite andb_true_r.
    apply (all_chars_impl is_digit); [|exact Hd].
    intros c Hc. destruct c as [[] [] [] [] [] [] [] []]; try discriminate Hc; reflexivity.
Qed.

End OffsetFacts.

(** an anchor moved by an amount of a unit, either way *)
Lemma anchor_offset_resolves (H : Host) (kw_now : option datetime)
    (ts : gmap string datetime) (anchor : string) (dt : datetime) (a n : Z)
    (unit : ascii) (factor : Z) :
  eval_agrees H ->
  simple_note.timeset kw_now = Ok ts ->
  ts !! anchor = Some dt ->
  host_timestamp dt = Some a ->
  In (unit, factor) simple_note.ins ->
  0 <= n ->
  simple_note.resolve_bound ts
    (anchor ++ " - " ++ str_int n ++ String unit "")%string
  = Ok (VInt (a - n * factor))
  /\ simple_note.resolve_bound ts
       (anchor ++ " + " ++ str_int n ++ String unit "")%string
     = Ok (VInt (a + n * factor)).
Proof.
  intros Hag Hts Hk Ht Hin Hn.
  pose proof (timeset_keys kw_now ts anchor dt Hts Hk) as Hname.
  destruct (anchor_name_facts anchor Hname) as (Hpre & Hstrip & _).
  destruct (tail_facts n unit factor Hin Hn) as (Hpost & Hstrip').
  pose proof (second_operand_scaled n unit factor Hag Hin Hn) as Hop1.
  pose proof (first_operand_anchor ts anchor dt a Hk Ht) as Hop0.
  set (post := (" " ++ str_int n ++ String unit "")%string) in *.
  assert (Ecut : forall op : ascii,
            (anchor ++ String " " (String op EmptyString) ++ post
             = (anchor ++ " ") ++ String op post)%string).
  { intros op. now rewrite app_assoc_str. }
  split.
  - change (anchor ++ " - " ++ str_int n ++ String unit "")%string
      with (anchor ++ String " " (String "-" EmptyString) ++ post)%string.
    rewrite Ecut.
    destruct (searches_single_operator (anchor ++ " ") "-" post
                eq_refl Hpre Hpost) as (Hb & Ha & Ho).
    rewrite (resolve_bound_offset ts _ _ _ _ (VInt a) (VInt (n * factor))
               (signed_not_key kw_now ts _ Hts (has_sign_minus _ _))
               (has_sign_minus _ _) Hb Ha Ho).
    + cbn [py_str]. change (strip "-") with "-"%string.
      now rewrite (Hag _ _ (arith_eval_sub a (n * factor))).
    + now rewrite Hstrip.
    + now rewrite Hstrip'.
  - change (anchor ++ " + " ++ str_int n ++ String unit "")%string
      with (anchor ++ String " " (String "+" EmptyString) ++ post)%string.
    rewrite Ecut.
    destruct (searches_single_operator (anchor ++ " ") "+" post
                eq_refl Hpre Hpost) as (Hb & Ha & Ho).
    rewrite (resolve_bound_offset ts _ _ _ _ (VInt a) (VInt (n * factor))
               (signed_not_key kw_now ts _ Hts (has_sign_plus _ _))
               (has_sign_plus _ _) Hb Ha Ho).
    + cbn [py_str]. change (strip "+") with "+"%string.
      now rewrite (Hag _ _ (arith_eval_add a (n * factor))).
    + now rewrite Hstrip.
    + now rewrite Hstrip'.
Qed.

(** ** The two bounds of a query *)

Section QueryFacts.
Local Open Scope string_scope.

Lemma rstrip_id s : ends_with_space s = false -> rstrip s = s.
Proof.
  induction s as [|c r IH]; [reflexivity|]. destruct r as [|d r'].
  - cbn [ends_with_space rstrip]. now intros ->.
  - intros E. change (ends_with_space (String c (String d r')))
      with (ends_with_space (String d r')) in E.
    cbn [rstrip] in IH |- *. rewrite (IH E). reflexivity.
Qed.

Lemma ends_with_space_app a b :
  b <> "" -> ends_with_space (a ++ b) = ends_with_space b.
Proof.
  intros Hb. induction a as [|c r IH]; [reflexivity|].
  rewrite app_String. destruct (r ++ b) eqn:E.
  - destruct r; [rewrite app_Empty in E; congruence | discriminate E].
  - exact IH.
Qed.

Lemma starts_with_to c s :
  starts_with " to " (String c s) = true ->
  c = " "%char /\ starts_with "t" s = true.
Proof.
  unfold starts_with. cbn [strip_prefix].
  destruct (Ascii.eqb_spec " " c) as [<-|]; [|discriminate].
  destruct s as [|d s]; [discriminate|].
  destruct (Ascii.eqb_spec "t" d) as [<-|]; [|discriminate].
  now intros _.
Qed.

Lemma strip_prefix_self p y : strip_prefix p (p ++ y) = Some y.
Proof.
  induction p as [|c r IH]; [reflexivity|].
  rewrite app_String. cbn [strip_prefix]. now rewrite Ascii.eqb_refl.
Qed.

Lemma split_go_none s :
  no_space_t s = true -> split_go " to " 0 s = [s].
Proof.
  induction s as [|c r IH]; [reflexivity|]. cbn [no_space_t split_go].
  intros [Hc Hr]%andb_prop.
  destruct (starts_with " to " (String c r)) eqn:E.
  - apply starts_with_to in E. destruct E as [-> E].
    rewrite E in Hc. discriminate Hc.
  - now rewrite (IH Hr).
Qed.

Lemma split_to_cut x y :
  no_space_t x = true -> no_space_t y = true ->
  split " to " (x ++ " to " ++ y) = [x; y].
Proof.
  intros Hx Hy. unfold split. induction x as [|c r IH].
  - rewrite app_Empty.
    assert (E : starts_with " to " (" to " ++ y) = true)
      by (unfold starts_with; now rewrite strip_prefix_self).
    rewrite app_String in E |- *. cbn [split_go]. rewrite E.
    rewrite !app_String, app_Empty.
    cbn [String.length Nat.pred split_go]. now rewrite split_go_none.
  - cbn [no_space_t] in Hx. apply andb_prop in Hx. destruct Hx as [Hc Hr].
    rewrite app_String. cbn [split_go].
    destruct (starts_with " to " (String c (r ++ " to " ++ y))) eqn:E.
    + apply starts_with_to in E. destruct E as [-> E].
      destruct r as [|d r'].
      * rewrite app_Empty in E. discriminate E.
      * rewrite app_String in E. cbn [andb Ascii.eqb Bool.eqb] in Hc.
        unfold starts_with in E, Hc. cbn [strip_prefix] in E, Hc.
        destruct (Ascii.eqb "t" d); discriminate.
    + now rewrite (IH Hr).
Qed.

Lemma contains_suffix c m s : contains c s = true -> contains c (m ++ s) = true.
Proof. intros E. now rewrite contains_app, E, orb_true_r. Qed.

Lemma match_range_eq_needs_equals s rest :
  match_range_eq s = Some rest -> contains "=" s = true.
Proof.
  unfold match_range_eq.
  destruct (lstrip_suffix s) as [m0 E0].
  destruct (strip_prefix "range" (lstrip s)) as [s1|] eqn:E1; [|discriminate].
  apply strip_prefix_app in E1.
  destruct (lstrip_suffix s1) as [m1 E2].
  destruct (lstrip s1) as [|c s2] eqn:E3; [discriminate|].
  destruct (Ascii.eqb_spec c "="%char) as [->|Hc].
  - intros _. rewrite E0, E1, E2.
    do 3 apply contains_suffix. cbn [contains]. reflexivity.
  - intros E. exfalso. apply Hc.
    destruct c as [[] [] [] [] [] [] [] []]; try discriminate E; reflexivity.
Qed.

(** [re.sub] leaves a text without ['='] as it is *)
Lemma sub_range_id s : contains "=" s = false -> sub_range s = s.
Proof.
  induction s as [|c r IH]; [reflexivity|]. intros E.
  rewrite sub_range_unfold.
  destruct (match_range_eq (String c r)) as [rest|] eqn:Em.
  - apply match_range_eq_needs_equals in Em. congruence.
  - cbn [contains] in E. apply orb_false_elim in E. destruct E as [_ E].
    now rewrite (IH E).
Qed.

Lemma no_space_t_nospace s :
  all_chars (fun c => negb (Ascii.eqb c " ")) s = true -> no_space_t s = true.
Proof.
  induction s as [|c r IH]; [reflexivity|]. cbn [all_chars no_space_t].
  intros [Hc Hr]%andb_prop. apply negb_true_iff in Hc.
  now rewrite Hc, (IH Hr).
Qed.

Lemma no_space_t_app a b :
  no_space_t a = true -> no_space_t b = true -> starts_with "t" b = false ->
  no_space_t (a ++ b) = true.
Proof.
  intros Ha Hb Ht. induction a as [|c r IH]; [exact Hb|].
  cbn [no_space_t] in Ha. apply andb_prop in Ha. destruct Ha as [Hc Hr].
  rewrite app_String. cbn [no_space_t]. rewrite (IH Hr), andb_true_r.
  destruct r as [|d r'].
  - rewrite app_Empty, Ht. now rewrite andb_false_r.
  - rewrite app_String. unfold starts_with in Hc |- *.
    cbn [strip_prefix] in Hc |- *. now destruct (Ascii.eqb "t" d).
Qed.

End QueryFacts.

Section GrammarFacts.
Context {H : Host}.
Import simple_note.
Local Open Scope string_scope.

Lemma tidy_strip s : tidy s -> strip s = s.
Proof.
  intros (_ & _ & He & Hl & _). unfold strip. rewrite Hl. now apply rstrip_id.
Qed.

Lemma anchor_tidy k :
  existsb (String.eqb k) anchor_names = true ->
  tidy k /\ forall rest,
    no_space_t rest = true -> starts_with "t" rest = false ->
    contains "=" rest = false -> ends_with_space rest = false -> rest <> "" ->
    tidy (k ++ rest).
Proof.
  unfold anchor_names. cbn [existsb].
  repeat match goal with
         | |- context [String.eqb k ?a] =>
             destruct (String.eqb_spec k a) as [->|_];
               [intros _; split;
                [repeat split; (reflexivity || discriminate)
                |intros rest H1 H2 H3 H4 H5; unfold tidy;
                 rewrite (no_space_t_app a rest eq_refl H1 H2);
                 rewrite contains_app, H3;
                 rewrite (ends_with_space_app a rest H5), H4;
                 split; [reflexivity|]; split; [reflexivity|];
                 split; [reflexivity|]; split; [reflexivity|];
                 rewrite app_String; discriminate]|]
         end.
  cbn [orb]. discriminate.
Qed.

Lemma digits_unit_facts n unit f :
  unit_factor ins unit = Some f -> 0 <= n ->
  let w := str_int n ++ String unit "" in
  no_space_t w = true /\ starts_with "t" w = false
  /\ contains "=" w = false /\ ends_with_space w = false.
Proof.
  intros Hu Hn w. destruct (str_int_digits n Hn) as [Hd Hne].
  assert (Hunit : In unit ["s"; "m"; "h"; "d"]%char).
  { unfold ins in Hu. cbn [unit_factor] in Hu.
    repeat match type of Hu with
           | context [Ascii.eqb ?a unit] =>
               destruct (Ascii.eqb_spec a unit) as [<-|_]; [cbn; tauto|]
           end.
    discriminate Hu. }
  assert (Hall : forall p : ascii -> bool,
            (forall c, is_digit c = true -> p c = true) ->
            p "s"%char = true -> p "m"%char = true ->
            p "h"%char = true -> p "d"%char = true ->
            all_chars p w = true).
  { intros p Hp Hs Hm Hh Hdd. unfold w. rewrite all_chars_app.
    cbn [all_chars]. rewrite (all_chars_impl is_digit p _ Hp Hd).
    cbn [In] in Hunit.
    destruct Hunit as [<-|[<-|[<-|[<-|[]]]]]; now rewrite ?Hs, ?Hm, ?Hh, ?Hdd. }
  repeat split.
  - apply no_space_t_nospace, Hall.
    + intros c Hc.
      destruct c as [[] [] [] [] [] [] [] []]; try discriminate Hc; reflexivity.
    + reflexivity.
    + reflexivity.
    + reflexivity.
    + reflexivity.
  - unfold w. destruct (str_int n) as [|c r] eqn:E; [congruence|].
    cbn [all_chars] in Hd. apply andb_prop in Hd. destruct Hd as [Hc _].
    rewrite app_String. unfold starts_with. cbn [strip_prefix].
    destruct (Ascii.eqb_spec "t" c) as [<-|]; [discriminate Hc | reflexivity].
  - apply (contains_all_chars "=" (fun c => negb (Ascii.eqb c "="))); [reflexivity|].
    apply Hall.
    + intros c Hc.
      destruct c as [[] [] [] [] [] [] [] []]; try discriminate Hc; reflexivity.
    + reflexivity.
    + reflexivity.
    + reflexivity.
    + reflexivity.
  - unfold w. rewrite ends_with_space_app by discriminate.
    cbn [ends_with_space].
    cbn [In] in Hunit. destruct Hunit as [<-|[<-|[<-|[<-|[]]]]]; reflexivity.
Qed.

Lemma bound_value_inv ts b v :
  bound_value ts b = Some v ->
  match b with
  | Bare anchor =>
      exists dt, ts !! anchor = Some dt /\ host_timestamp dt = Some v
  | Offset anchor plus n unit =>
      exists dt a f,
        ts !! anchor = Some dt /\ host_timestamp dt = Some a
        /\ unit_factor ins unit = Some f /\ 0 <= n
        /\ v = (if plus then a + n * f else a - n * f)
  end.
Proof.
  destruct b as [anchor | anchor plus n unit]; unfold bound_value.
  - destruct (ts !! anchor) as [dt|] eqn:Hk; [|discriminate]. eauto.
  - destruct (ts !! anchor) as [dt|] eqn:Hk; [|discriminate].
    destruct (host_timestamp dt) as [a|] eqn:Ht; [|discriminate].
    destruct (unit_factor ins unit) as [f|] eqn:Hu; [|discriminate].
    destruct (Z.ltb_spec n 0) as [|Hn]; [discriminate|].
    intros [= <-]. exists dt, a, f. repeat split; assumption || reflexivity.
Qed.

Lemma bound_text_tidy ts kw_now b v :
  timeset kw_now = Ok ts -> bound_value ts b = Some v -> tidy (bound_text b).
Proof.
  intros Hts Hv. apply bound_value_inv in Hv.
  destruct b as [anchor | anchor plus n unit]; cbn [bound_text].
  - destruct Hv as (dt & Hk & _).
    now apply anchor_tidy, (timeset_keys kw_now ts anchor dt).
  - destruct Hv as (dt & a & f & Hk & _ & Hu & Hn & _).
    destruct (digits_unit_facts n unit f Hu Hn) as (W1 & W2 & W3 & W4).
    destruct (str_int_digits n Hn) as [_ Hne].
    apply (anchor_tidy anchor (timeset_keys kw_now ts anchor dt Hts Hk)).
    + destruct plus; rewrite !app_String, app_Empty; cbn [no_space_t];
        unfold starts_with at 1 2;
        cbn [strip_prefix Ascii.eqb Bool.eqb andb negb];
        now rewrite W2, W1.
    + now destruct plus.
    + destruct plus; rewrite contains_app, W3; reflexivity.
    + destruct plus; (rewrite ends_with_space_app;
        [exact W4 | destruct (str_int n); [congruence | discriminate]]).
    + destruct plus; discriminate.
Qed.

Lemma lstrip_length s : (String.length (lstrip s) <= String.length s)%nat.
Proof.
  induction s as [|c r IH]; [reflexivity|]. cbn [lstrip].
  destruct (is_whitespace c); cbn [String.length]; lia.
Qed.

Lemma lstrip_app_head x r : lstrip x = x -> x <> "" -> lstrip (x ++ r) = x ++ r.
Proof.
  intros Hx Hne. destruct x as [|c x']; [congruence|].
  rewrite app_String. cbn [lstrip] in Hx |- *.
  destruct (is_whitespace c) eqn:Hc; [|reflexivity].
  pose proof (lstrip_length x') as Hl. rewrite Hx in Hl.
  cbn [String.length] in Hl. lia.
Qed.

Lemma unit_factor_In units unit f :
  unit_factor units unit = Some f -> In (unit, f) units.
Proof.
  induction units as [|[u g] rest IH]; [discriminate|]. cbn [unit_factor In].
  destruct (Ascii.eqb_spec u unit) as [->|_].
  - intros [= ->]. now left.
  - intros E. right. auto.
Qed.

(** a bound of the grammar resolves to the value it stands for *)
Lemma resolve_bound_form kw_now ts b v :
  eval_agrees H -> timeset kw_now = Ok ts ->
  bound_value ts b = Some v ->
  resolve_bound ts (bound_text b) = Ok (VInt v).
Proof.
  intros Hag Hts Hv. apply bound_value_inv in Hv.
  destruct b as [anchor | anchor plus n unit]; cbn [bound_text].
  - destruct Hv as (dt & Hk & Ht). now apply (resolve_bound_anchor ts _ dt).
  - destruct Hv as (dt & a & f & Hk & Ht & Hu & Hn & ->).
    apply unit_factor_In in Hu.
    destruct (anchor_offset_resolves H kw_now ts anchor dt a n unit f
                Hag Hts Hk Ht Hu Hn) as [Hminus Hplus].
    now destruct plus.
Qed.

End GrammarFacts.

(** a query of two tidy bounds is cut into them *)
Lemma tidy_query_parts (H : Host) (kw_now : option datetime)
    (ts : gmap string datetime) (x y : string) :
  simple_note.timeset kw_now = Ok ts -> tidy x -> tidy y ->
  simple_note.parse_timefilter ("range= " ++ x ++ " to " ++ y)%string kw_now
  = (start ← simple_note.resolve_bound ts x;
     end_ ← simple_note.resolve_bound ts y;
     if negb (isinstance_int start) || negb (isinstance_int end_)
     then Fail (Exit1 ExitNotInt)
     else Ok {| range_start := start; range_end := end_ |}).
Proof.
  intros Hts T1 T2.
  pose proof (tidy_strip _ T1) as S1. pose proof (tidy_strip _ T2) as S2.
  destruct T1 as (N1 & E1 & W1 & L1 & Z1).
  destruct T2 as (N2 & E2 & W2 & L2 & Z2).
  assert (Hcontent :
            strip (sub_range ("range= " ++ x ++ " to " ++ y))
            = (x ++ " to " ++ y)%string).
  { rewrite sub_range_unfold, match_range_eq_prefix.
    rewrite (lstrip_app_head x _ L1 Z1).
    rewrite sub_range_id
      by (rewrite !contains_app, E1, E2; reflexivity).
    unfold strip. rewrite (lstrip_app_head x _ L1 Z1).
    apply rstrip_id.
    rewrite ends_with_space_app
      by (rewrite app_String; discriminate).
    now rewrite ends_with_space_app. }
  rewrite (parse_timefilter_parts _ kw_now ts x y Hts)
    by (rewrite Hcontent; now apply split_to_cut).
  now rewrite S1, S2.
Qed.

(** ** The prefix [range=] and the white space around it *)

Section PrefixFacts.
Local Open Scope string_scope.



End PrefixFacts.

(** ** Cutting a clause at its colon *)

Section ColonFacts.
Local Open Scope string_scope.

Lemma upto_last_colon_none s :
  contains ":" s = false -> upto_last is_colon s = None.
Proof.
  induction s as [|c r IH]; [reflexivity|]. cbn [contains upto_last].
  intros [Hc Hr]%orb_false_elim. rewrite (IH Hr).
  unfold is_colon. rewrite Ascii.eqb_sym, Hc. now destruct (is_newline c).
Qed.

Lemma search_before_colon_none s :
  contains ":" s = false -> search_before is_colon s = None.
Proof.
  induction s as [|c r IH]; [reflexivity|]. intros E.
  cbn [search_before]. rewrite (upto_last_colon_none _ E).
  cbn [contains] in E. apply orb_false_elim in E. now apply IH.
Qed.

Lemma upto_last_colon_cut f q :
  contains "010" f = false -> contains ":" q = false ->
  upto_last is_colon (f ++ ":" ++ q) = Some f.
Proof.
  intros Hf Hq. induction f as [|c r IH].
  - rewrite app_Empty, app_String, app_Empty. cbn [upto_last].
    now rewrite (upto_last_colon_none q Hq).
  - cbn [contains] in Hf. apply orb_false_elim in Hf. destruct Hf as [Hc Hr].
    rewrite app_String. cbn [upto_last]. unfold is_newline.
    now rewrite Ascii.eqb_sym, Hc, (IH Hr).
Qed.

Lemma search_before_colon_cut f q :
  contains "010" f = false -> contains ":" q = false ->
  search_before is_colon (f ++ ":" ++ q) = Some f.
Proof.
  intros Hf Hq. destruct (f ++ ":" ++ q) as [|c r] eqn:E.
  - destruct f; discriminate E.
  - cbn [search_before]. rewrite <- E.
    now rewrite (upto_last_colon_cut f q Hf Hq).
Qed.

Lemma search_after_colon_cut f q :
  contains ":" f = false ->
  search_after is_colon (f ++ ":" ++ q) = Some (line_head q).
Proof.
  intros Hf. induction f as [|c r IH].
  - reflexivity.
  - cbn [contains] in Hf. apply orb_false_elim in Hf. destruct Hf as [Hc Hr].
    rewrite app_String. cbn [search_after]. unfold is_colon at 1.
    now rewrite Ascii.eqb_sym, Hc, (IH Hr).
Qed.

Lemma line_head_id s : contains "010" s = false -> line_head s = s.
Proof.
  induction s as [|c r IH]; [reflexivity|]. cbn [contains line_head].
  intros [Hc Hr]%orb_false_elim. unfold is_newline.
  now rewrite Ascii.eqb_sym, Hc, (IH Hr).
Qed.

Lemma split_single c s :
  contains c s = false -> split (String c "") s = [s].
Proof.
  unfold split. induction s as [|d r IH]; [reflexivity|].
  cbn [contains]. intros [Hd Hr]%orb_false_elim. cbn [split_go].
  unfold starts_with. cbn [strip_prefix]. rewrite Hd, (IH Hr). reflexivity.
Qed.

Lemma app_not_empty a b : b <> "" -> a ++ b <> "".
Proof. intros Hb. destruct a; [exact Hb | discriminate]. Qed.

Lemma contains_str_prefix t s : contains_str t (t ++ s) = true.
Proof.
  destruct (t ++ s) as [|c r] eqn:E.
  - destruct t; [|discriminate E]. rewrite app_Empty in E. now subst s.
  - cbn [contains_str]. rewrite <- E. unfold starts_with.
    now rewrite strip_prefix_self.
Qed.

End ColonFacts.

(** ** The clauses of a filter *)

Section FilterFacts.
Context {H : Host}.
Import SimpleNote.
Local Open Scope string_scope.

Lemma bind_Fail_l {A B} (f : failure) (k : A -> result B) : Fail f ≫= k = Fail f.
Proof. reflexivity. Qed.

(** a section without a colon ends the loop in the [AttributeError] of
    [None.group], unless a section before it ended it already *)
Lemma parse_sections_no_colon pre section rest filters :
  contains ":" section = false ->
  exists e, parse_sections (pre ++ section :: rest) filters = Fail e.
Proof.
  intros Hc. revert filters. induction pre as [|s pre IH]; intros filters.
  - exists (Uncaught AttributeError). cbn [app parse_sections].
    now rewrite (search_before_colon_none _ Hc).
  - cbn [app parse_sections].
    destruct (search_before is_colon s) as [field|]; [|eexists; reflexivity].
    destruct (search_after is_colon s) as [query|]; [|eexists; reflexivity].
    cbn [or_raise]. rewrite !bind_Ok_l.
    destruct (is_key _ _); [|apply IH].
    destruct (contains_str _ _).
    + destruct (simple_note.parse_timefilter _ _) as [range|e].
      * rewrite bind_Ok_l. apply IH.
      * eexists; reflexivity.
    + destruct (contains "~" _); apply IH.
Qed.

Lemma lower_char_letter c :
  is_lower_letter (lower_char c) = true ->
  is_word_char c = true
  /\ exists u, upper_char c = Some u /\ upper_char (lower_char c) = Some u.
Proof.
  destruct c as [[] [] [] [] [] [] [] []]; intros Hl; vm_compute in Hl;
    try discriminate Hl; (split; [reflexivity | eexists; split; reflexivity]).
Qed.

Lemma upper_of_letters f :
  all_chars is_lower_letter (lower f) = true ->
  all_chars is_word_char f = true
  /\ exists u, upper f = Some u /\ upper (lower f) = Some u.
Proof.
  induction f as [|c r IH]; [intros _; split; [reflexivity | now exists ""]|].
  cbn [lower all_chars upper]. intros [Hc Hr]%andb_prop.
  destruct (lower_char_letter c Hc) as (Hw & uc & E1 & E2).
  destruct (IH Hr) as (Hwr & u & E3 & E4).
  rewrite Hw, Hwr, E1, E2, E3, E4. split; [reflexivity | now exists (uc ++ u)].
Qed.

Lemma key_letters k :
  is_key k LOG_TEMP_keys = true ->
  all_chars is_lower_letter k = true /\ k <> "".
Proof.
  unfold is_key, LOG_TEMP_keys. cbn [existsb].
  repeat match goal with
         | |- context [String.eqb k ?a] =>
             destruct (String.eqb_spec k a) as [->|_];
               [intros _; split; [reflexivity | discriminate]|]
         end.
  cbn [orb]. discriminate.
Qed.

(** the field of a clause that is taken has an upper case of code points
    below 256, the one of its lower case *)
Lemma upper_of_field f :
  is_key (lower f) LOG_TEMP_keys = true ->
  exists u, upper f = Some u /\ upper (lower f) = Some u.
Proof.
  intros Hk. destruct (key_letters _ Hk) as [Hl _].
  now destruct (upper_of_letters f Hl).
Qed.

Lemma field_upper_lower f :
  is_key (lower f) LOG_TEMP_keys = true ->
  field_upper f = field_upper (lower f).
Proof.
  intros Hk. destruct (upper_of_field f Hk) as (u & E1 & E2).
  unfold field_upper. now rewrite E1, E2.
Qed.

Lemma word_no_space s :
  all_chars is_word_char s = true ->
  all_chars (fun c => negb (is_whitespace c)) s = true.
Proof.
  apply all_chars_impl. intros c Hc.
  destruct c as [[] [] [] [] [] [] [] []]; try discriminate Hc; reflexivity.
Qed.

Lemma word_strip s : all_chars is_word_char s = true -> strip s = s.
Proof.
  intros Hw. pose proof (word_no_space s Hw) as Hs. unfold strip.
  destruct s as [|c r]; [reflexivity|].
  pose proof Hs as Hs'. cbn [all_chars] in Hs'. apply andb_prop in Hs'.
  destruct Hs' as [Hc%negb_true_iff _].
  rewrite lstrip_not_space by exact Hc. now apply rstrip_no_space.
Qed.

Lemma anchor_word k :
  existsb (String.eqb k) anchor_names = true ->
  all_chars is_word_char k = true.
Proof.
  unfold anchor_names. cbn [existsb].
  repeat match goal with
         | |- context [String.eqb k ?a] =>
             destruct (String.eqb_spec k a) as [->|_]; [reflexivity|]
         end.
  cbn [orb]. discriminate.
Qed.

(** the texts of the grammar are made of these characters *)
Lemma bound_text_chars ts kw_now b v :
  simple_note.timeset kw_now = Ok ts -> bound_value ts b = Some v ->
  all_chars grammar_char (bound_text b) = true.
Proof.
  intros Hts Hv. apply bound_value_inv in Hv.
  assert (Hword : forall s, all_chars is_word_char s = true ->
                            all_chars grammar_char s = true).
  { intros s. apply all_chars_impl. intros c Hc. unfold grammar_char.
    now rewrite Hc. }
  destruct b as [anchor | anchor plus n unit]; cbn [bound_text].
  - destruct Hv as (dt & Hk & _).
    now apply Hword, anchor_word, (timeset_keys kw_now ts anchor dt).
  - destruct Hv as (dt & a & f & Hk & _ & Hu & Hn & _).
    destruct (str_int_digits n Hn) as [Hd _].
    rewrite !all_chars_app.
    rewrite (Hword anchor)
      by now apply anchor_word, (timeset_keys kw_now ts anchor dt).
    rewrite (Hword (str_int n))
      by now apply digit_is_word_char.
    assert (Hunit : grammar_char unit = true).
    { apply unit_factor_In in Hu. unfold simple_note.ins in Hu. cbn [In] in Hu.
      destruct Hu as [E|[E|[E|[E|[]]]]]; injection E as <- <-; reflexivity. }
    cbn [all_chars]. rewrite Hunit. now destruct plus.
Qed.

(** one clause [<field>: range= <bound> to <bound>] of the grammar *)
Lemma range_clause_sections ts f b1 b2 v1 v2 rest filters :
  eval_agrees H -> simple_note.timeset None = Ok ts ->
  is_key (lower f) LOG_TEMP_keys = true ->
  bound_value ts b1 = Some v1 -> bound_value ts b2 = Some v2 ->
  parse_sections
    ((f ++ ": range= " ++ bound_text b1 ++ " to " ++ bound_text b2) :: rest)
    filters
  = parse_sections rest
      (app filters [field_upper (lower f) ++ "  BETWEEN " ++ str_int v1
                    ++ " AND " ++ str_int v2]).
Proof.
  intros Hag Hts Hk Hv1 Hv2.
  assert (Hrange :
            simple_note.parse_timefilter
              ("range= " ++ bound_text b1 ++ " to " ++ bound_text b2) None
            = Ok {| range_start := VInt v1; range_end := VInt v2 |}).
  { rewrite (tidy_query_parts H None ts _ _ Hts
               (bound_text_tidy ts None b1 v1 Hts Hv1)
               (bound_text_tidy ts None b2 v2 Hts Hv2)).
    now rewrite (resolve_bound_form None ts b1 v1 Hag Hts Hv1),
      (resolve_bound_form None ts b2 v2 Hag Hts Hv2). }
  destruct (key_letters _ Hk) as [Hl _].
  destruct (upper_of_letters f Hl) as (Hw & _).
  pose proof (bound_text_tidy ts None b2 v2 Hts Hv2) as (_ & _ & We & _ & Wz).
  pose proof (bound_text_chars ts None b1 v1 Hts Hv1) as L1.
  pose proof (bound_text_chars ts None b2 v2 Hts Hv2) as L2.
  set (x := bound_text b1) in *. set (y := bound_text b2) in *.
  set (q := "range= " ++ x ++ " to " ++ y) in *.
  assert (Hq : all_chars grammar_char (" " ++ q) = true)
    by (unfold q; rewrite !all_chars_app, L1, L2; reflexivity).
  change (f ++ ": range= " ++ x ++ " to " ++ y) with (f ++ ":" ++ " " ++ q).
  cbn [parse_sections].
  rewrite search_before_colon_cut, search_after_colon_cut, line_head_id;
    try (now apply (contains_all_chars _ grammar_char));
    try (now apply (contains_all_chars _ is_word_char)).
  cbn [or_raise]. rewrite !bind_Ok_l. rewrite (word_strip f Hw), Hk.
  assert (Hstrip : strip (" " ++ q) = q).
  { unfold strip. change (lstrip (" " ++ q)) with q. apply rstrip_id.
    unfold q. rewrite !ends_with_space_app; auto using app_not_empty. }
  rewrite Hstrip.
  assert (Hcs : contains_str "range" q = true)
    by (change q with ("range" ++ "= " ++ x ++ " to " ++ y);
        apply contains_str_prefix).
  rewrite Hcs, Hrange, bind_Ok_l, (field_upper_lower f Hk).
  reflexivity.
Qed.

End FilterFacts.

(** ** The pattern of a [~] clause *)

Section TildeFacts.
Context {H : Host}.
Import SimpleNote.
Local Open Scope string_scope.

Lemma match_tilde_inv s rest :
  match_tilde s = Some rest ->
  exists r, lstrip s = String "~" r /\ rest = lstrip r.
Proof.
  unfold match_tilde. destruct (lstrip s) as [|c r]; [discriminate|].
  destruct (Ascii.eqb_spec c "~"%char) as [->|Hc].
  - intros [= <-]. now exists r.
  - intros E. exfalso. apply Hc.
    destruct c as [[] [] [] [] [] [] [] []]; try discriminate E; reflexivity.
Qed.

(** a match of [\s*~\s*] takes at least the [~] and leaves a suffix *)
Lemma match_tilde_suffix s rest :
  match_tilde s = Some rest ->
  exists c m, s = String c m ++ rest.
Proof.
  intros (r & E1 & ->)%match_tilde_inv.
  destruct (lstrip_suffix s) as [m0 E0]. destruct (lstrip_suffix r) as [m1 E2].
  assert (Es : s = (m0 ++ "~") ++ m1 ++ lstrip r).
  { rewrite E0 at 1. rewrite E1. rewrite E2 at 1.
    now rewrite !app_assoc_str. }
  destruct (m0 ++ "~") as [|c m] eqn:Em.
  - destruct m0; discriminate Em.
  - exists c, (m ++ m1). rewrite Es. now rewrite !app_String, app_assoc_str.
Qed.

Lemma sub_tilde_go_skip m r :
  sub_tilde_go (String.length m) (m ++ r) = sub_tilde_go 0 r.
Proof.
  induction m as [|c m IH]; [reflexivity|].
  rewrite app_String. cbn [String.length sub_tilde_go]. exact IH.
Qed.

(** [re.sub] deletes a match at the start and goes on after it; without a
    match there it keeps the first character *)
Lemma sub_tilde_unfold s :
  sub_tilde s =
  match match_tilde s with
  | Some rest => sub_tilde rest
  | None =>
      match s with
      | EmptyString => EmptyString
      | String c r => String c (sub_tilde r)
      end
  end.
Proof.
  unfold sub_tilde.
  destruct (match_tilde s) as [rest|] eqn:E.
  - destruct (match_tilde_suffix _ _ E) as (c & m & ->).
    rewrite app_String in *. cbn [sub_tilde_go]. rewrite E.
    cbn [String.length]. rewrite length_app_str.
    replace (Nat.pred (S (String.length m + String.length rest)
                       - String.length rest))
      with (String.length m) by lia.
    apply sub_tilde_go_skip.
  - destruct s as [|c r]; [reflexivity|].
    cbn [sub_tilde_go]. now rewrite E.
Qed.

Lemma match_tilde_needs_tilde s rest :
  match_tilde s = Some rest -> contains "~" s = true.
Proof.
  intros (r & E1 & _)%match_tilde_inv.
  destruct (lstrip_suffix s) as [m0 E0]. rewrite E0, E1.
  apply contains_suffix. cbn [contains]. reflexivity.
Qed.

(** [re.sub] leaves a text without [~] as it is *)
Lemma sub_tilde_id s : contains "~" s = false -> sub_tilde s = s.
Proof.
  induction s as [|c r IH]; [reflexivity|]. intros E.
  rewrite sub_tilde_unfold.
  destruct (match_tilde (String c r)) as [rest|] eqn:Em.
  - apply match_tilde_needs_tilde in Em. congruence.
  - cbn [contains] in E. apply orb_false_elim in E. destruct E as [_ E].
    now rewrite (IH E).
Qed.

Lemma sub_tilde_clean_upto n s :
  (String.length s <= n)%nat -> contains "~" (sub_tilde s) = false.
Proof.
  revert s. induction n as [|n IH]; intros s Hn.
  - destruct s; [reflexivity | cbn [String.length] in Hn; lia].
  - rewrite sub_tilde_unfold.
    destruct (match_tilde s) as [rest|] eqn:Em.
    + destruct (match_tilde_suffix _ _ Em) as (c & m & ->).
      apply IH. rewrite app_String in Hn. cbn [String.length] in Hn.
      rewrite length_app_str in Hn. lia.
    + destruct s as [|c r]; [reflexivity|].
      cbn [contains]. cbn [String.length] in Hn.
      rewrite (IH r) by lia. rewrite orb_false_r.
      destruct (Ascii.eqb_spec "~"%char c) as [<-|]; [|reflexivity].
      discriminate Em.
Qed.

Lemma rstrip_prefix s : exists m, s = rstrip s ++ m.
Proof.
  induction s as [|c r [m IH]]; [now exists ""|].
  cbn [rstrip]. destruct (rstrip r) as [|d r'] eqn:E.
  - destruct (is_whitespace c).
    + now exists (String c r).
    + exists r. reflexivity.
  - exists m. rewrite IH at 1. reflexivity.
Qed.

Lemma contains_strip c s : contains c s = false -> contains c (strip s) = false.
Proof.
  intros E. unfold strip.
  destruct (lstrip_suffix s) as [m0 E0]. rewrite E0, contains_app in E.
  apply orb_false_elim in E. destruct E as [_ E].
  destruct (rstrip_prefix (lstrip s)) as [m1 E1].
  rewrite E1, contains_app in E. now apply orb_false_elim in E.
Qed.

(** one clause [<field>: ~ <pattern>] *)
Lemma like_clause_sections f w rest filters :
  is_key (lower f) LOG_TEMP_keys = true ->
  w <> "" -> lstrip w = w -> ends_with_space w = false ->
  contains "~" w = false -> contains ":" w = false ->
  contains "010" w = false -> contains_str "range" w = false ->
  parse_sections ((f ++ ": ~ " ++ w) :: rest) filters
  = parse_sections rest
      (app filters [field_upper (lower f) ++ " LIKE '" ++ w ++ "'"]).
Proof.
  intros Hk Hne Hl He Ht Hc Hn Hr.
  destruct (key_letters _ Hk) as [Hlow _].
  destruct (upper_of_letters f Hlow) as (Hw & _).
  change (f ++ ": ~ " ++ w) with (f ++ ":" ++ " ~ " ++ w).
  cbn [parse_sections].
  rewrite search_before_colon_cut, search_after_colon_cut, line_head_id;
    try (now apply (contains_all_chars _ is_word_char));
    try (rewrite contains_app, ?Hc, ?Hn; reflexivity).
  cbn [or_raise]. rewrite !bind_Ok_l. rewrite (word_strip f Hw), Hk.
  assert (Hstrip : strip (" ~ " ++ w) = "~ " ++ w).
  { unfold strip. change (lstrip (" ~ " ++ w)) with ("~ " ++ w).
    apply rstrip_id. now rewrite ends_with_space_app. }
  rewrite Hstrip.
  assert (Hcs : contains_str "range" ("~ " ++ w) = false).
  { rewrite !app_String, app_Empty. cbn [contains_str].
    destruct w; [congruence|]. exact Hr. }
  rewrite Hcs.
  change (contains "~" ("~ " ++ w)) with true. cbn iota.
  unfold parse_regexfilter. rewrite sub_tilde_unfold.
  change (match_tilde ("~ " ++ w)) with (Some (lstrip w)).
  rewrite Hl, (sub_tilde_id w Ht). unfold strip. rewrite Hl, (rstrip_id w He).
  rewrite (field_upper_lower f Hk).
  now rewrite !app_String, !app_Empty.
Qed.

End TildeFacts.

(** ** One clause, ids and field lists *)

Section MoreFilterFacts.
Context {H : Host}.
Import SimpleNote.
Local Open Scope string_scope.

Lemma main_parse_timefilter_eq query :
  main.parse_timefilter query None = simple_note.parse_timefilter query None.
Proof. reflexivity. Qed.

Lemma length_prefix_of n s :
  String.length (prefix_of n s) = Nat.min n (String.length s).
Proof.
  revert s. induction n as [|n IH]; intros s; [reflexivity|].
  destruct s as [|c r]; [reflexivity|].
  cbn [prefix_of String.length]. now rewrite IH.
Qed.

Lemma prefix_of_all n s : (String.length s <= n)%nat -> prefix_of n s = s.
Proof.
  revert s. induction n as [|n IH]; intros s Hn.
  - destruct s; [reflexivity | cbn [String.length] in Hn; lia].
  - destruct s as [|c r]; [reflexivity|]. cbn [String.length] in Hn.
    cbn [prefix_of]. rewrite IH by lia. reflexivity.
Qed.

End MoreFilterFacts.

(** ** Two offsets in a row *)

Section ChainFacts.
Context {H : Host}.
Import simple_note.
Local Open Scope string_scope.

Lemma upto_last_op_last pre op post :
  is_opchar op = true -> contains "010" pre = false ->
  all_chars plain_char post = true ->
  upto_last_op (pre ++ String op post) = Some pre.
Proof.
  intros Hop Hpre Hpost. induction pre as [|c r IH].
  - now apply (upto_last_op_single "" op post).
  - cbn [contains] in Hpre. apply orb_false_elim in Hpre.
    destruct Hpre as [Hc Hr]. rewrite app_String. cbn [upto_last_op].
    unfold is_newline. now rewrite Ascii.eqb_sym, Hc, (IH Hr).
Qed.

Lemma search_before_op_last pre op post :
  is_opchar op = true -> contains "010" pre = false ->
  all_chars plain_char post = true ->
  search_before_op (pre ++ String op post) = Some pre.
Proof.
  intros Hop Hpre Hpost. destruct (pre ++ String op post) as [|c r] eqn:E.
  - destruct pre; discriminate E.
  - cbn [search_before_op]. rewrite <- E.
    now rewrite (upto_last_op_last pre op post).
Qed.

Lemma search_after_op_first pre op post :
  is_opchar op = true -> all_chars plain_char pre = true ->
  search_after_op (pre ++ String op post) = Some (line_head post).
Proof.
  intros Hop Hpre. induction pre as [|c r IH].
  - rewrite app_Empty. cbn [search_after_op]. now rewrite Hop.
  - rewrite app_String. cbn [all_chars] in Hpre. cbn [search_after_op].
    apply andb_prop in Hpre. destruct Hpre as [[Hc _]%andb_prop Hr].
    apply negb_true_iff in Hc. rewrite Hc. auto.
Qed.

Lemma search_op_first pre op post :
  is_opchar op = true -> all_chars plain_char pre = true ->
  search_op (pre ++ String op post) = Some (String op "").
Proof.
  intros Hop Hpre. induction pre as [|c r IH].
  - rewrite app_Empty. cbn [search_op]. now rewrite Hop.
  - rewrite app_String. cbn [all_chars] in Hpre. cbn [search_op].
    apply andb_prop in Hpre. destruct Hpre as [[Hc _]%andb_prop Hr].
    apply negb_true_iff in Hc. rewrite Hc. auto.
Qed.

Lemma replace_char_app c t a b :
  replace_char c t (a ++ b) = replace_char c t a ++ replace_char c t b.
Proof.
  induction a as [|x r IH]; [reflexivity|].
  rewrite app_String. cbn [replace_char]. rewrite IH.
  destruct (Ascii.eqb c x); [now rewrite app_assoc_str | now rewrite app_String].
Qed.

Lemma drop_digits_app w x :
  all_chars is_digit w = true -> drop_digits (w ++ x) = drop_digits x.
Proof.
  induction w as [|c r IH]; [reflexivity|]. cbn [all_chars].
  intros [Hc Hr]%andb_prop. rewrite app_String. cbn [drop_digits].
  now rewrite Hc, IH.
Qed.

Lemma digit_not_sign c :
  is_digit c = true ->
  Ascii.eqb c "+" = false /\ Ascii.eqb c "-" = false /\ Ascii.eqb c "*" = false.
Proof.
  destruct c as [[] [] [] [] [] [] [] []]; intros Hc; try discriminate Hc;
    repeat split; reflexivity.
Qed.

(** an amount with its unit letter is no Python token *)
Lemma classify_amount n u f :
  0 <= n -> unit_factor ins u = Some f ->
  classify (str_int n ++ String u "") = LBad.
Proof.
  intros Hn Hu. destruct (str_int_digits n Hn) as [Hd Hne].
  assert (Hdrop : drop_digits (str_int n ++ String u "") = String u "").
  { rewrite drop_digits_app by exact Hd.
    apply unit_factor_In in Hu. unfold ins in Hu. cbn [In] in Hu.
    destruct Hu as [E|[E|[E|[E|[]]]]]; injection E as <- <-; reflexivity. }
  assert (Hsuf : suffix_may_be_valid (str_int n ++ String u "") (String u "")
                 = false).
  { unfold suffix_may_be_valid.
    rewrite (andb_comm (starts_with "0" _)).
    apply unit_factor_In in Hu. unfold ins in Hu. cbn [In] in Hu.
    destruct Hu as [E|[E|[E|[E|[]]]]]; injection E as <- <-; reflexivity. }
  destruct (str_int n) as [|c r] eqn:E; [congruence|].
  pose proof Hd as Hd'. cbn [all_chars] in Hd'. apply andb_prop in Hd'.
  destruct Hd' as [Hc _].
  destruct (digit_not_sign c Hc) as (E1 & E2 & E3).
  rewrite app_String in *. cbn [classify]. rewrite E1, E2, E3, Hc.
  now rewrite Hdrop, Hsuf.
Qed.

Lemma classify_amount_number n :
  0 <= n -> classify (str_int n) = LTok (TNum n).
Proof.
  intros Hn. destruct n as [|p|p]; [reflexivity | apply classify_positive | lia].
Qed.


Lemma lex_word_sign w (plus : bool) rest :
  w <> "" -> all_chars is_word_char w = true ->
  lex (w ++ (if plus then " + " else " - ") ++ rest)
  = tok_cons (classify w)
      (tok_cons (LTok (if plus then TPlus else TMinus)) (lex rest)).
Proof.
  intros Hw Hall. destruct plus.
  - change (w ++ " + " ++ rest) with (w ++ " " ++ String "+" (" " ++ rest)).
    now rewrite lex_word_space, lex_plus, lex_space.
  - change (w ++ " - " ++ rest) with (w ++ " " ++ String "-" (" " ++ rest)).
    now rewrite lex_word_space, lex_minus, lex_space.
Qed.

Lemma lex_int_sign f (plus : bool) rest :
  lex (str_int f ++ (if plus then " + " else " - ") ++ rest)
  = tok_app (int_tokens f)
      (tok_cons (LTok (if plus then TPlus else TMinus)) (lex rest)).
Proof.
  destruct plus.
  - change (str_int f ++ " + " ++ rest)
      with (str_int f ++ " " ++ String "+" (" " ++ rest)).
    now rewrite lex_str_int_space, lex_plus, lex_space.
  - change (str_int f ++ " - " ++ rest)
      with (str_int f ++ " " ++ String "-" (" " ++ rest)).
    now rewrite lex_str_int_space, lex_minus, lex_space.
Qed.

Lemma lex_scaled n f :
  0 <= n ->
  lex (str_int n ++ "* " ++ str_int f)
  = Some (Some (TNum n :: TStar :: int_tokens f)).
Proof.
  intros Hn. destruct (str_int_digits n Hn) as [Hd Hne].
  rewrite lex_word_star by (try assumption; now apply digit_is_word_char).
  now rewrite lex_str_int, classify_amount_number.
Qed.

Lemma amount_word n u f :
  0 <= n -> unit_factor ins u = Some f ->
  str_int n ++ String u "" <> ""
  /\ all_chars is_word_char (str_int n ++ String u "") = true.
Proof.
  intros Hn Hu. destruct (str_int_digits n Hn) as [Hd Hne]. split.
  - destruct (str_int n); [congruence | discriminate].
  - rewrite all_chars_app, (digit_is_word_char _ Hd). cbn [all_chars andb].
    apply unit_factor_In in Hu. unfold ins in Hu. cbn [In] in Hu.
    destruct Hu as [E|[E|[E|[E|[]]]]]; injection E as <- <-; reflexivity.
Qed.

(** both amounts scaled: the text is an expression with a value *)
Lemma eval_both_scaled n1 n2 f (plus : bool) :
  0 <= n1 -> 0 <= n2 ->
  exists v,
    arith_eval ((str_int n1 ++ "* " ++ str_int f)
                ++ (if plus then " + " else " - ")
                ++ str_int n2 ++ "* " ++ str_int f)
    = Some (EvValue (VInt v)).
Proof.
  intros H1 H2. destruct (str_int_digits n1 H1) as [Hd1 Hne1].
  unfold arith_eval. rewrite !app_assoc_str.
  rewrite lex_word_star by (try assumption; now apply digit_is_word_char).
  rewrite lex_int_sign, lex_scaled, classify_amount_number by assumption.
  destruct f, plus; cbn; eauto.
Qed.

(** one amount left with its letter: a [SyntaxError] *)
Lemma eval_first_scaled n1 f (plus : bool) w2 :
  0 <= n1 -> w2 <> "" -> all_chars is_word_char w2 = true ->
  classify w2 = LBad ->
  arith_eval ((str_int n1 ++ "* " ++ str_int f)
              ++ (if plus then " + " else " - ") ++ w2)
  = Some EvRaise.
Proof.
  intros H1 Hne Hw Hbad. destruct (str_int_digits n1 H1) as [Hd1 Hne1].
  unfold arith_eval. rewrite !app_assoc_str.
  rewrite lex_word_star by (try assumption; now apply digit_is_word_char).
  rewrite lex_int_sign, lex_word_end, Hbad, classify_amount_number
    by assumption.
  now destruct f, plus.
Qed.

Lemma eval_second_scaled w1 (plus : bool) n2 f :
  0 <= n2 -> w1 <> "" -> all_chars is_word_char w1 = true ->
  classify w1 = LBad ->
  arith_eval (w1 ++ (if plus then " + " else " - ")
              ++ str_int n2 ++ "* " ++ str_int f)
  = Some EvRaise.
Proof.
  intros H2 Hne Hw Hbad. unfold arith_eval.
  rewrite lex_word_sign, lex_scaled, Hbad by assumption.
  now destruct plus.
Qed.

(** the last [eval]: the first operand is still a text with an amount and
    its letter in it *)
Lemma eval_chain_base anchor (plus1 : bool) w1 v :
  existsb (String.eqb anchor) anchor_names = true ->
  w1 <> "" -> all_chars is_word_char w1 = true -> classify w1 = LBad ->
  arith_eval
    (join_space [anchor ++ (if plus1 then " + " else " - ") ++ w1;
                 if plus1 then "+" else "-"; str_int v])
  = Some EvRaise.
Proof.
  intros Ha Hne Hw Hbad.
  assert (Hanchor : anchor <> "" /\ classify anchor = LTok TName).
  { revert Ha. unfold anchor_names. cbn [existsb].
    repeat match goal with
           | |- context [String.eqb anchor ?a] =>
               destruct (String.eqb_spec anchor a) as [->|_];
                 [intros _; split; [discriminate | reflexivity]|]
           end.
    cbn [orb]. discriminate. }
  destruct Hanchor as [Hane Hcl].
  unfold arith_eval. cbn [join_space]. rewrite !app_assoc_str.
  rewrite lex_word_sign by (try assumption; now apply anchor_word).
  rewrite lex_word_space, Hbad, Hcl by assumption.
  destruct plus1.
  - rewrite (app_String "+"), app_Empty, lex_plus, lex_space, lex_str_int.
    reflexivity.
  - rewrite (app_String "-"), app_Empty, lex_minus, lex_space, lex_str_int.
    reflexivity.
Qed.


Lemma letter_not_digit i : is_lower_letter i = true -> is_digit i = false.
Proof.
  destruct i as [[] [] [] [] [] [] [] []]; intros Hi; try discriminate Hi;
    reflexivity.
Qed.

Lemma contains_sign i (plus : bool) :
  is_lower_letter i = true ->
  contains i (if plus then " + " else " - ") = false.
Proof.
  destruct i as [[] [] [] [] [] [] [] []]; intros Hi; try discriminate Hi;
    now destruct plus.
Qed.

Lemma replace_amount i t n u :
  0 <= n -> is_digit i = false ->
  replace_char i t (str_int n ++ String u "")
  = str_int n ++ (if Ascii.eqb i u then t else String u "").
Proof.
  intros Hn Hi. destruct (str_int_digits n Hn) as [Hd _].
  rewrite replace_char_app.
  rewrite (replace_char_absent i t (str_int n))
    by now apply (contains_all_chars i is_digit).
  cbn [replace_char]. destruct (Ascii.eqb i u); [|reflexivity].
  now rewrite app_Empty_r.
Qed.

(** the loop over the unit letters on a tail of two amounts: it ends in
    [exit(1)], or gives an integer when both amounts have the same unit *)
Lemma second_operand_chain units n1 u1 f1 n2 u2 f2 (plus : bool) :
  eval_agrees H -> 0 <= n1 -> 0 <= n2 ->
  unit_factor ins u1 = Some f1 -> unit_factor ins u2 = Some f2 ->
  forallb (fun p => is_lower_letter (fst p)) units = true ->
  existsb (fun p => Ascii.eqb (fst p) u1) units = true ->
  let tail := (str_int n1 ++ String u1 "")
              ++ (if plus then " + " else " - ")
              ++ (str_int n2 ++ String u2 "") in
  second_operand units tail = Fail (Exit1 ExitTailEval)
  \/ exists v, second_operand units tail = Ok (VInt v).
Proof.
  intros Hag H1 H2 Hu1 Hu2 Hlet Hin tail.
  destruct (amount_word n1 u1 f1 H1 Hu1) as [Hne1 Hw1].
  destruct (amount_word n2 u2 f2 H2 Hu2) as [Hne2 Hw2].
  pose proof (classify_amount n1 u1 f1 H1 Hu1) as Hb1.
  pose proof (classify_amount n2 u2 f2 H2 Hu2) as Hb2.
  induction units as [|[i f] rest IH]; [discriminate Hin|].
  cbn [forallb fst] in Hlet. apply andb_prop in Hlet.
  destruct Hlet as [Hi Hrest].
  pose proof (letter_not_digit i Hi) as Hid.
  cbn [second_operand].
  assert (Hc : contains i tail = Ascii.eqb i u1 || Ascii.eqb i u2).
  { unfold tail. rewrite (contains_app i (_ ++ _)), (contains_app i (if plus then _ else _)).
    rewrite (contains_sign i plus Hi).
    now rewrite !contains_digits_unit by assumption. }
  assert (Hr : replace_char i ("* " ++ str_int f) tail
               = (str_int n1 ++ (if Ascii.eqb i u1 then "* " ++ str_int f
                                 else String u1 ""))
                 ++ (if plus then " + " else " - ")
                 ++ str_int n2 ++ (if Ascii.eqb i u2 then "* " ++ str_int f
                                   else String u2 "")).
  { unfold tail.
    rewrite (replace_char_app i _ (_ ++ _)).
    rewrite (replace_char_app i _ (if plus then _ else _)).
    rewrite !replace_amount by assumption.
    now rewrite (replace_char_absent i _ _ (contains_sign i plus Hi)). }
  rewrite Hc, Hr.
  cbn [existsb fst] in Hin.
  destruct (Ascii.eqb i u1) eqn:E1, (Ascii.eqb i u2) eqn:E2; cbn [orb].
  - right. destruct (eval_both_scaled n1 n2 f plus H1 H2) as [v Hv].
    exists v. now rewrite (Hag _ _ Hv).
  - left. now rewrite (Hag _ _ (eval_first_scaled n1 f plus _ H1 Hne2 Hw2 Hb2)).
  - left. now rewrite (Hag _ _ (eval_second_scaled _ plus n2 f H2 Hne1 Hw1 Hb1)).
  - apply IH; assumption.
Qed.


Lemma rstrip_app_space b : ends_with_space b = false -> rstrip (b ++ " ") = b.
Proof.
  induction b as [|c r IH]; [reflexivity|]. destruct r as [|d r'].
  - cbn [ends_with_space]. intros Hc. rewrite app_String, app_Empty.
    cbn [rstrip]. change (is_whitespace " ") with true. cbn iota.
    now rewrite Hc.
  - intros E. change (ends_with_space (String c (String d r')))
      with (ends_with_space (String d r')) in E.
    rewrite app_String. cbn [rstrip]. rewrite (IH E). reflexivity.
Qed.

Lemma anchor_not_numeric k x :
  existsb (String.eqb k) anchor_names = true -> isnumeric (k ++ x) = false.
Proof.
  unfold anchor_names. cbn [existsb].
  repeat match goal with
         | |- context [String.eqb k ?a] =>
             destruct (String.eqb_spec k a) as [->|_]; [reflexivity|]
         end.
  cbn [orb]. discriminate.
Qed.

Lemma word_strip_l s : all_chars is_word_char s = true -> lstrip s = s.
Proof.
  intros Hw. pose proof (word_no_space s Hw) as Hs.
  destruct s as [|c r]; [reflexivity|].
  cbn [all_chars] in Hs. apply andb_prop in Hs.
  destruct Hs as [Hc%negb_true_iff _]. now apply lstrip_not_space.
Qed.

Lemma word_grammar s :
  all_chars is_word_char s = true -> all_chars grammar_char s = true.
Proof.
  apply all_chars_impl. intros c Hc. unfold grammar_char. now rewrite Hc.
Qed.

Lemma starts_with_t_app w x :
  w <> "" -> starts_with "t" (w ++ x) = starts_with "t" w.
Proof.
  intros Hw. destruct w as [|c r]; [congruence|].
  rewrite app_String. unfold starts_with. cbn [strip_prefix].
  now destruct (Ascii.eqb "t" c).
Qed.

(** a bound that resolves, followed by a second offset: the parts the
    resolver cuts it into *)
Lemma chain_text_facts kw_now ts anchor (plus1 : bool) n1 u1 v
    (plus2 : bool) n2 u2 f2 :
  timeset kw_now = Ok ts ->
  bound_value ts (Offset anchor plus1 n1 u1) = Some v ->
  0 <= n2 -> unit_factor ins u2 = Some f2 ->
  let base := bound_text (Offset anchor plus1 n1 u1) in
  let w1 := str_int n1 ++ String u1 "" in
  let w2 := str_int n2 ++ String u2 "" in
  let text := base ++ (if plus2 then " + " else " - ") ++ w2 in
  tidy text
  /\ text = (anchor ++ " ")
            ++ String (if plus1 then "+" else "-")%char
                 (" " ++ w1 ++ (if plus2 then " + " else " - ") ++ w2)
  /\ text = (base ++ " ")
            ++ String (if plus2 then "+" else "-")%char (" " ++ w2)
  /\ all_chars grammar_char text = true.
Proof.
  intros Hts Hv Hn2 Hu2 base w1 w2 text.
  pose proof (bound_text_chars ts kw_now _ v Hts Hv) as Hbase.
  apply bound_value_inv in Hv.
  destruct Hv as (dt & a & f1 & Hk & _ & Hu1 & Hn1 & _).
  pose proof (timeset_keys kw_now ts anchor dt Hts Hk) as Hname.
  destruct (digits_unit_facts n1 u1 f1 Hu1 Hn1) as (A1 & A2 & A3 & A4).
  destruct (digits_unit_facts n2 u2 f2 Hu2 Hn2) as (B1 & B2 & B3 & B4).
  destruct (amount_word n1 u1 f1 Hn1 Hu1) as [Hne1 Hw1].
  destruct (amount_word n2 u2 f2 Hn2 Hu2) as [Hne2 Hw2].
  fold w1 in A1, A2, A3, A4, Hne1, Hw1. fold w2 in B1, B2, B3, B4, Hne2, Hw2.
  assert (Etext : text = anchor ++ (if plus1 then " + " else " - ")
                         ++ w1 ++ (if plus2 then " + " else " - ") ++ w2).
  { unfold text, base. cbn [bound_text]. fold w1.
    now rewrite !app_assoc_str. }
  clearbody w1 w2.
  split; [|split; [|split]].
  - rewrite Etext.
    apply (anchor_tidy anchor Hname).
    + apply no_space_t_app; [now destruct plus1| |].
      * apply no_space_t_app; [exact A1| |now destruct plus2].
        apply no_space_t_app; [now destruct plus2 | exact B1 | exact B2].
      * now rewrite starts_with_t_app.
    + now destruct plus1.
    + rewrite !contains_app, A3, B3. now destruct plus1, plus2.
    + rewrite !ends_with_space_app; auto using app_not_empty.
    + destruct plus1; discriminate.
  - rewrite Etext. rewrite app_assoc_str. now destruct plus1.
  - unfold text. rewrite app_assoc_str. now destruct plus2.
  - unfold text, base. rewrite !all_chars_app, Hbase, (word_grammar _ Hw2).
    now destruct plus2.
Qed.

Lemma chain_not_resolved kw_now ts anchor (plus1 : bool) n1 u1 v
    (plus2 : bool) n2 u2 f2 :
  eval_agrees H ->
  timeset kw_now = Ok ts ->
  bound_value ts (Offset anchor plus1 n1 u1) = Some v ->
  0 <= n2 -> unit_factor ins u2 = Some f2 ->
  exists site,
    resolve_bound ts
      (bound_text (Offset anchor plus1 n1 u1)
       ++ (if plus2 then " + " else " - ") ++ str_int n2 ++ String u2 "")
    = Fail (Exit1 site).
Proof.
  intros Hag Hts Hv Hn2 Hu2.
  destruct (chain_text_facts kw_now ts anchor plus1 n1 u1 v plus2 n2 u2 f2
              Hts Hv Hn2 Hu2) as (Htidy & E1 & E2 & Hchars).
  pose proof (bound_text_tidy ts kw_now _ v Hts Hv) as Tbase.
  pose proof (bound_text_chars ts kw_now _ v Hts Hv) as Cbase.
  apply bound_value_inv in Hv.
  destruct Hv as (dt & a & f1 & Hk & _ & Hu1 & Hn1 & _).
  pose proof (timeset_keys kw_now ts anchor dt Hts Hk) as Hname.
  destruct (anchor_name_facts anchor Hname) as (Hplain & _ & _).
  destruct (amount_word n1 u1 f1 Hn1 Hu1) as [Hne1 Hw1].
  destruct (amount_word n2 u2 f2 Hn2 Hu2) as [Hne2 Hw2].
  destruct (digits_unit_facts n2 u2 f2 Hu2 Hn2) as (_ & _ & _ & B4).
  pose proof (classify_amount n1 u1 f1 Hn1 Hu1) as Hbad.
  destruct (tail_facts n2 u2 f2 (unit_factor_In _ _ _ Hu2) Hn2) as [Hpost _].
  set (base := bound_text (Offset anchor plus1 n1 u1)) in *.
  set (w1 := str_int n1 ++ String u1 "") in *.
  set (w2 := str_int n2 ++ String u2 "") in *.
  set (text := base ++ (if plus2 then " + " else " - ") ++ w2) in *.
  set (tail := w1 ++ (if plus2 then " + " else " - ") ++ w2) in *.
  assert (Hsign : has_sign text = true)
    by (rewrite E2; destruct plus2; [apply has_sign_plus | apply has_sign_minus]).
  assert (Hbsign : has_sign base = true).
  { unfold base, has_sign. cbn [bound_text]. rewrite !contains_app.
    destruct plus1; cbn [contains Ascii.eqb Bool.eqb orb];
      now rewrite ?orb_true_r. }
  assert (Hbefore : search_before_op text = Some (base ++ " ")).
  { rewrite E2. apply search_before_op_last; [now destruct plus2| |exact Hpost].
    apply (contains_all_chars _ grammar_char); [reflexivity|].
    now rewrite all_chars_app, Cbase. }
  assert (Hafter : search_after_op text = Some (" " ++ tail)).
  { rewrite E1, search_after_op_first by (try assumption; now destruct plus1).
    f_equal. apply line_head_id.
    apply (contains_all_chars _ grammar_char); [reflexivity|].
    rewrite E1 in Hchars. rewrite all_chars_app in Hchars.
    apply andb_prop in Hchars. destruct Hchars as [_ Hchars].
    cbn [all_chars] in Hchars. apply andb_prop in Hchars. now destruct Hchars. }
  assert (Hop : search_op text
                = Some (String (if plus1 then "+" else "-")%char "")).
  { rewrite E1. apply search_op_first; [now destruct plus1 | exact Hplain]. }
  assert (Sbase : strip (base ++ " ") = base).
  { destruct Tbase as (_ & _ & We & Wl & Wz). unfold strip.
    rewrite (lstrip_app_head base _ Wl Wz). now apply rstrip_app_space. }
  assert (Stail : strip (" " ++ tail) = tail).
  { unfold strip. change (lstrip (" " ++ tail)) with (lstrip tail).
    assert (Hl : lstrip tail = tail).
    { unfold tail. apply lstrip_app_head; [|exact Hne1].
      now apply word_strip_l. }
    rewrite Hl. apply rstrip_id. unfold tail.
    rewrite !ends_with_space_app; auto using app_not_empty. }
  unfold resolve_bound.
  rewrite (signed_not_key kw_now ts text Hts Hsign), Hsign.
  rewrite Hbefore, Hafter, Hop. cbn [or_raise]. rewrite !bind_Ok_l.
  rewrite Sbase, Stail.
  rewrite (first_operand_text ts base
             (signed_not_key kw_now ts base Hts Hbsign)
             (anchor_not_numeric anchor _ Hname)).
  rewrite bind_Ok_l.
  destruct (second_operand_chain ins n1 u1 f1 n2 u2 f2 plus2
              Hag Hn1 Hn2 Hu1 Hu2 eq_refl) as [E | [v1 E]].
  - apply unit_factor_In in Hu1. unfold ins in Hu1 |- *. cbn [In] in Hu1.
    destruct Hu1 as [X|[X|[X|[X|[]]]]]; injection X as <- <-; reflexivity.
  - fold w1 w2 tail in E. rewrite E. now exists ExitTailEval.
  - fold w1 w2 tail in E. rewrite E, bind_Ok_l. exists ExitExprEval.
    cbn [py_str].
    assert (Es : strip (String (if plus1 then "+" else "-")%char "")
                 = if plus1 then "+" else "-") by now destruct plus1.
    rewrite Es. unfold base. cbn [bound_text]. fold w1.
    now rewrite (Hag _ _ (eval_chain_base anchor plus1 w1 v1
                            Hname Hne1 Hw1 Hbad)).
Qed.

End ChainFacts.

(** ** Several clauses *)

Section ClauseFacts.
Context {H : Host}.
Import SimpleNote.
Local Open Scope string_scope.

Lemma split_char_cut c x rest :
  contains c x = false ->
  split (String c "") (x ++ String c rest) = x :: split (String c "") rest.
Proof.
  intros Hx. unfold split. induction x as [|d r IH].
  - rewrite app_Empty. cbn [split_go]. unfold starts_with.
    cbn [strip_prefix]. now rewrite Ascii.eqb_refl.
  - cbn [contains] in Hx. apply orb_false_elim in Hx. destruct Hx as [Hd Hr].
    rewrite app_String. cbn [split_go]. unfold starts_with.
    cbn [strip_prefix]. rewrite Hd, (IH Hr). reflexivity.
Qed.

(** [split] undoes [join] on texts without the separator *)
Lemma split_join c l :
  l <> [] -> (forall x, In x l -> contains c x = false) ->
  split (String c "") (join (String c "") l) = l.
Proof.
  induction l as [|x [|y r] IH]; intros Hne Hall; [congruence| |].
  - cbn [join]. apply split_single, Hall. now left.
  - change (join (String c "") (x :: y :: r))
      with (x ++ String c "" ++ join (String c "") (y :: r)).
    rewrite app_String, app_Empty.
    rewrite split_char_cut by (apply Hall; now left).
    rewrite IH; [reflexivity | discriminate |].
    intros z Hz. apply Hall. now right.
Qed.

Lemma plain_pattern_inv w :
  plain_pattern w = true ->
  w <> "" /\ lstrip w = w /\ ends_with_space w = false
  /\ contains "~" w = false /\ contains ":" w = false
  /\ contains ";" w = false /\ contains "010" w = false
  /\ contains_str "range" w = false.
Proof.
  unfold plain_pattern. intros Hp.
  repeat (apply andb_prop in Hp; destruct Hp as [Hp ?]).
  repeat match goal with
         | X : negb _ = true |- _ => apply negb_true_iff in X
         | X : String.eqb _ _ = true |- _ => apply String.eqb_eq in X
         | X : String.eqb _ _ = false |- _ => apply String.eqb_neq in X
         end.
  auto 10.
Qed.

Lemma clause_text_no_semicolon ts c cond :
  simple_note.timeset None = Ok ts ->
  clause_condition ts c = Some cond ->
  contains ";" (clause_text c) = false.
Proof.
  intros Hts Hc. destruct c as [f b1 b2 | f w]; cbn [clause_condition] in Hc.
  - destruct (is_key (lower f) LOG_TEMP_keys) eqn:Hk; [|discriminate].
    destruct (bound_value ts b1) as [v1|] eqn:Hv1; [|discriminate].
    destruct (bound_value ts b2) as [v2|] eqn:Hv2; [|discriminate].
    destruct (key_letters _ Hk) as [Hl _].
    destruct (upper_of_letters f Hl) as (Hw & _).
    cbn [clause_text]. rewrite !contains_app.
    rewrite (contains_all_chars ";" is_word_char f eq_refl Hw).
    rewrite (contains_all_chars ";" grammar_char _ eq_refl
               (bound_text_chars ts None b1 v1 Hts Hv1)).
    rewrite (contains_all_chars ";" grammar_char _ eq_refl
               (bound_text_chars ts None b2 v2 Hts Hv2)).
    reflexivity.
  - destruct (is_key (lower f) LOG_TEMP_keys) eqn:Hk; [|discriminate].
    destruct (plain_pattern w) eqn:Hp; [|discriminate].
    apply plain_pattern_inv in Hp.
    destruct Hp as (_ & _ & _ & _ & _ & Hs & _).
    destruct (key_letters _ Hk) as [Hl _].
    destruct (upper_of_letters f Hl) as (Hw & _).
    cbn [clause_text]. rewrite !contains_app, Hs.
    now rewrite (contains_all_chars ";" is_word_char f eq_refl Hw).
Qed.

Lemma clause_sections ts c cond rest filters :
  eval_agrees H -> simple_note.timeset None = Ok ts ->
  clause_condition ts c = Some cond ->
  parse_sections (clause_text c :: rest) filters
  = parse_sections rest (app filters [cond]).
Proof.
  intros Hag Hts Hc. destruct c as [f b1 b2 | f w]; cbn [clause_condition] in Hc.
  - destruct (is_key (lower f) LOG_TEMP_keys) eqn:Hk; [|discriminate].
    destruct (bound_value ts b1) as [v1|] eqn:Hv1; [|discriminate].
    destruct (bound_value ts b2) as [v2|] eqn:Hv2; [|discriminate].
    injection Hc as <-.
    apply (range_clause_sections ts f b1 b2 v1 v2 rest filters
             Hag Hts Hk Hv1 Hv2).
  - destruct (is_key (lower f) LOG_TEMP_keys) eqn:Hk; [|discriminate].
    destruct (plain_pattern w) eqn:Hp; [|discriminate].
    injection Hc as <-. apply plain_pattern_inv in Hp.
    destruct Hp as (P1 & P2 & P3 & P4 & P5 & _ & P7 & P8).
    now apply like_clause_sections.
Qed.

Lemma clauses_sections ts cs conds filters :
  eval_agrees H -> simple_note.timeset None = Ok ts ->
  clause_conditions ts cs = Some conds ->
  parse_sections (map clause_text cs) filters = Ok (app filters conds).
Proof.
  intros Hag Hts. revert conds filters.
  induction cs as [|c cs IH]; intros conds filters Hc.
  - injection Hc as <-. now rewrite app_nil_r.
  - cbn [clause_conditions] in Hc.
    destruct (clause_condition ts c) as [x|] eqn:Hx; [|discriminate].
    destruct (clause_conditions ts cs) as [l|] eqn:Hl; [|discriminate].
    injection Hc as <-. cbn [map].
    rewrite (clause_sections ts c x _ filters Hag Hts Hx), (IH l _ eq_refl).
    now rewrite <- app_assoc.
Qed.

Lemma clauses_no_semicolon ts cs conds :
  simple_note.timeset None = Ok ts ->
  clause_conditions ts cs = Some conds ->
  forall x, In x (map clause_text cs) -> contains ";" x = false.
Proof.
  intros Hts. revert conds. induction cs as [|c cs IH]; intros conds Hc x Hx.
  - destruct Hx.
  - cbn [clause_conditions] in Hc.
    destruct (clause_condition ts c) as [y|] eqn:Hy; [|discriminate].
    destruct (clause_conditions ts cs) as [l|] eqn:Hl; [|discriminate].
    destruct Hx as [<-|Hx].
    + now apply (clause_text_no_semicolon ts c y).
    + now apply (IH l).
Qed.

End ClauseFacts.

(** ** Queries, clauses and statements *)

Lemma timeset_utc_host : simple_note.timeset (H := utc_host) None = Ok test_timeset.
Proof. vm_compute. reflexivity. Qed.

(** Every query of the documented grammar resolves.  For two bounds that
    are an anchor name, or an anchor name, [+] or [-], a decimal amount that
    is not negative and one of the unit letters [s], [m], [h], [d],
    [parse_timefilter] on ["range= <bound> to <bound>"] returns the range
    whose slots are the [timestamp()] of each anchor moved by the amount
    times the seconds of the unit. *)
Theorem grammar_query_resolves (H : Host) (kw_now : option datetime)
    (ts : gmap string datetime) (b1 b2 : bound_form) (v1 v2 : Z) :
  eval_agrees H ->
  simple_note.timeset kw_now = Ok ts ->
  bound_value ts b1 = Some v1 ->
  bound_value ts b2 = Some v2 ->
  simple_note.parse_timefilter
    ("range= " ++ bound_text b1 ++ " to " ++ bound_text b2)%string kw_now
  = Ok {| range_start := VInt v1; range_end := VInt v2 |}.
Proof.
  intros Hag Hts Hv1 Hv2.
  rewrite (tidy_query_parts H kw_now ts _ _ Hts
             (bound_text_tidy ts kw_now b1 v1 Hts Hv1)
             (bound_text_tidy ts kw_now b2 v2 Hts Hv2)).
  rewrite (resolve_bound_form kw_now ts b1 v1 Hag Hts Hv1).
  rewrite (resolve_bound_form kw_now ts b2 v2 Hag Hts Hv2).
  reflexivity.
Qed.

Lemma grammar_query_resolves_witness :
  simple_note.parse_timefilter (H := utc_host)
    "range= start_of_this_week - 300m to start_of_today + 7s" (Some test_now)
  = Ok {| range_start := VInt 1649012400; range_end := VInt 1649289607 |}.
Proof.
  apply (grammar_query_resolves utc_host (Some test_now) test_timeset
           (Offset "start_of_this_week" false 300 "m")
           (Offset "start_of_today" true 7 "s")
           1649012400 1649289607).
  - exact utc_host_eval_agrees.
  - apply (timeset_test_now (H := utc_host) 1649334600). reflexivity.
  - reflexivity.
  - reflexivity.
Defined.

(** Offsets cannot be chained.  A bound that resolves, followed by a second
    offset ([now - 1d - 2h]), never resolves, whether it is the start or
    the end of the query: the text before the last sign is no anchor, and
    an [eval] of a text with an amount and its unit letter in it raises, so
    that [parse_timefilter] prints the exception and calls [exit(1)]. *)
Theorem chained_offsets_never_resolve (H : Host) (kw_now : option datetime)
    (ts : gmap string datetime) (anchor : string) (plus1 : bool) (n1 : Z)
    (u1 : ascii) (v : Z) (plus2 : bool) (n2 : Z) (u2 : ascii) (f2 : Z)
    (b : bound_form) (v' : Z) :
  let chained :=
    (bound_text (Offset anchor plus1 n1 u1)
     ++ (if plus2 then " + " else " - ") ++ str_int n2 ++ String u2 "")%string in
  eval_agrees H ->
  simple_note.timeset kw_now = Ok ts ->
  bound_value ts (Offset anchor plus1 n1 u1) = Some v ->
  0 <= n2 -> unit_factor simple_note.ins u2 = Some f2 ->
  bound_value ts b = Some v' ->
  (exists site,
     simple_note.parse_timefilter
       ("range= " ++ chained ++ " to " ++ bound_text b)%string kw_now
     = Fail (Exit1 site))
  /\ (exists site,
        simple_note.parse_timefilter
          ("range= " ++ bound_text b ++ " to " ++ chained)%string kw_now
        = Fail (Exit1 site)).
Proof.
  intros chained Hag Hts Hv Hn2 Hu2 Hb.
  destruct (chain_text_facts kw_now ts anchor plus1 n1 u1 v plus2 n2 u2 f2
              Hts Hv Hn2 Hu2) as (Htidy & _).
  destruct (chain_not_resolved kw_now ts anchor plus1 n1 u1 v plus2 n2 u2 f2
              Hag Hts Hv Hn2 Hu2) as [site Hsite].
  pose proof (bound_text_tidy ts kw_now b v' Hts Hb) as Tb.
  fold chained in Hsite. split; exists site.
  - rewrite (tidy_query_parts H kw_now ts chained _ Hts Htidy Tb).
    now rewrite Hsite.
  - rewrite (tidy_query_parts H kw_now ts _ chained Hts Tb Htidy).
    rewrite (resolve_bound_form kw_now ts b v' Hag Hts Hb), bind_Ok_l.
    now rewrite Hsite.
Qed.

Lemma chained_offsets_never_resolve_witness :
  (exists site,
     simple_note.parse_timefilter (H := utc_host)
       "range= now - 1d - 2h to end_of_today" (Some test_now)
     = Fail (Exit1 site))
  /\ (exists site,
        simple_note.parse_timefilter (H := utc_host)
          "range= end_of_today to now - 1d - 2h" (Some test_now)
        = Fail (Exit1 site)).
Proof.
  apply (chained_offsets_never_resolve utc_host (Some test_now) test_timeset
           "now" false 1 "d" 1649248200 false 2 "h" 3600
           (Bare "end_of_today") 1649375999).
  - exact utc_host_eval_agrees.
  - apply (timeset_test_now (H := utc_host) 1649334600). reflexivity.
  - reflexivity.
  - lia.
  - reflexivity.
  - reflexivity.
Defined.



(** [parse_filter] never returns for a filter with a section that has no
    colon, such as the empty section after a [;] at the end: [re.search]
    gives [None] there and [.group] raises, unless a section before it has
    ended the call already. *)
Theorem section_without_colon_fails (H : Host) (filter section : string) :
  In section (split ";" filter) ->
  contains ":" section = false ->
  exists e, SimpleNote.parse_filter filter = Fail e.
Proof.
  intros Hin Hc. apply in_split in Hin. destruct Hin as (pre & rest & E).
  unfold SimpleNote.parse_filter. rewrite E.
  destruct (parse_sections_no_colon pre section rest [] Hc) as [e ->].
  now exists e.
Qed.

Lemma section_without_colon_fails_witness :
  exists e,
    SimpleNote.parse_filter (H := utc_host)
      "scheduled: range= start_of_today to now;" = Fail e.
Proof.
  apply (section_without_colon_fails utc_host
           "scheduled: range= start_of_today to now;" "").
  - vm_compute. right. left. reflexivity.
  - reflexivity.
Defined.

(** A filter of one range clause of the grammar becomes one condition:
    the field in capitals, whatever the case it was written in, two spaces,
    [BETWEEN], and the two resolved bounds in decimal. *)
Theorem range_clause_statement (H : Host) (ts : gmap string datetime)
    (f : string) (b1 b2 : bound_form) (v1 v2 : Z) :
  eval_agrees H ->
  simple_note.timeset None = Ok ts ->
  SimpleNote.is_key (lower f) SimpleNote.LOG_TEMP_keys = true ->
  bound_value ts b1 = Some v1 ->
  bound_value ts b2 = Some v2 ->
  SimpleNote.parse_filter
    (f ++ ": range= " ++ bound_text b1 ++ " to " ++ bound_text b2)%string
  = Ok ("WHERE " ++ SimpleNote.field_upper (lower f) ++ "  BETWEEN "
        ++ str_int v1 ++ " AND " ++ str_int v2)%string.
Proof.
  intros Hag Hts Hk Hv1 Hv2. unfold SimpleNote.parse_filter.
  destruct (key_letters _ Hk) as [Hl _].
  destruct (upper_of_letters f Hl) as (Hw & _).
  rewrite split_single.
  - now rewrite (range_clause_sections ts f b1 b2 v1 v2 [] [] Hag Hts Hk Hv1 Hv2).
  - rewrite !contains_app.
    rewrite (contains_all_chars ";" is_word_char f eq_refl Hw).
    rewrite (contains_all_chars ";" grammar_char _ eq_refl
               (bound_text_chars ts None b1 v1 Hts Hv1)).
    rewrite (contains_all_chars ";" grammar_char _ eq_refl
               (bound_text_chars ts None b2 v2 Hts Hv2)).
    reflexivity.
Qed.

Lemma range_clause_statement_witness :
  SimpleNote.parse_filter (H := utc_host)
    "Created: range= start_of_this_month to now - 2h"
  = Ok "WHERE CREATED  BETWEEN 1648771200 AND 1649327400"%string.
Proof.
  apply (range_clause_statement utc_host test_timeset "Created"
           (Bare "start_of_this_month") (Offset "now" false 2 "h")
           1648771200 1649327400).
  - exact utc_host_eval_agrees.
  - exact timeset_utc_host.
  - reflexivity.
  - reflexivity.
  - reflexivity.
Defined.

(** Without [--filter], [simple_note()] lists what is scheduled today, and
    for the standup format what is scheduled since the start of yesterday,
    or of three days ago when its own reading of the clock is a Monday:
    the statement that [get_log] sends selects the fields of the verbosity
    from [WORKLOG] where [SCHEDULED] lies between those two instants. *)
Theorem default_listing_statement (H : Host) (ts : gmap string datetime)
    (clock : datetime) (output : string) (filter : option string)
    (verbose a b c : Z) :
  let sot := host_now / 86400 * 86400 in
  let standup := String.eqb output "standup" in
  let back := (if weekday clock =? 0 then 3 else 1) * 86400 in
  eval_agrees H ->
  in_range host_now = true ->
  simple_note.timeset None = Ok ts ->
  host_timestamp sot = Some a ->
  host_timestamp (sot + 86399) = Some b ->
  host_timestamp host_now = Some c ->
  SimpleNote.no_filter filter = true ->
  SimpleNote.get_log_statement
    (SimpleNote.chosen_filter clock output filter) verbose
  = Ok ("SELECT " ++ join "," (SimpleNote.display_fields verbose)
        ++ " FROM WORKLOG WHERE SCHEDULED  BETWEEN "
        ++ str_int (if standup then a - back else a)
        ++ " AND " ++ str_int (if standup then c else b))%string.
Proof.
  cbv zeta. intros Hag Hr Hts Ha Hb Hc Hnf.
  destruct (timeset_table None ts Hr Hts) as (_ & Etab).
  assert (Lsot : @lookup _ datetime _ _ "start_of_today"%string ts
                 = Some (host_now / 86400 * 86400))
    by (rewrite Etab; reflexivity).
  assert (Leot : @lookup _ datetime _ _ "end_of_today"%string ts
                 = Some (host_now / 86400 * 86400 + 86399))
    by (rewrite Etab; reflexivity).
  assert (Lnow : @lookup _ datetime _ _ "now"%string ts = Some host_now)
    by (rewrite Etab; reflexivity).
  assert (Hsot : bound_value ts (Bare "start_of_today") = Some a)
    by (unfold bound_value; now rewrite Lsot).
  assert (Heot : bound_value ts (Bare "end_of_today") = Some b)
    by (unfold bound_value; now rewrite Leot).
  assert (Hnow : bound_value ts (Bare "now") = Some c)
    by (unfold bound_value; now rewrite Lnow).
  assert (Hback : forall n, 0 <= n ->
            bound_value ts (Offset "start_of_today" false n "d")
            = Some (a - n * 86400)).
  { intros n Hn. unfold bound_value. rewrite Lsot, Ha.
    change (unit_factor simple_note.ins "d") with (Some 86400).
    destruct (Z.ltb_spec n 0); [lia | reflexivity]. }
  unfold SimpleNote.get_log_statement, SimpleNote.chosen_filter.
  rewrite Hnf, !andb_true_r. unfold SimpleNote.parse_filter.
  destruct (String.eqb output "standup").
  - destruct (weekday clock =? 0).
    + rewrite split_single by reflexivity.
      rewrite (range_clause_sections ts "scheduled"
                 (Offset "start_of_today" false 3 "d") (Bare "now")
                 (a - 3 * 86400) c [] [] Hag Hts eq_refl (Hback 3 ltac:(lia)) Hnow
               : SimpleNote.parse_sections
                   ["scheduled: range= start_of_today - 3d to now"%string] []
                 = _).
      reflexivity.
    + rewrite split_single by reflexivity.
      rewrite (range_clause_sections ts "scheduled"
                 (Offset "start_of_today" false 1 "d") (Bare "now")
                 (a - 1 * 86400) c [] [] Hag Hts eq_refl (Hback 1 ltac:(lia)) Hnow
               : SimpleNote.parse_sections
                   ["scheduled: range= start_of_today - 1d to now"%string] []
                 = _).
      reflexivity.
  - rewrite split_single by reflexivity.
    rewrite (range_clause_sections ts "scheduled"
               (Bare "start_of_today") (Bare "end_of_today")
               a b [] [] Hag Hts eq_refl Hsot Heot
             : SimpleNote.parse_sections
                 ["scheduled: range= start_of_today to end_of_today"%string] []
               = _).
    reflexivity.
Qed.

Lemma default_listing_statement_witness :
  SimpleNote.get_log_statement (H := utc_host)
    (SimpleNote.chosen_filter (datetime_of 2022 4 4 9 0 0) "standup" None) 2
  = Ok ("SELECT task,issue,priority,status,scheduled"
        ++ " FROM WORKLOG WHERE SCHEDULED  BETWEEN 1649030400"
        ++ " AND 1649334600")%string.
Proof.
  apply (default_listing_statement utc_host test_timeset
           (datetime_of 2022 4 4 9 0 0) "standup" None 2
           1649289600 1649375999 1649334600).
  - exact utc_host_eval_agrees.
  - reflexivity.
  - exact timeset_utc_host.
  - reflexivity.
  - reflexivity.
  - reflexivity.
  - reflexivity.
Defined.

(** A filter of one [~] clause becomes one condition: the field in
    capitals, [LIKE], and the pattern between single quotes, character for
    character as it was written. *)
Theorem like_clause_statement (H : Host) (f w : string) :
  SimpleNote.is_key (lower f) SimpleNote.LOG_TEMP_keys = true ->
  w <> ""%string -> lstrip w = w -> ends_with_space w = false ->
  contains "~" w = false -> contains ":" w = false ->
  contains ";" w = false -> contains "010" w = false ->
  contains_str "range" w = false ->
  SimpleNote.parse_filter (f ++ ": ~ " ++ w)%string
  = Ok ("WHERE " ++ SimpleNote.field_upper (lower f)
        ++ " LIKE '" ++ w ++ "'")%string.
Proof.
  intros Hk Hne Hl He Ht Hc Hs Hn Hr. unfold SimpleNote.parse_filter.
  destruct (key_letters _ Hk) as [Hlow _].
  destruct (upper_of_letters f Hlow) as (Hw & _).
  rewrite split_single.
  - now rewrite (like_clause_sections f w [] [] Hk Hne Hl He Ht Hc Hn Hr).
  - rewrite !contains_app, Hs.
    now rewrite (contains_all_chars ";" is_word_char f eq_refl Hw).
Qed.

Lemma like_clause_statement_witness :
  SimpleNote.parse_filter (H := utc_host) "Task: ~ %it's due%"
  = Ok "WHERE TASK LIKE '%it's due%'"%string.
Proof.
  apply (like_clause_statement utc_host "Task" "%it's due%");
    reflexivity || discriminate.
Defined.

(** Whatever the query, the text that [parse_regexfilter] returns has no
    [~] in it: [re.sub] deletes every one. *)
Theorem like_pattern_has_no_tilde (H : Host) (query : string) :
  contains "~" (SimpleNote.parse_regexfilter query) = false.
Proof.
  unfold SimpleNote.parse_regexfilter. rewrite !contains_app.
  rewrite (contains_strip "~" _ (sub_tilde_clean_upto _ query (le_n _))).
  reflexivity.
Qed.

(** Clauses separated by [;] become conditions joined by [AND], in the
    order they were written: for clauses that are each a range of the
    grammar or a [~] with a plain pattern, on fields that are keys of
    [LOG_TEMP], [parse_filter] returns [WHERE] and the conditions of the
    clauses with [" AND "] between them. *)
Theorem clauses_joined_by_and (H : Host) (ts : gmap string datetime)
    (cs : list clause_form) (conds : list string) :
  eval_agrees H ->
  simple_note.timeset None = Ok ts ->
  cs <> [] ->
  clause_conditions ts cs = Some conds ->
  SimpleNote.parse_filter (join ";" (map clause_text cs))
  = Ok ("WHERE " ++ join " AND " conds)%string.
Proof.
  intros Hag Hts Hne Hc. unfold SimpleNote.parse_filter.
  rewrite split_join.
  - now rewrite (clauses_sections ts cs conds [] Hag Hts Hc).
  - now destruct cs.
  - exact (clauses_no_semicolon ts cs conds Hts Hc).
Qed.

Lemma clauses_joined_by_and_witness :
  SimpleNote.parse_filter (H := utc_host)
    "status: ~ todo;Scheduled: range= start_of_today - 1d to now"
  = Ok ("WHERE STATUS LIKE 'todo'"
        ++ " AND SCHEDULED  BETWEEN 1649203200 AND 1649334600")%string.
Proof.
  apply (clauses_joined_by_and utc_host test_timeset
           [LikeClause "status" "todo";
            RangeClause "Scheduled"
              (Offset "start_of_today" false 1 "d") (Bare "now")]
           ["STATUS LIKE 'todo'"%string;
            "SCHEDULED  BETWEEN 1649203200 AND 1649334600"%string]).
  - exact utc_host_eval_agrees.
  - exact timeset_utc_host.
  - discriminate.
  - reflexivity.
Defined.

(** A clause on a field that is no key of [LOG_TEMP] is skipped: a filter
    of that clause alone gives ["WHERE "] with no condition after it. *)
Theorem unknown_field_is_skipped (H : Host) (f q : string) :
  SimpleNote.is_key (lower (strip f)) SimpleNote.LOG_TEMP_keys = false ->
  contains "010" f = false -> contains ":" f = false ->
  contains ":" q = false ->
  contains ";" f = false -> contains ";" q = false ->
  SimpleNote.parse_filter (f ++ ":" ++ q)%string = Ok "WHERE "%string.
Proof.
  intros Hk Hn Hc Hq Hs1 Hs2. unfold SimpleNote.parse_filter.
  rewrite split_single by (rewrite !contains_app, Hs1, Hs2; reflexivity).
  cbn [SimpleNote.parse_sections].
  rewrite (search_before_colon_cut f q Hn Hq), (search_after_colon_cut f q Hc).
  cbn [or_raise]. rewrite !bind_Ok_l, Hk. reflexivity.
Qed.

Lemma unknown_field_is_skipped_witness :
  SimpleNote.parse_filter (H := utc_host) "owner: range= start_of_today to now"
  = Ok "WHERE "%string.
Proof.
  apply (unknown_field_is_skipped utc_host "owner"
           " range= start_of_today to now"); reflexivity.
Defined.



(** A higher verbosity never hides a field: the fields [get_log] selects
    for a verbosity are among those of every higher one. *)
Theorem display_fields_grow (v w : Z) :
  v <= w ->
  incl (SimpleNote.display_fields v) (SimpleNote.display_fields w).
Proof.
  intros Hvw. unfold SimpleNote.display_fields.
  destruct (Z.leb_spec v 1), (Z.leb_spec w 1), (Z.eqb_spec v 2),
    (Z.eqb_spec w 2), (Z.eqb_spec v 3), (Z.eqb_spec w 3); try lia;
    vm_compute; intros x Hx; tauto.
Qed.

Lemma display_fields_grow_witness :
  incl (SimpleNote.display_fields 1) (SimpleNote.display_fields 2).
Proof. apply (display_fields_grow 1 2). lia. Defined.

(** The id of an entry, which [--delete] asks for, is selected from
    verbosity 4 on and at no lower one. *)
Theorem id_shown_from_verbosity_4 (v : Z) :
  In "id"%string (SimpleNote.display_fields v) <-> 4 <= v.
Proof.
  unfold SimpleNote.display_fields.
  destruct (Z.leb_spec v 1), (Z.eqb_spec v 2), (Z.eqb_spec v 3);
    vm_compute In; split; intros Hx; try lia;
    repeat (destruct Hx as [Hx|Hx]; try discriminate Hx); try tauto.
Qed.

(** The id that [add_log] gives an entry, the first 32 characters of the
    text of a UUID, has the length [delete_log] asks for: the call goes on
    to the [DELETE] statement for that id. *)
Theorem new_id_passes_delete_check (uuid_text : string) :
  (32 <= String.length uuid_text)%nat ->
  SimpleNote.delete_log_statement (SimpleNote.entry_id uuid_text)
  = Some ("DELETE FROM WORKLOG WHERE ID = '"
          ++ prefix_of 32 uuid_text ++ "'")%string.
Proof.
  intros Hn. unfold SimpleNote.delete_log_statement, SimpleNote.entry_id.
  rewrite length_prefix_of, Nat.min_l by exact Hn. reflexivity.
Qed.

Lemma new_id_passes_delete_check_witness :
  SimpleNote.delete_log_statement
    (SimpleNote.entry_id "123e4567-e89b-12d3-a456-426614174000")
  = Some "DELETE FROM WORKLOG WHERE ID = '123e4567-e89b-12d3-a456-42661417'"%string.
Proof.
  apply (new_id_passes_delete_check "123e4567-e89b-12d3-a456-426614174000").
  apply Nat.leb_le. reflexivity.
Defined.

(** A note of fewer than 10 characters is shown as long as it is, any
    other takes 13 characters: a note of 10, 11 or 12 characters is shown
    longer than it is. *)
Theorem shown_note_length (note : string) :
  String.length (SimpleNote.shown_note note)
  = if (String.length note <? 10)%nat then String.length note else 13%nat.
Proof.
  unfold SimpleNote.shown_note.
  destruct (Nat.leb_spec 10 (String.length note)) as [Hl|Hl].
  - rewrite length_app_str, length_prefix_of, Nat.min_l by exact Hl.
    destruct (Nat.ltb_spec (String.length note) 10); [lia | reflexivity].
  - destruct (Nat.ltb_spec (String.length note) 10); [reflexivity | lia].
Qed.

(** Without [--filter], [main()] of [main.py] lists what is scheduled from
    the start of today up to now: its [parse_filter] turns the default of
    the option into that condition on [SCHEDULED]. *)
Theorem main_default_filter_statement (H : Host) (ts : gmap string datetime)
    (a c : Z) :
  eval_agrees H ->
  in_range host_now = true ->
  main.timeset None = Ok ts ->
  host_timestamp (host_now / 86400 * 86400) = Some a ->
  host_timestamp host_now = Some c ->
  Main.parse_filter Main.default_filter
  = Ok (Some ("WHERE SCHEDULED  BETWEEN " ++ str_int a
              ++ " AND " ++ str_int c)%string).
Proof.
  intros Hag Hr Hts Ha Hc.
  change (main.timeset None) with (simple_note.timeset None) in Hts.
  destruct (timeset_table None ts Hr Hts) as (_ & Etab).
  assert (Lsot : @lookup _ datetime _ _ "start_of_today"%string ts
                 = Some (host_now / 86400 * 86400))
    by (rewrite Etab; reflexivity).
  assert (Lnow : @lookup _ datetime _ _ "now"%string ts = Some host_now)
    by (rewrite Etab; reflexivity).
  assert (Hsot : bound_value ts (Bare "start_of_today") = Some a)
    by (unfold bound_value; now rewrite Lsot).
  assert (Hnow : bound_value ts (Bare "now") = Some c)
    by (unfold bound_value; now rewrite Lnow).
  unfold Main.parse_filter, Main.default_filter.
  change (search_before is_colon "scheduled: range= start_of_today to now")
    with (Some "scheduled"%string).
  change (search_after is_colon "scheduled: range= start_of_today to now")
    with (Some " range= start_of_today to now"%string).
  cbn [or_raise]. rewrite !bind_Ok_l.
  change (strip "scheduled") with "scheduled"%string.
  change (strip " range= start_of_today to now")
    with "range= start_of_today to now"%string.
  change (SimpleNote.is_key (lower "scheduled") Main.LOG_TEMP_keys) with true.
  change (contains_str "range" "range= start_of_today to now") with true.
  cbn iota. rewrite main_parse_timefilter_eq.
  rewrite (tidy_query_parts H None ts _ _ Hts
             (bound_text_tidy ts None (Bare "start_of_today") a Hts Hsot)
             (bound_text_tidy ts None (Bare "now") c Hts Hnow)
           : simple_note.parse_timefilter
               "range= start_of_today to now"%string None = _).
  rewrite (resolve_bound_form None ts (Bare "start_of_today") a Hag Hts Hsot).
  rewrite (resolve_bound_form None ts (Bare "now") c Hag Hts Hnow).
  reflexivity.
Qed.

Lemma main_default_filter_statement_witness :
  Main.parse_filter (H := utc_host) Main.default_filter
  = Ok (Some "WHERE SCHEDULED  BETWEEN 1649289600 AND 1649334600"%string).
Proof.
  apply (main_default_filter_statement utc_host test_timeset
           1649289600 1649334600).
  - exact utc_host_eval_agrees.
  - reflexivity.
  - exact timeset_utc_host.
  - reflexivity.
  - reflexivity.
Defined.
